(** * tf-schema-parser: the schema-to-template rendering engine

    A shallow embedding of [TerraformSchemaParser] (tf-schema-parser.py):
    [get_schema_block], [generate_hcl_template], [_format_attribute],
    [_format_block_type], [_parse_type] and [_get_placeholder], then
    [_load_schema], [get_all_names] and [filter_names], followed by the
    properties of the renderer and of the catalogue.

    Conventions of the embedding.
    - A Python [str] is a Rocq [string] read as a sequence of code points
      below 256; comparison, [strip], [split], [repr] and [json.dumps] are
      exact on that domain.
    - A value produced by [json.load] is a [json]; JSON numbers are the
      integers (a provider schema carries no others: [min_items] and
      [max_items]).  Python's [None] is [JNull], a [dict] is an association
      list in insertion order whose keys are pairwise distinct.
    - A Python call that can raise is a computation in [outcome]. *)

From Stdlib Require Import List String Ascii ZArith NArith Bool Lia Arith.
From Stdlib Require Import Permutation Sorted DecimalString.
Import ListNotations.

Local Open Scope string_scope.
Local Open Scope list_scope.
Local Open Scope Z_scope.

Infix "+++" := String.append (right associativity, at level 60).

(** ** Python strings *)

Module PyStr.

Definition nl : ascii := "010"%char.
Definition dq : ascii := "034"%char.
Definition sq : ascii := "039"%char.
Definition bs : ascii := "092"%char.

Definition NL : string := String nl EmptyString.
Definition DQ : string := String dq EmptyString.

(** [s * n] *)
Fixpoint repeat_nat (s : string) (n : nat) : string :=
  match n with
  | O => EmptyString
  | S k => s +++ repeat_nat s k
  end.

Definition py_repeat (s : string) (n : Z) : string := repeat_nat s (Z.to_nat n).

(** [sep.join(ls)] *)
Definition join (sep : string) (ls : list string) : string := String.concat sep ls.

(** [s.startswith(p)] *)
Fixpoint startswith (s p : string) {struct p} : bool :=
  match p with
  | EmptyString => true
  | String c p' =>
      match s with
      | EmptyString => false
      | String d s' => Ascii.eqb c d && startswith s' p'
      end
  end.

(** [s.endswith(p)] *)
Definition endswith (s p : string) : bool :=
  (String.length p <=? String.length s)%nat &&
  String.eqb (substring (String.length s - String.length p) (String.length p) s) p.

(** [s[:-n]] for [0 < n] *)
Definition drop_last (n : nat) (s : string) : string :=
  substring 0 (String.length s - n) s.

(** [p in s] on strings *)
Definition contains (s p : string) : bool :=
  match index 0 p s with Some _ => true | None => false end.

(** [c.isspace()], for a code point below 256 *)
Definition is_space (c : ascii) : bool :=
  let n := N_of_ascii c in
  ((9 <=? n) && (n <=? 13) || (28 <=? n) && (n <=? 32) || (n =? 133) || (n =? 160))%N.

Fixpoint lstrip (s : string) : string :=
  match s with
  | EmptyString => EmptyString
  | String c s' => if is_space c then lstrip s' else s
  end.

Fixpoint rstrip (s : string) : string :=
  match s with
  | EmptyString => EmptyString
  | String c s' =>
      match rstrip s' with
      | EmptyString => if is_space c then EmptyString else String c EmptyString
      | r => String c r
      end
  end.

(** [s.strip()] *)
Definition strip (s : string) : string := rstrip (lstrip s).

(** [s.split(c)] for a one-character separator *)
Fixpoint split_on (c : ascii) (s : string) : list string :=
  match s with
  | EmptyString => [EmptyString]
  | String a s' =>
      if Ascii.eqb a c then EmptyString :: split_on c s'
      else match split_on c s' with
           | [] => [String a EmptyString]
           | h :: t => String a h :: t
           end
  end.

(** [bool(s)] *)
Definition nonempty (s : string) : bool :=
  match s with EmptyString => false | _ => true end.

(** [str(n)] for an integer *)
Definition str_of_Z (z : Z) : string := NilZero.string_of_int (Z.to_int z).

Definition hex_digit (n : N) : ascii :=
  if (n <? 10)%N then ascii_of_N (48 + n) else ascii_of_N (87 + n).

(** the two lower-case hexadecimal digits of a code point below 256 *)
Definition hex2 (c : ascii) : string :=
  let n := N_of_ascii c in
  String (hex_digit (n / 16)) (String (hex_digit (n mod 16)) EmptyString).

End PyStr.
Import PyStr.

(** ** JSON values and Python's view of them *)

#[warnings="-register-all"]
Inductive json : Type :=
| JNull
| JBool (b : bool)
| JInt (z : Z)
| JStr (s : string)
| JArr (l : list json)
| JObj (d : list (string * json)).

Definition dict := list (string * json).

Inductive pyerr : Type :=
| ValueError (msg : string)
| AttributeError
| IndexError
| TypeError
| KeyError
| OutOfFuel.

Inductive outcome (A : Type) : Type :=
| Ok (a : A)
| Raise (e : pyerr).
Arguments Ok {A} a.
Arguments Raise {A} e.

Definition bind {A B} (m : outcome A) (k : A -> outcome B) : outcome B :=
  match m with
  | Ok a => k a
  | Raise e => Raise e
  end.

Notation "x <- m ;; k" := (bind m (fun x => k))
  (at level 61, m at next level, right associativity).

(** a [for] loop whose body extends [lines] with the result of a call *)
Fixpoint extend_each {A} (f : A -> outcome (list string)) (xs : list A)
  : outcome (list string) :=
  match xs with
  | [] => Ok []
  | x :: xs' =>
      l <- f x ;;
      r <- extend_each f xs' ;;
      Ok (l ++ r)
  end.

(** [for _ in range(n)] around a body that extends [lines] *)
Fixpoint repeat_body (n : nat) (body : outcome (list string)) : outcome (list string) :=
  match n with
  | O => Ok []
  | S k =>
      l <- body ;;
      r <- repeat_body k body ;;
      Ok (l ++ r)
  end.

Fixpoint lookup (k : string) (d : dict) : option json :=
  match d with
  | [] => None
  | (k', v) :: d' => if String.eqb k k' then Some v else lookup k d'
  end.

(** [k in d] *)
Definition mem (k : string) (d : dict) : bool :=
  match lookup k d with Some _ => true | None => false end.

Definition keys (d : dict) : list string := map fst d.

(** [obj.get(k, dflt)]: only a dict has the method *)
Definition py_get (obj : json) (k : string) (dflt : json) : outcome json :=
  match obj with
  | JObj d => Ok (match lookup k d with Some v => v | None => dflt end)
  | _ => Raise AttributeError
  end.

(** [d[k]] *)
Definition getitem (d : dict) (k : string) : outcome json :=
  match lookup k d with
  | Some v => Ok v
  | None => Raise KeyError
  end.

(** [obj.items()] *)
Definition py_items (obj : json) : outcome dict :=
  match obj with
  | JObj d => Ok d
  | _ => Raise AttributeError
  end.

(** [obj.strip()]: only a str has the method *)
Definition py_strip (obj : json) : outcome string :=
  match obj with
  | JStr s => Ok (strip s)
  | _ => Raise AttributeError
  end.

(** [bool(v)] *)
Definition truthy (v : json) : bool :=
  match v with
  | JNull => false
  | JBool b => b
  | JInt z => negb (z =? 0)
  | JStr s => nonempty s
  | JArr l => match l with [] => false | _ => true end
  | JObj d => match d with [] => false | _ => true end
  end.

(** [v == 0] *)
Definition eq_zero (v : json) : bool :=
  match v with
  | JInt z => z =? 0
  | JBool b => negb b
  | _ => false
  end.

(** [v > 0]: ordering against an int is defined for numbers only *)
Definition gt_zero (v : json) : outcome bool :=
  match v with
  | JInt z => Ok (0 <? z)
  | JBool b => Ok b
  | _ => Raise TypeError
  end.

(** the number of iterations of [range(v)] *)
Definition range_len (v : json) : outcome nat :=
  match v with
  | JInt z => Ok (Z.to_nat z)
  | JBool b => Ok (if b then 1%nat else 0%nat)
  | _ => Raise TypeError
  end.

(** [v == s] for a str literal [s] *)
Definition eq_str (v : json) (s : string) : bool :=
  match v with
  | JStr s' => String.eqb s' s
  | _ => false
  end.

(** [sorted(d.items(), key=lambda x: x[0])]: a stable sort on the name *)
Fixpoint insert_item (x : string * json) (l : dict) : dict :=
  match l with
  | [] => [x]
  | y :: l' => if String.leb (fst x) (fst y) then x :: l else y :: insert_item x l'
  end.

Fixpoint sorted_items (d : dict) : dict :=
  match d with
  | [] => []
  | x :: d' => insert_item x (sorted_items d')
  end.

(** ** [str], [repr] and [json.dumps] *)

Fixpoint flat_map_chars (f : ascii -> string) (s : string) : string :=
  match s with
  | EmptyString => EmptyString
  | String c s' => f c +++ flat_map_chars f s'
  end.

Definition code_in (lo hi : N) (c : ascii) : bool :=
  ((lo <=? N_of_ascii c) && (N_of_ascii c <=? hi))%N.

(** [c.isprintable()], for a code point below 256 *)
Definition printable (c : ascii) : bool :=
  code_in 32 126 c || (code_in 161 255 c && negb (N_of_ascii c =? 173)%N).

Definition repr_quote (s : string) : ascii :=
  if contains s (String sq EmptyString) && negb (contains s DQ) then dq else sq.

Definition repr_char (q c : ascii) : string :=
  if Ascii.eqb c q || Ascii.eqb c bs then String bs (String c EmptyString)
  else if Ascii.eqb c "009"%char then "\t"
  else if Ascii.eqb c nl then "\n"
  else if Ascii.eqb c "013"%char then "\r"
  else if printable c then String c EmptyString
  else "\x" +++ hex2 c.

(** [repr(s)] of a str *)
Definition repr_str (s : string) : string :=
  let q := repr_quote s in
  String q (flat_map_chars (repr_char q) s +++ String q EmptyString).

Fixpoint py_repr (v : json) : string :=
  match v with
  | JNull => "None"
  | JBool b => if b then "True" else "False"
  | JInt z => str_of_Z z
  | JStr s => repr_str s
  | JArr l => "[" +++ join ", " (map py_repr l) +++ "]"
  | JObj d =>
      "{" +++ join ", " (map (fun kv => let '(k, x) := kv in
                                        repr_str k +++ ": " +++ py_repr x) d) +++ "}"
  end.

(** [str(v)], what an f-string interpolates *)
Definition py_str (v : json) : string :=
  match v with
  | JStr s => s
  | _ => py_repr v
  end.

Definition dumps_char (c : ascii) : string :=
  if Ascii.eqb c dq then String bs DQ
  else if Ascii.eqb c bs then String bs (String bs EmptyString)
  else if Ascii.eqb c nl then "\n"
  else if Ascii.eqb c "013"%char then "\r"
  else if Ascii.eqb c "009"%char then "\t"
  else if Ascii.eqb c "008"%char then "\b"
  else if Ascii.eqb c "012"%char then "\f"
  else if code_in 32 126 c then String c EmptyString
  else "\u00" +++ hex2 c.

Definition dumps_str (s : string) : string :=
  String dq (flat_map_chars dumps_char s +++ DQ).

(** [json.dumps(v)] with its default separators and [ensure_ascii] *)
Fixpoint json_dumps (v : json) : string :=
  match v with
  | JNull => "null"
  | JBool b => if b then "true" else "false"
  | JInt z => str_of_Z z
  | JStr s => dumps_str s
  | JArr l => "[" +++ join ", " (map json_dumps l) +++ "]"
  | JObj d =>
      "{" +++ join ", " (map (fun kv => let '(k, x) := kv in
                                        dumps_str k +++ ": " +++ json_dumps x) d) +++ "}"
  end.

(** the height of a value, the measure of the renderer's recursion *)
Fixpoint json_depth (v : json) : nat :=
  match v with
  | JArr l => S (fold_right (fun x m => Nat.max (json_depth x) m) O l)
  | JObj d => S (fold_right (fun kv m => let '(_, x) := kv in Nat.max (json_depth x) m) O d)
  | _ => O
  end.

(** ** The engine *)

(** [_parse_type] *)
Fixpoint _parse_type (type_ : json) : outcome string :=
  match type_ with
  | JStr s => Ok s
  | JArr l =>
      match l with
      | [] => Raise IndexError
      | h :: tl =>
          if eq_str h "list" || eq_str h "set" || eq_str h "map" then
            match tl with
            | [] => Raise IndexError
            | e :: _ =>
                inner <- _parse_type e ;;
                Ok (py_str h +++ "(" +++ inner +++ ")")
            end
          else if eq_str h "object" then Ok "object({...})"
          else if eq_str h "tuple" then Ok "tuple([...])"
          else Ok "unknown"
      end
  | _ => Ok "unknown"
  end.

Definition is_none (v : json) : bool :=
  match v with JNull => true | _ => false end.

(** [_get_placeholder]; [attr_name] is the dict key the caller passes *)
Definition _get_placeholder (type_ : string) (attr_name : string) (default : json) : string :=
  if negb (is_none default) then json_dumps default
  else if nonempty attr_name && endswith attr_name "_name" then
    "azurerm_" +++ drop_last 5 attr_name +++ ".example.name"
  else if nonempty attr_name && endswith attr_name "_id" then
    "azurerm_" +++ drop_last 3 attr_name +++ ".example.id"
  else if String.eqb type_ "string" then DQ +++ DQ
  else if String.eqb type_ "bool" then "false"
  else if String.eqb type_ "number" then "0"
  else if startswith type_ "list" || startswith type_ "set" then "[]"
  else if startswith type_ "map" || startswith type_ "object" then "{}"
  else if startswith type_ "tuple" then "[]"
  else "null".

(** [schema.get('description', '').strip() if with_descriptions else None] *)
Definition get_description (schema : json) (with_descriptions : bool) : outcome (option string) :=
  if with_descriptions then
    d <- py_get schema "description" (JStr EmptyString) ;;
    s <- py_strip d ;;
    Ok (Some s)
  else Ok None.

(** [bool(description)] *)
Definition desc_truthy (description : option string) : bool :=
  match description with
  | Some s => nonempty s
  | None => false
  end.

(** [[f"{indent}# {line}" for line in description.split('\n') if line.strip()]] *)
Definition desc_lines (indent : string) (description : option string) : list string :=
  match description with
  | Some s =>
      map (fun line => indent +++ "# " +++ line)
          (filter (fun line => nonempty (strip line)) (split_on nl s))
  | None => []
  end.

(** [_format_attribute] *)
Definition _format_attribute (name : string) (schema : json) (with_descriptions : bool)
    (indent_level : Z) (required_only : bool) : outcome (list string) :=
  skip <- (if required_only then
             r <- py_get schema "required" (JBool false) ;;
             Ok (negb (truthy r))
           else Ok false) ;;
  if skip then Ok [] else
  let indent := py_repeat "  " indent_level in
  t <- py_get schema "type" JNull ;;
  type_ <- _parse_type t ;;
  required <- py_get schema "required" (JBool false) ;;
  optional <- py_get schema "optional" (JBool false) ;;
  computed <- py_get schema "computed" (JBool false) ;;
  deprecated <- py_get schema "deprecated" (JBool false) ;;
  sensitive <- py_get schema "sensitive" (JBool false) ;;
  default <- py_get schema "default" JNull ;;
  description <- get_description schema with_descriptions ;;
  if truthy deprecated then Ok [] else
  let status := if truthy required then "required"
                else if truthy optional then "optional" else "computed" in
  let comment := "# " +++ status +++ ", type: " +++ type_ in
  let comment := if truthy sensitive then comment +++ ", sensitive" else comment in
  let comment := if negb (is_none default)
                 then comment +++ ", default: " +++ py_str default else comment in
  let comment := if desc_truthy description
                 then join NL (desc_lines indent description ++ [indent +++ comment])
                 else "  " +++ comment in
  let placeholder := _get_placeholder type_ name default in
  let line := indent +++ name +++ " = " +++ placeholder in
  if nonempty comment && negb (desc_truthy description) then Ok [line +++ comment]
  else Ok ((if nonempty comment then [comment] else []) ++ [line]).

(** the signature of [_format_block_type] *)
Definition block_renderer : Type :=
  string -> json -> bool -> Z -> bool -> outcome (list string).

(** the two loops every nesting mode runs: the sorted sub-attributes, then
    the sorted sub-block-types through [self] *)
Definition render_members (self : block_renderer) (sub_attributes sub_block_types : dict)
    (with_descriptions : bool) (indent_level : Z) (required_only : bool)
  : outcome (list string) :=
  la <- extend_each (fun '(attr_name, attr_schema) =>
          _format_attribute attr_name attr_schema with_descriptions indent_level required_only)
        sub_attributes ;;
  lb <- extend_each (fun '(bt_name, bt_schema) =>
          self bt_name bt_schema with_descriptions indent_level required_only)
        sub_block_types ;;
  Ok (la ++ lb).

(** [block = schema.get('block', {})] and the two sorted item lists read off it *)
Definition block_members (schema : json) : outcome (dict * dict) :=
  block <- py_get schema "block" (JObj []) ;;
  attrs <- py_get block "attributes" (JObj []) ;;
  attr_items <- py_items attrs ;;
  bts <- py_get block "block_types" (JObj []) ;;
  bt_items <- py_items bts ;;
  Ok (sorted_items attr_items, sorted_items bt_items).

(** the leading comment lines of a block-type: the description, if any, and
    the nesting information *)
Definition nesting_info_lines (indent : string) (nesting min_items max_items : json)
    (description : option string) : list string :=
  let comment := "# nesting: " +++ py_str nesting +++ ", min: " +++ py_str min_items in
  let comment := if negb (is_none max_items)
                 then comment +++ ", max: " +++ py_str max_items else comment in
  if desc_truthy description
  then desc_lines indent description ++ [indent +++ comment]
  else [indent +++ "# " +++ comment].

(** the line [repeat_comment] of the list and set modes *)
Definition repeat_comment_line (indent : string) (min_items max_items : json) : string :=
  let repeat_comment := indent +++ "# Repeat this block as needed (min: " +++ py_str min_items in
  let repeat_comment := if truthy max_items
                        then repeat_comment +++ ", max: " +++ py_str max_items
                        else repeat_comment in
  repeat_comment +++ ")".

(** the body of [_format_block_type], its recursive calls going through [self] *)
Definition format_block_type_body (self : block_renderer) : block_renderer :=
  fun name schema with_descriptions indent_level required_only =>
  min_items <- py_get schema "min_items" (JInt 0) ;;
  if required_only && eq_zero min_items then Ok [] else
  let indent := py_repeat "  " indent_level in
  nesting <- py_get schema "nesting_mode" (JStr "single") ;;
  max_items <- py_get schema "max_items" JNull ;;
  description <- get_description schema with_descriptions ;;
  members <- block_members schema ;;
  let '(sub_attributes, sub_block_types) := members in
  let lines := nesting_info_lines indent nesting min_items max_items description in
  if eq_str nesting "single" then
    body <- render_members self sub_attributes sub_block_types
              with_descriptions (indent_level + 1) required_only ;;
    Ok (lines ++ [indent +++ name +++ " {"] ++ body ++ [indent +++ "}"])
  else if eq_str nesting "list" || eq_str nesting "set" then
    let repeat_comment := repeat_comment_line indent min_items max_items in
    positive <- gt_zero min_items ;;
    if positive then
      n <- range_len min_items ;;
      instances <- repeat_body n
        (body <- render_members self sub_attributes sub_block_types
                   with_descriptions (indent_level + 1) required_only ;;
         Ok ([indent +++ name +++ " {"] ++ body ++ [indent +++ "}"])) ;;
      Ok (lines ++ [repeat_comment] ++ instances)
    else
      Ok (lines ++ [repeat_comment;
                    indent +++ name +++ " {  # optional, uncomment and fill if needed";
                    indent +++ "  # ...";
                    indent +++ "}"])
  else if eq_str nesting "map" then
    body <- render_members self sub_attributes sub_block_types
              with_descriptions (indent_level + 2) required_only ;;
    Ok (lines ++ [indent +++ name +++ " = {  # key = value syntax, repeat as needed";
                  indent +++ "  example_key {"]
              ++ body ++ [indent +++ "  }"; indent +++ "}"])
  else Ok lines.

(** the recursion of [_format_block_type], bounded by the height of the schema *)
Fixpoint format_block_type_fuel (fuel : nat) : block_renderer :=
  match fuel with
  | O => fun _ _ _ _ _ => Raise OutOfFuel
  | S fuel' => format_block_type_body (format_block_type_fuel fuel')
  end.

(** [_format_block_type] *)
Definition _format_block_type : block_renderer :=
  fun name schema with_descriptions indent_level required_only =>
  format_block_type_fuel (S (json_depth schema))
    name schema with_descriptions indent_level required_only.

(** the two categories [_load_schema] leaves in the parser object *)
Record parser : Type := {
  resources : dict;
  data_sources : dict
}.

(** [get_schema_block] *)
Definition get_schema_block (p : parser) (name : string) : outcome json :=
  if mem name (resources p) then
    entry <- getitem (resources p) name ;;
    py_get entry "block" (JObj [])
  else if mem name (data_sources p) then
    entry <- getitem (data_sources p) name ;;
    py_get entry "block" (JObj [])
  else Ok JNull.

Definition quoted (s : string) : string := String dq (s +++ DQ).

(** the line [f'{block_type} "{label}" "{instance_name}" {{'] *)
Definition header_line (block_type label instance_name : string) : string :=
  block_type +++ " " +++ quoted label +++ " " +++ quoted instance_name +++ " {".

(** the list [lines] of [generate_hcl_template] before it is joined *)
Definition template_lines (block_type name : string) (block : json)
    (with_descriptions required_only : bool) (indent_level : Z) : outcome (list string) :=
  let label := name in
  let instance_name := "example" in
  let lines := [header_line block_type label instance_name] in
  attrs <- py_get block "attributes" (JObj []) ;;
  attr_items <- py_items attrs ;;
  let attributes := sorted_items attr_items in
  la <- extend_each (fun '(attr_name, attr_schema) =>
          _format_attribute attr_name attr_schema with_descriptions
            (indent_level + 1) required_only) attributes ;;
  bts <- py_get block "block_types" (JObj []) ;;
  bt_items <- py_items bts ;;
  let block_types := sorted_items bt_items in
  lb <- extend_each (fun '(bt_name, bt_schema) =>
          _format_block_type bt_name bt_schema with_descriptions
            (indent_level + 1) required_only) block_types ;;
  Ok (lines ++ la ++ lb ++ [py_repeat "}" (indent_level + 1)]).

(** [generate_hcl_template] *)
Definition generate_hcl_template (p : parser) (name : string)
    (with_descriptions required_only : bool) (indent_level : Z) : outcome string :=
  block <- get_schema_block p name ;;
  if negb (truthy block) then Raise (ValueError ("No schema found for " +++ name)) else
  let is_resource := mem name (resources p) in
  let block_type := if is_resource then "resource" else "data" in
  lines <- template_lines block_type name block with_descriptions required_only indent_level ;;
  Ok (join NL lines).

(** ** The catalogue: loading, listing and searching *)

(** the provider the parser is built for, and its key in the schema document *)
Definition provider : string := "azurerm".
Definition provider_key : string := "registry.terraform.io/hashicorp/" +++ provider.

(** [_load_schema], from the value [schema_data] that [json.load] returns:
    the two values it leaves in [self.resources] and [self.data_sources] *)
Definition _load_schema (schema_data : json) : outcome (json * json) :=
  schemas <- py_get schema_data "provider_schemas" (JObj []) ;;
  provider_schema <- py_get schemas provider_key JNull ;;
  if negb (truthy provider_schema)
  then Raise (ValueError ("No schema found for provider '" +++ provider
                          +++ "' in the JSON file."))
  else
  resources <- py_get provider_schema "resource_schemas" (JObj []) ;;
  data_sources <- py_get provider_schema "data_source_schemas" (JObj []) ;;
  if negb (truthy resources) && negb (truthy data_sources)
  then Raise (ValueError "No resources or data sources found in the schema.")
  else Ok (resources, data_sources).

(** [sorted(names)] on strs *)
Fixpoint insert_name (x : string) (l : list string) : list string :=
  match l with
  | [] => [x]
  | y :: l' => if String.leb x y then x :: l else y :: insert_name x l'
  end.

Fixpoint sorted_names (l : list string) : list string :=
  match l with
  | [] => []
  | x :: l' => insert_name x (sorted_names l')
  end.

(** [get_all_names] *)
Definition get_all_names (p : parser) (include_data : bool) : list string :=
  let names := sorted_names (keys (resources p)) in
  if include_data then names ++ sorted_names (keys (data_sources p)) else names.

(** [c.lower()], for a code point below 256 *)
Definition lower_char (c : ascii) : ascii :=
  if code_in 65 90 c || code_in 192 214 c || code_in 216 222 c
  then ascii_of_N (N_of_ascii c + 32) else c.

(** [s.lower()] *)
Fixpoint lower (s : string) : string :=
  match s with
  | EmptyString => EmptyString
  | String c s' => String (lower_char c) (lower s')
  end.

(** [filter_names] *)
Definition filter_names (p : parser) (query : string) (include_data : bool) : list string :=
  let query := lower query in
  let all_names := get_all_names p include_data in
  filter (fun name => contains (lower name) query) all_names.

(** ** The numbered matches of the interactive session *)

(** [enumerate(l, start)] *)
Fixpoint enumerate {A} (l : list A) (start : Z) : list (Z * A) :=
  match l with
  | [] => []
  | x :: l' => (start, x) :: enumerate l' (start + 1)
  end.

(** the lines printed by [for i, name in enumerate(matches, 1): print(f"{i}. {name}")] *)
Definition match_lines (matches : list string) : list string :=
  map (fun '(i, name) => str_of_Z i +++ ". " +++ name) (enumerate matches 1).

(** [matches[selection - 1]] under the guard [1 <= selection <= len(matches)]
    of [interactive_mode]; [None] where the guard leads to "Invalid selection." *)
Definition selected_match (matches : list string) (selection : Z) : option string :=
  if (1 <=? selection) && (selection <=? Z.of_nat (List.length matches))
  then nth_error matches (Z.to_nat (selection - 1))
  else None.

(** * Specification-side definitions and example schemas *)

(** ** The order of [sorted] on the names *)

(** [x] comes no later than [y], resp. strictly before [y], by name *)
Definition name_le (x y : string * json) : Prop := String.leb (fst x) (fst y) = true.
Definition name_lt (x y : string * json) : Prop := String.ltb (fst x) (fst y) = true.

(** ** The shapes of the data model of section 3 *)

(** the type expressions of section 4.1: a primitive name, a [list], [set]
    or [map] of an element type, an [object] or [tuple] with its payload *)
Inductive type_expr : json -> Prop :=
| te_prim (s : string) : type_expr (JStr s)
| te_coll (k : string) (e : json) (rest : list json) :
    In k ["list"; "set"; "map"] -> type_expr e ->
    type_expr (JArr (JStr k :: e :: rest))
| te_object (payload : list json) : type_expr (JArr (JStr "object" :: payload))
| te_tuple (payload : list json) : type_expr (JArr (JStr "tuple" :: payload)).

(** a field that is absent or a str *)
Definition str_or_absent (d : dict) (k : string) : Prop :=
  match lookup k d with
  | None | Some (JStr _) => True
  | Some _ => False
  end.

(** a field that is absent or an integer *)
Definition int_or_absent (d : dict) (k : string) : Prop :=
  match lookup k d with
  | None | Some (JInt _) => True
  | Some _ => False
  end.

(** the mapping held by a field: empty when the field is absent *)
Definition members_of (d : dict) (k : string) : option dict :=
  match lookup k d with
  | None => Some []
  | Some (JObj m) => Some m
  | Some _ => None
  end.

(** an Attribute Descriptor of section 3 *)
Inductive wf_attribute : json -> Prop :=
| wf_attribute_intro (d : dict) (t : json) :
    lookup "type" d = Some t -> type_expr t ->
    str_or_absent d "description" ->
    wf_attribute (JObj d).

(** a Block-Type Descriptor of section 3, with its nested Block *)
Inductive wf_block_type : json -> Prop :=
| wf_block_type_intro (d b attrs bts : dict) :
    str_or_absent d "description" ->
    int_or_absent d "min_items" ->
    members_of d "block" = Some b ->
    members_of b "attributes" = Some attrs ->
    members_of b "block_types" = Some bts ->
    (forall k v, In (k, v) attrs -> wf_attribute v) ->
    (forall k v, In (k, v) bts -> wf_block_type v) ->
    wf_block_type (JObj d).

(** a root Block of section 3 *)
Definition wf_block (block : json) : Prop :=
  exists b attrs bts,
    block = JObj b /\
    members_of b "attributes" = Some attrs /\
    members_of b "block_types" = Some bts /\
    (forall k v, In (k, v) attrs -> wf_attribute v) /\
    (forall k v, In (k, v) bts -> wf_block_type v).

(** ** The placeholder priority, written from the specification *)

(** rule 4 of section 4.2, written from the specification *)
Definition spec_type_fallback (type_ : string) : string :=
  if String.eqb type_ "string" then DQ +++ DQ
  else if String.eqb type_ "bool" then "false"
  else if String.eqb type_ "number" then "0"
  else if startswith type_ "list" || startswith type_ "set" then "[]"
  else if startswith type_ "map" || startswith type_ "object" then "{}"
  else if startswith type_ "tuple" then "[]"
  else "null".

(** the priority order of section 4.2, written from the specification:
    the default, then the [_name] suffix, then the [_id] suffix, then the type *)
Definition spec_placeholder (type_ name : string) (default : json) : string :=
  match default with
  | JNull =>
      if endswith name "_name"
      then "azurerm_" +++ drop_last 5 name +++ ".example.name"
      else if endswith name "_id"
      then "azurerm_" +++ drop_last 3 name +++ ".example.id"
      else spec_type_fallback type_
  | literal => json_dumps literal
  end.

(** ** Pieces of the output and of the outcome *)

(** [nesting] is one of the four modes the renderer dispatches on *)
Definition known_nesting (nesting : json) : bool :=
  eq_str nesting "single" || eq_str nesting "list" ||
  eq_str nesting "set" || eq_str nesting "map".

(** the three lines shown for a repeatable block that is not required *)
Definition placeholder_instance (indent name : string) : list string :=
  [indent +++ name +++ " {  # optional, uncomment and fill if needed";
   indent +++ "  # ...";
   indent +++ "}"].

(** one expanded instance of a block around its rendered members *)
Definition block_instance (indent name : string) (body : list string) : list string :=
  [indent +++ name +++ " {"] ++ body ++ [indent +++ "}"].


(** the errors the operations of the renderer raise by themselves: neither
    the ValueError of a missing schema nor the exhaustion of the fuel *)
Definition python_error (e : pyerr) : Prop :=
  match e with
  | AttributeError | IndexError | TypeError | KeyError => True
  | ValueError _ | OutOfFuel => False
  end.

(** a computation that returns or raises one of those errors *)
Definition clean {A} (m : outcome A) : Prop :=
  forall e, m = Raise e -> python_error e.

(** the error of [generate_hcl_template] for a name without schema *)
Definition not_found (name : string) : pyerr :=
  ValueError ("No schema found for " +++ name).

(** ** Schema trees that differ in the order of their members *)

(** two items of the same name whose values are related by [R] *)
Definition same_key (R : json -> json -> Prop) (x y : string * json) : Prop :=
  fst x = fst y /\ R (snd x) (snd y).

(** [d'] holds the members of [d] in another order, each related by [R] *)
Definition reordered_items (R : json -> json -> Prop) (d d' : dict) : Prop :=
  NoDup (keys d) /\ exists m, Permutation d m /\ Forall2 (same_key R) m d'.

(** a member mapping read off a block: absent on both sides, or reordered *)
Definition reordered_field (R : json -> json -> Prop) (o o' : option json) : Prop :=
  (o = None /\ o' = None) \/
  exists d d', o = Some (JObj d) /\ o' = Some (JObj d') /\ reordered_items R d d'.

(** the two member mappings of a block: the attributes are the same up to
    their order, the block-types are reordered and related by [R] *)
Definition reordered_block (R : json -> json -> Prop) (b b' : dict) : Prop :=
  reordered_field eq (lookup "attributes" b) (lookup "attributes" b') /\
  reordered_field R (lookup "block_types" b) (lookup "block_types" b').

(** two block-type descriptors that differ only in the order of the
    attributes and block-types of their blocks, at any depth *)
#[warnings="-register-all"]
Inductive reordered : json -> json -> Prop :=
| reordered_intro (s s' : dict) :
    (forall k, k <> "block" -> lookup k s = lookup k s') ->
    ((lookup "block" s = None /\ lookup "block" s' = None) \/
     exists b b', lookup "block" s = Some (JObj b) /\
                  lookup "block" s' = Some (JObj b') /\
                  reordered_block reordered b b') ->
    reordered (JObj s) (JObj s').

(** ** Example schemas *)

(** the root block of the [example_widget] scenario of section 8 *)
Definition widget_block : json :=
  JObj [("attributes",
         JObj [("display_name",
                JObj [("type", JStr "string"); ("required", JBool true)])])].

(** a provider with the single resource [example_widget] *)
Definition widget_parser : parser :=
  {| resources := [("example_widget", JObj [("block", widget_block)])];
     data_sources := [] |}.

(** the first line of the template of [example_widget] *)
Definition widget_header : string := header_line "resource" "example_widget" "example".

(** what [_format_attribute] returns for [display_name], with and without a
    rendered description *)
Definition display_name_lines (description : option string) : list string :=
  if desc_truthy description
  then [join NL (desc_lines "  " description ++ ["  # required, type: string"]);
        "  display_name = azurerm_display.example.name"]
  else ["  display_name = azurerm_display.example.name  # required, type: string"].

(** a name that is both a resource and a data source *)
Definition both_categories : parser :=
  {| resources :=
       [("azurerm_thing",
         JObj [("block", JObj [("attributes",
                 JObj [("size", JObj [("type", JStr "number"); ("required", JBool true)])])])])];
     data_sources :=
       [("azurerm_thing",
         JObj [("block", JObj [("attributes",
                 JObj [("label", JObj [("type", JStr "string"); ("computed", JBool true)])])])])] |}.

(** a resource entry whose block has no member *)
Definition empty_entry_parser : parser :=
  {| resources := [("azurerm_empty", JObj [("block", JObj [])])];
     data_sources := [] |}.

(** a block-type with a nesting mode the renderer does not know *)
Definition group_block_type : json :=
  JObj [("nesting_mode", JStr "group"); ("min_items", JInt 1);
        ("description", JStr "Grouped settings");
        ("block", JObj [("attributes", JObj [("size", JObj [("type", JStr "number")])])])].

(** a required attribute that is deprecated *)
Definition deprecated_attribute : json :=
  JObj [("type", JStr "string"); ("required", JBool true); ("deprecated", JBool true);
        ("description", JStr "Use display_name instead")].

(** a repeatable block-type with one required attribute *)
Definition rule_block_type (min_items : Z) : json :=
  JObj [("nesting_mode", JStr "list"); ("min_items", JInt min_items);
        ("block", JObj [("attributes",
           JObj [("port", JObj [("type", JStr "number"); ("required", JBool true)])])])].

(** two attributes and a singleton block-type that holds the given attributes *)
Definition port_attribute : json := JObj [("type", JStr "number"); ("required", JBool true)].
Definition host_attribute : json := JObj [("type", JStr "string"); ("optional", JBool true)].

Definition endpoint_block_type (attrs : dict) : json :=
  JObj [("nesting_mode", JStr "single"); ("block", JObj [("attributes", JObj attrs)])].

(** ** Pieces of the catalogue *)

(** the two errors of [_load_schema] *)
Definition no_provider : pyerr :=
  ValueError "No schema found for provider 'azurerm' in the JSON file.".
Definition no_entries : pyerr :=
  ValueError "No resources or data sources found in the schema.".

(** the value of [d.get(k, {})] *)
Definition get_or_empty (d : dict) (k : string) : json :=
  match lookup k d with Some v => v | None => JObj [] end.

(** a Schema Entry of section 3: an object that owns a non-empty root Block *)
Definition wf_entry (entry : json) : Prop :=
  exists e block,
    entry = JObj e /\ lookup "block" e = Some block /\
    truthy block = true /\ wf_block block.

(** a category all of whose entries are of that shape *)
Definition wf_category (d : dict) : Prop :=
  forall name entry, In (name, entry) d -> wf_entry entry.

(** the keyword of the header of a name *)
Definition category_keyword (p : parser) (name : string) : string :=
  if mem name (resources p) then "resource" else "data".

(** ** Further pieces of the output *)

(** a line that starts with the indentation of a level *)
Definition indented (lvl : Z) (line : string) : Prop :=
  startswith line (py_repeat "  " lvl) = true.

(** the instance of a [map] block-type around its rendered members *)
Definition map_instance (indent name : string) (body : list string) : list string :=
  [indent +++ name +++ " = {  # key = value syntax, repeat as needed";
   indent +++ "  example_key {"]
  ++ body ++ [indent +++ "  }"; indent +++ "}"].

(** the template of a block none of whose members is shown *)
Definition skeleton (block_type name : string) (lvl : Z) : string :=
  header_line block_type name "example" +++ NL +++ py_repeat "}" (lvl + 1).

(** a str without a newline *)
Fixpoint one_line (s : string) : bool :=
  match s with
  | EmptyString => true
  | String c s' => negb (Ascii.eqb c nl) && one_line s'
  end.

(** ** Comment lines *)

(** a line that holds nothing but a comment: its first character that is
    not white space is [#] *)
Definition comment_line (line : string) : bool := startswith (lstrip line) "#".

(** ** The members in the output *)

(** [out] is what [f] returns on the items, one after the other, in the
    order of the list *)
Definition rendered_in_order (f : string -> json -> outcome (list string))
    (items : dict) (out : list string) : Prop :=
  exists chunks,
    Forall2 (fun item chunk => f (fst item) (snd item) = Ok chunk) items chunks /\
    out = List.concat chunks.

(** [body] is the attributes in ascending order of their names, each
    rendered at [lvl], followed by the block-types in ascending order of
    theirs *)
Definition members_in_name_order (attrs bts : dict) (wd : bool) (lvl : Z) (ro : bool)
    (body : list string) : Prop :=
  exists la lb,
    rendered_in_order (fun k v => _format_attribute k v wd lvl ro) (sorted_items attrs) la /\
    rendered_in_order (fun k v => _format_block_type k v wd lvl ro) (sorted_items bts) lb /\
    body = la ++ lb.

(** the lines of a block-type that is shown: its leading comment lines and,
    according to the nesting mode, one instance around the members, the
    repeat comment and the expanded instances or the placeholder instance,
    the [example_key] entry around the members, or nothing more *)
Definition block_type_layout (name : string) (nesting min_items max_items : json)
    (description : option string) (attrs bts : dict) (wd : bool) (lvl : Z) (ro : bool)
    (lines : list string) : Prop :=
  let indent := py_repeat "  " lvl in
  let info := nesting_info_lines indent nesting min_items max_items description in
  let repeat_comment := repeat_comment_line indent min_items max_items in
  if eq_str nesting "single" then
    exists body,
      members_in_name_order attrs bts wd (lvl + 1) ro body /\
      lines = info ++ block_instance indent name body
  else if eq_str nesting "list" || eq_str nesting "set" then
    (exists body n,
       gt_zero min_items = Ok true /\ range_len min_items = Ok n /\ (0 < n)%nat /\
       members_in_name_order attrs bts wd (lvl + 1) ro body /\
       lines = info ++ [repeat_comment]
                 ++ List.concat (repeat (block_instance indent name body) n)) \/
    (gt_zero min_items = Ok false /\
     lines = info ++ [repeat_comment] ++ placeholder_instance indent name)
  else if eq_str nesting "map" then
    exists body,
      members_in_name_order attrs bts wd (lvl + 2) ro body /\
      lines = info ++ map_instance indent name body
  else lines = info.

(** ** The type descriptors on which the resolver fails *)

(** the tags of the collection types of [_parse_type] *)
Definition collection_tag (h : json) : bool :=
  eq_str h "list" || eq_str h "set" || eq_str h "map".

(** a type descriptor on which [_parse_type] takes a subscript out of range:
    the empty list, a collection tag without an element type, or a
    collection whose element type is such a descriptor *)
#[warnings="-register-all"]
Inductive short_descriptor : json -> Prop :=
| short_empty : short_descriptor (JArr [])
| short_no_element (h : json) :
    collection_tag h = true -> short_descriptor (JArr [h])
| short_element (h e : json) (rest : list json) :
    collection_tag h = true -> short_descriptor e ->
    short_descriptor (JArr (h :: e :: rest)).

(** ** Schema trees that differ in their descriptions *)

(** two attribute descriptors that agree on every key but [description] *)
Definition redescribed_attribute (a a' : json) : Prop :=
  exists d d', a = JObj d /\ a' = JObj d' /\
               forall k, k <> "description" -> lookup k d = lookup k d'.

(** a member mapping read off a block: absent on both sides, or the same
    names in the same order, the values related by [R] *)
Definition redescribed_field (R : json -> json -> Prop) (o o' : option json) : Prop :=
  (o = None /\ o' = None) \/
  exists d d', o = Some (JObj d) /\ o' = Some (JObj d') /\ Forall2 (same_key R) d d'.

(** the two member mappings of a block *)
Definition redescribed_block (R : json -> json -> Prop) (b b' : dict) : Prop :=
  redescribed_field redescribed_attribute (lookup "attributes" b) (lookup "attributes" b') /\
  redescribed_field R (lookup "block_types" b) (lookup "block_types" b').

(** two block-type descriptors that differ only in the descriptions they
    and their members carry, at any depth *)
#[warnings="-register-all"]
Inductive redescribed : json -> json -> Prop :=
| redescribed_intro (s s' : dict) :
    (forall k, k <> "description" -> k <> "block" -> lookup k s = lookup k s') ->
    ((lookup "block" s = None /\ lookup "block" s' = None) \/
     exists b b', lookup "block" s = Some (JObj b) /\
                  lookup "block" s' = Some (JObj b') /\
                  redescribed_block redescribed b b') ->
    redescribed (JObj s) (JObj s').

(** ** Further example schemas *)

(** an entry with one required attribute, and a provider schema document
    with two resources, one of which is a data source as well *)
Definition name_entry : json :=
  JObj [("version", JInt 0);
        ("block", JObj [("attributes",
           JObj [("name", JObj [("type", JStr "string"); ("required", JBool true)])])])].

Definition catalogue_resources : dict :=
  [("azurerm_virtual_network", name_entry); ("azurerm_subnet", name_entry)].

Definition catalogue_data_sources : dict := [("azurerm_subnet", name_entry)].

Definition catalogue_document : json :=
  JObj [("format_version", JStr "1.0");
        ("provider_schemas",
         JObj [(provider_key,
                JObj [("resource_schemas", JObj catalogue_resources);
                      ("data_source_schemas", JObj catalogue_data_sources)])])].

Definition catalogue : parser :=
  {| resources := catalogue_resources; data_sources := catalogue_data_sources |}.

(** an optional attribute with a description *)
Definition size_attribute : json :=
  JObj [("type", JStr "number"); ("optional", JBool true);
        ("description", JStr "The size in GB")].

(** a block-type that holds one attribute, under a given nesting mode *)
Definition tags_block_type (nesting : dict) : json :=
  JObj (nesting ++
        [("min_items", JInt 3);
         ("block", JObj [("attributes", JObj [("size", JObj [("type", JStr "number")])])])]).

(** a resource whose only members are optional *)
Definition optional_parser : parser :=
  {| resources :=
       [("azurerm_note",
         JObj [("block",
                JObj [("attributes",
                       JObj [("text", JObj [("type", JStr "string"); ("optional", JBool true)])]);
                      ("block_types", JObj [("rule", rule_block_type 0)])])])];
     data_sources := [] |}.

(** a block-type with a description, one of whose attributes has one too *)
Definition disk_block_type (about about_size : dict) : json :=
  JObj (about ++
        [("nesting_mode", JStr "single");
         ("block",
          JObj [("attributes",
                 JObj [("size", JObj (about_size ++ [("type", JStr "number")]))])])]).

(** * Properties of the engine *)

(** ** The outcome monad and the loops *)

Lemma bind_ok {A B} (m : outcome A) (k : A -> outcome B) (b : B) :
  bind m k = Ok b -> exists a, m = Ok a /\ k a = Ok b.
Proof.
  destruct m as [a|e]; simpl; intros H.
  - exists a. split; [reflexivity | exact H].
  - discriminate H.
Qed.

Lemma extend_each_ext_in {A} (f g : A -> outcome (list string)) (xs : list A) :
  (forall x, In x xs -> f x = g x) -> extend_each f xs = extend_each g xs.
Proof.
  induction xs as [|x xs IH]; intros H; simpl.
  - reflexivity.
  - rewrite (H x (or_introl eq_refl)).
    rewrite IH by (intros y Hy; apply H; right; exact Hy).
    reflexivity.
Qed.

Lemma repeat_body_ok (n : nat) (l : list string) :
  repeat_body n (Ok l) = Ok (List.concat (repeat l n)).
Proof.
  induction n as [|n IH]; simpl.
  - reflexivity.
  - rewrite IH. reflexivity.
Qed.

Lemma repeat_body_raise (n : nat) (e : pyerr) :
  repeat_body (S n) (Raise e) = Raise e.
Proof. reflexivity. Qed.

(** ** Strings *)

Lemma append_empty_r (s : string) : s +++ EmptyString = s.
Proof. induction s as [|c s IH]; simpl; [reflexivity | now rewrite IH]. Qed.

Lemma append_assoc (a b c : string) : (a +++ b) +++ c = a +++ b +++ c.
Proof. induction a as [|x a IH]; simpl; [reflexivity | now rewrite IH]. Qed.

Lemma startswith_append (p s : string) : startswith (p +++ s) p = true.
Proof.
  induction p as [|c p IH]; simpl; [reflexivity|].
  now rewrite Ascii.eqb_refl.
Qed.

Lemma join_cons_prefix (sep h : string) (t : list string) :
  exists rest, join sep (h :: t) = h +++ rest.
Proof.
  destruct t as [|x t]; simpl.
  - exists EmptyString. now rewrite append_empty_r.
  - eexists. reflexivity.
Qed.

Lemma split_on_not_nil (c : ascii) (s : string) : split_on c s <> [].
Proof.
  destruct s as [|x s]; simpl; [discriminate|].
  destruct (Ascii.eqb x c); [discriminate|].
  destruct (split_on c s); discriminate.
Qed.

(** [split] undoes [join] chunk by chunk *)
Lemma split_on_append (c : ascii) (a b : string) :
  split_on c (a +++ String c b) = split_on c a ++ split_on c b.
Proof.
  induction a as [|x a IH]; simpl.
  - now rewrite Ascii.eqb_refl.
  - destruct (Ascii.eqb x c); rewrite IH; [reflexivity|].
    destruct (split_on c a) eqn:E; [|reflexivity].
    now elim (split_on_not_nil c a).
Qed.

Lemma split_on_join (ls : list string) :
  ls <> [] -> split_on nl (join NL ls) = flat_map (split_on nl) ls.
Proof.
  induction ls as [|x ls IH]; intros Hne; [now elim Hne|].
  destruct ls as [|y ls].
  - simpl. now rewrite app_nil_r.
  - change (join NL (x :: y :: ls)) with (x +++ String nl (join NL (y :: ls))).
    rewrite split_on_append, IH by discriminate. reflexivity.
Qed.

(** the order on names is the order of [sorted] *)
Lemma leb_refl (a : string) : String.leb a a = true.
Proof. destruct (String.leb_total a a) as [H|H]; exact H. Qed.

Lemma leb_trans (a b c : string) :
  String.leb a b = true -> String.leb b c = true -> String.leb a c = true.
Proof.
  unfold String.leb. revert b c.
  induction a as [|x a IH]; intros [|y b] [|z c]; simpl; try easy.
  unfold Ascii.compare.
  destruct (N.compare_spec (N_of_ascii x) (N_of_ascii y)) as [Hxy|Hxy|Hxy];
    destruct (N.compare_spec (N_of_ascii y) (N_of_ascii z)) as [Hyz|Hyz|Hyz];
    try easy;
    destruct (N.compare_spec (N_of_ascii x) (N_of_ascii z)) as [Hxz|Hxz|Hxz];
    try easy; try lia.
  apply IH.
Qed.

(** ** [sorted] on the items of a dict *)

Lemma leb_neq_ltb (a b : string) :
  String.leb a b = true -> a <> b -> String.ltb a b = true.
Proof.
  unfold String.leb, String.ltb. intros Hle Hne.
  destruct (String.compare a b) eqn:E; try easy.
  apply String.compare_eq_iff in E. contradiction.
Qed.

Lemma insert_item_perm (x : string * json) (l : dict) :
  Permutation (x :: l) (insert_item x l).
Proof.
  induction l as [|y l IH]; simpl.
  - apply Permutation_refl.
  - destruct (String.leb (fst x) (fst y)).
    + apply Permutation_refl.
    + eapply perm_trans; [apply perm_swap | apply perm_skip, IH].
Qed.

Lemma sorted_items_perm (d : dict) : Permutation d (sorted_items d).
Proof.
  induction d as [|x d IH]; simpl.
  - constructor.
  - eapply perm_trans; [apply perm_skip, IH | apply insert_item_perm].
Qed.

Lemma sorted_items_in (x : string * json) (d : dict) :
  In x (sorted_items d) <-> In x d.
Proof.
  split; apply Permutation_in;
    [apply Permutation_sym|]; apply sorted_items_perm.
Qed.

Lemma insert_item_sorted (x : string * json) (l : dict) :
  StronglySorted name_le l -> StronglySorted name_le (insert_item x l).
Proof.
  induction 1 as [|y l Hs IH Hall]; simpl.
  - repeat constructor.
  - destruct (String.leb (fst x) (fst y)) eqn:E.
    + constructor; [constructor; assumption|].
      constructor; [exact E|].
      eapply Forall_impl; [|exact Hall].
      intros z Hz. unfold name_le in *. eapply leb_trans; eassumption.
    + constructor; [exact IH|].
      rewrite Forall_forall. intros z Hz.
      apply (Permutation_in _ (Permutation_sym (insert_item_perm x l))) in Hz.
      destruct Hz as [<-|Hz].
      * unfold name_le.
        destruct (String.leb_total (fst y) (fst x)) as [H|H]; [exact H|congruence].
      * rewrite Forall_forall in Hall. now apply Hall.
Qed.

Lemma sorted_items_sorted (d : dict) : StronglySorted name_le (sorted_items d).
Proof.
  induction d as [|x d IH]; simpl; [constructor | now apply insert_item_sorted].
Qed.

(** a dict has one sorted arrangement *)
Lemma sorted_perm_unique (l1 l2 : dict) :
  StronglySorted name_le l1 -> StronglySorted name_le l2 ->
  NoDup (keys l1) -> Permutation l1 l2 -> l1 = l2.
Proof.
  revert l2. induction l1 as [|x l1 IH]; intros l2 S1 S2 ND P.
  - now apply Permutation_nil in P.
  - destruct l2 as [|y l2];
      [now apply Permutation_sym, Permutation_nil in P|].
    inversion S1 as [|? ? S1' A1]; inversion S2 as [|? ? S2' A2]; subst.
    rewrite Forall_forall in A1, A2.
    simpl in ND. inversion ND as [|? ? Hnin ND']; subst.
    assert (Hxy : x = y).
    { assert (Hx : In x (y :: l2)) by (eapply Permutation_in; [exact P | now left]).
      assert (Hy : In y (x :: l1))
        by (eapply Permutation_in; [apply Permutation_sym; exact P | now left]).
      destruct Hx as [->|Hx]; [reflexivity|].
      destruct Hy as [->|Hy]; [reflexivity|].
      exfalso. apply Hnin.
      assert (fst x = fst y) as ->
        by (apply String.leb_antisym; [now apply A1 | now apply A2]).
      unfold keys. now apply in_map. }
    subst y. f_equal.
    apply IH; try assumption.
    eapply Permutation_cons_inv; exact P.
Qed.

(** the order of the items in the source does not reach the renderer *)
Lemma sorted_items_perm_invariant (d d' : dict) :
  NoDup (keys d) -> Permutation d d' -> sorted_items d = sorted_items d'.
Proof.
  intros ND P.
  apply sorted_perm_unique; try apply sorted_items_sorted.
  - unfold keys. eapply Permutation_NoDup; [|exact ND].
    apply Permutation_map, sorted_items_perm.
  - eapply perm_trans; [apply Permutation_sym, sorted_items_perm|].
    eapply perm_trans; [exact P | apply sorted_items_perm].
Qed.

Lemma sorted_items_strict (d : dict) :
  NoDup (keys d) -> StronglySorted name_lt (sorted_items d).
Proof.
  intros ND.
  assert (ND' : NoDup (keys (sorted_items d))).
  { unfold keys. eapply Permutation_NoDup; [|exact ND].
    apply Permutation_map, sorted_items_perm. }
  pose proof (sorted_items_sorted d) as S.
  induction S as [|x l S IH A]; [constructor|].
  simpl in ND'. inversion ND' as [|? ? Hnin ND'']; subst.
  constructor; [now apply IH|].
  rewrite Forall_forall in *. intros y Hy.
  apply leb_neq_ltb; [now apply A|].
  intros E. apply Hnin. rewrite E. unfold keys. now apply in_map.
Qed.

(** ** The recursion of [_format_block_type] *)

Lemma lookup_in (k : string) (d : dict) (v : json) :
  lookup k d = Some v -> In (k, v) d.
Proof.
  induction d as [|[k' v'] d IH]; simpl; [discriminate|].
  destruct (String.eqb_spec k k') as [->|_].
  - intros [= ->]. now left.
  - intros H. right. now apply IH.
Qed.

Lemma depth_in (k : string) (v : json) (d : dict) :
  In (k, v) d -> (json_depth v < json_depth (JObj d))%nat.
Proof.
  simpl. induction d as [|[k' v'] d IH]; simpl; [easy|].
  intros [[= -> ->]|H]; [lia|].
  specialize (IH H). lia.
Qed.

Lemma py_get_depth (obj : json) (k : string) (v : json) :
  py_get obj k (JObj []) = Ok v ->
  v = JObj [] \/ (json_depth v < json_depth obj)%nat.
Proof.
  destruct obj as [| | | | |d]; simpl; try discriminate.
  destruct (lookup k d) as [x|] eqn:E; intros [= <-].
  - right. apply lookup_in in E. apply (depth_in _ _ _ E).
  - now left.
Qed.

Lemma py_items_in_depth (obj : json) (d : dict) (k : string) (v : json) :
  py_items obj = Ok d -> In (k, v) d -> (json_depth v < json_depth obj)%nat.
Proof.
  destruct obj; simpl; try discriminate.
  intros [= ->]. apply depth_in.
Qed.

(** a sub-block-type is strictly lower than the block-type that holds it *)
Lemma block_members_depth (schema : json) (sa sb : dict) (k : string) (v : json) :
  block_members schema = Ok (sa, sb) -> In (k, v) sb ->
  (json_depth v < json_depth schema)%nat.
Proof.
  unfold block_members. intros H Hin.
  apply bind_ok in H as (block & Hb & H).
  apply bind_ok in H as (attrs & _ & H).
  apply bind_ok in H as (ai & _ & H).
  apply bind_ok in H as (bts & Hbts & H).
  apply bind_ok in H as (bi & Hbi & H).
  injection H as <- <-.
  apply (proj1 (sorted_items_in _ _)) in Hin.
  pose proof (py_items_in_depth _ _ _ _ Hbi Hin) as D1.
  apply py_get_depth in Hbts as [->|D2];
    [simpl in Hbi; injection Hbi as <-; destruct Hin|].
  apply py_get_depth in Hb as [->|D3]; [simpl in D2; lia|lia].
Qed.

Lemma render_members_ext (self1 self2 : block_renderer) (sa sb : dict)
    (wd : bool) (lvl : Z) (ro : bool) :
  (forall k v, In (k, v) sb -> self1 k v wd lvl ro = self2 k v wd lvl ro) ->
  render_members self1 sa sb wd lvl ro = render_members self2 sa sb wd lvl ro.
Proof.
  intros H. unfold render_members.
  rewrite (extend_each_ext_in
             (fun '(bt_name, bt_schema) => self1 bt_name bt_schema wd lvl ro)
             (fun '(bt_name, bt_schema) => self2 bt_name bt_schema wd lvl ro) sb).
  - reflexivity.
  - intros [k v] Hin. now apply H.
Qed.

(** the body reaches [self] on the sub-block-types only *)
Lemma format_block_type_body_ext (self1 self2 : block_renderer)
    (name : string) (schema : json) (wd : bool) (lvl : Z) (ro : bool) :
  (forall sa sb k v, block_members schema = Ok (sa, sb) -> In (k, v) sb ->
     forall lvl', self1 k v wd lvl' ro = self2 k v wd lvl' ro) ->
  format_block_type_body self1 name schema wd lvl ro =
  format_block_type_body self2 name schema wd lvl ro.
Proof.
  intros H. unfold format_block_type_body.
  destruct (py_get schema "min_items" (JInt 0)) as [mi|]; simpl; [|reflexivity].
  destruct (ro && eq_zero mi); [reflexivity|].
  destruct (py_get schema "nesting_mode" (JStr "single")) as [ne|]; simpl; [|reflexivity].
  destruct (py_get schema "max_items" JNull) as [ma|]; simpl; [|reflexivity].
  destruct (get_description schema wd) as [de|]; simpl; [|reflexivity].
  destruct (block_members schema) as [[sa sb]|] eqn:E; simpl; [|reflexivity].
  assert (R : forall lvl', render_members self1 sa sb wd lvl' ro =
                           render_members self2 sa sb wd lvl' ro).
  { intros lvl'. apply render_members_ext. intros k v Hin. now apply (H sa sb). }
  now rewrite !R.
Qed.

Lemma fuel_irrelevant (f1 f2 : nat) (name : string) (schema : json)
    (wd : bool) (lvl : Z) (ro : bool) :
  (json_depth schema < f1)%nat -> (json_depth schema < f2)%nat ->
  format_block_type_fuel f1 name schema wd lvl ro =
  format_block_type_fuel f2 name schema wd lvl ro.
Proof.
  revert f2 name schema lvl.
  induction f1 as [|f1 IH]; intros f2 name schema lvl H1 H2; [lia|].
  destruct f2 as [|f2]; [lia|]. simpl.
  apply format_block_type_body_ext.
  intros sa sb k v Hm Hin lvl'.
  pose proof (block_members_depth _ _ _ _ _ Hm Hin).
  apply IH; lia.
Qed.

(** [_format_block_type] satisfies the recursive equation of the source *)
Lemma format_block_type_unfold (name : string) (schema : json)
    (wd : bool) (lvl : Z) (ro : bool) :
  _format_block_type name schema wd lvl ro =
  format_block_type_body _format_block_type name schema wd lvl ro.
Proof.
  unfold _format_block_type at 1. simpl.
  apply format_block_type_body_ext.
  intros sa sb k v Hm Hin lvl'.
  pose proof (block_members_depth _ _ _ _ _ Hm Hin).
  unfold _format_block_type. apply fuel_irrelevant; lia.
Qed.

(** ** The type descriptor resolver *)

Lemma parse_type_total_on_type_expr (t : json) :
  type_expr t -> exists sig, _parse_type t = Ok sig.
Proof.
  induction 1 as [s|k e rest Hk _ [sig IH]|payload|payload].
  - exists s. reflexivity.
  - exists (k +++ "(" +++ sig +++ ")").
    simpl in Hk. destruct Hk as [<-|[<-|[<-|[]]]]; simpl; rewrite IH; reflexivity.
  - eexists. reflexivity.
  - eexists. reflexivity.
Qed.

(** a value that is neither a str nor a list resolves to the sentinel *)
Lemma parse_type_unknown (t : json) :
  match t with JStr _ | JArr _ => False | _ => True end ->
  _parse_type t = Ok "unknown".
Proof. destruct t; simpl; intros H; try reflexivity; destruct H. Qed.

(** C5 (defect of the code).  The resolver is not total on malformed
    input: on the empty list, and on a [list] tag without its element type,
    the subscript [type_[0]], resp. [type_[1]], raises IndexError before the
    final [return 'unknown'] is reached. *)
Theorem parse_type_raises_on_short_list :
  _parse_type (JArr []) = Raise IndexError /\
  _parse_type (JArr [JStr "list"]) = Raise IndexError.
Proof. split; reflexivity. Qed.

(** ** The placeholder synthesizer *)

Lemma endswith_nonempty (s p : string) :
  endswith s p = true -> nonempty p = true -> nonempty s = true.
Proof.
  destruct s; [|reflexivity].
  destruct p; [discriminate|]. discriminate.
Qed.

Lemma str_of_Z_head (z : Z) :
  startswith (str_of_Z z) "a" = false.
Proof.
  unfold str_of_Z. destruct (Z.to_int z) as [d|d]; [|reflexivity].
  destruct d; reflexivity.
Qed.

Lemma startswith_head_false (s p : string) (c : ascii) :
  startswith s (String c EmptyString) = false -> startswith s (String c p) = false.
Proof.
  destruct s as [|d s]; cbn [startswith]; [reflexivity|].
  destruct (Ascii.eqb c d); [discriminate | reflexivity].
Qed.

(** no JSON literal reads like a cross-reference *)
Lemma json_dumps_not_reference (v : json) :
  v <> JNull -> startswith (json_dumps v) "azurerm_" = false.
Proof.
  destruct v as [|b|z|s|l|d]; intros H; try reflexivity.
  - now destruct b.
  - apply startswith_head_false, str_of_Z_head.
Qed.

(** C4.  The placeholder follows the priority order of section 4.2: the
    code agrees with the order written from the specification; a declared
    default is emitted as its [json.dumps] literal whatever the name and the
    type, and is never the cross-reference form; without a default a [_name]
    or [_id] suffix decides whatever the type. *)
Theorem placeholder_priority (type_ name : string) (default : json) :
  _get_placeholder type_ name default = spec_placeholder type_ name default /\
  (default <> JNull ->
     _get_placeholder type_ name default = json_dumps default /\
     startswith (_get_placeholder type_ name default) "azurerm_" = false) /\
  (default = JNull -> endswith name "_name" = true ->
     _get_placeholder type_ name default
       = "azurerm_" +++ drop_last 5 name +++ ".example.name") /\
  (default = JNull -> endswith name "_name" = false -> endswith name "_id" = true ->
     _get_placeholder type_ name default
       = "azurerm_" +++ drop_last 3 name +++ ".example.id").
Proof.
  assert (Hn : forall p, nonempty p = true ->
                 nonempty name && endswith name p = endswith name p).
  { intros p Hp. destruct (endswith name p) eqn:E.
    - now rewrite (endswith_nonempty _ _ E Hp).
    - apply andb_false_r. }
  assert (E : _get_placeholder type_ name default = spec_placeholder type_ name default).
  { unfold _get_placeholder, spec_placeholder, spec_type_fallback.
    destruct default; simpl; try reflexivity.
    rewrite !Hn by reflexivity. reflexivity. }
  split; [exact E|]. split; [|split].
  - intros Hd.
    assert (Ed : _get_placeholder type_ name default = json_dumps default).
    { rewrite E. destruct default; try reflexivity. now elim Hd. }
    split; [exact Ed|]. rewrite Ed. now apply json_dumps_not_reference.
  - intros -> Hs. rewrite E. simpl. now rewrite Hs.
  - intros -> Hs Hi. rewrite E. simpl. now rewrite Hs, Hi.
Qed.

Lemma placeholder_priority_witness :
  JInt 7 <> JNull /\
  _get_placeholder "string" "parent_id" (JInt 7) = json_dumps (JInt 7) /\
  _get_placeholder "string" "parent_id" JNull = "azurerm_parent.example.id" /\
  _get_placeholder "string" "display_name" JNull = "azurerm_display.example.name".
Proof.
  split; [discriminate|]. split; [|split].
  - apply (placeholder_priority "string" "parent_id" (JInt 7)). discriminate.
  - apply (placeholder_priority "string" "parent_id" JNull); reflexivity.
  - apply (placeholder_priority "string" "display_name" JNull); reflexivity.
Defined.

(** ** The template assembler: category resolution *)

Lemma template_lines_head (block_type name : string) (block : json)
    (wd ro : bool) (lvl : Z) (lines : list string) :
  template_lines block_type name block wd ro lvl = Ok lines ->
  exists rest, lines = header_line block_type name "example" :: rest.
Proof.
  unfold template_lines. intros H.
  apply bind_ok in H as (? & _ & H). apply bind_ok in H as (? & _ & H).
  apply bind_ok in H as (la & _ & H). apply bind_ok in H as (? & _ & H).
  apply bind_ok in H as (? & _ & H). apply bind_ok in H as (lb & _ & H).
  injection H as <-. eexists. reflexivity.
Qed.

(** ** The block renderer: the leading comment lines *)

Lemma comment_line_prefix (indent rest : string) :
  startswith (indent +++ String "#" rest) (indent +++ "#") = true.
Proof.
  change (String "#" rest) with ("#" +++ rest).
  rewrite <- append_assoc. apply startswith_append.
Qed.

(** every leading line of a block-type is a comment at the block's indentation *)
Lemma nesting_info_lines_comments (indent : string) (nesting min_items max_items : json)
    (description : option string) :
  Forall (fun line => startswith line (indent +++ "#") = true)
         (nesting_info_lines indent nesting min_items max_items description).
Proof.
  unfold nesting_info_lines.
  destruct (desc_truthy description).
  - apply Forall_app. split.
    + unfold desc_lines. destruct description as [s|]; [|constructor].
      rewrite Forall_map, Forall_forall. intros line _. apply comment_line_prefix.
    + constructor; [|constructor].
      destruct (negb (is_none max_items)); apply comment_line_prefix.
  - constructor; [|constructor]. apply comment_line_prefix.
Qed.

(** C10.  A block-type descriptor whose [nesting_mode] is none of [single],
    [list], [set], [map] (its description absent or a str, its nested block
    of the shape of section 3) renders without error to its leading
    description and nesting-information comment lines and nothing else: no
    header, no body, no closing brace.  Under [required_only] with
    [min_items == 0] it renders to no line at all. *)
Theorem unknown_nesting_mode_only_comments
    (name : string) (schema : json) (wd : bool) (lvl : Z) (ro : bool)
    (min_items nesting max_items : json) (description : option string)
    (sub_attributes sub_block_types : dict) :
  py_get schema "min_items" (JInt 0) = Ok min_items ->
  py_get schema "nesting_mode" (JStr "single") = Ok nesting ->
  py_get schema "max_items" JNull = Ok max_items ->
  get_description schema wd = Ok description ->
  block_members schema = Ok (sub_attributes, sub_block_types) ->
  known_nesting nesting = false ->
  let indent := py_repeat "  " lvl in
  let info := nesting_info_lines indent nesting min_items max_items description in
  _format_block_type name schema wd lvl ro
    = Ok (if ro && eq_zero min_items then [] else info) /\
  Forall (fun line => startswith line (indent +++ "#") = true) info.
Proof.
  intros Hmin Hnest Hmax Hdesc Hmem Hk indent info.
  split; [|apply nesting_info_lines_comments].
  rewrite format_block_type_unfold. unfold format_block_type_body.
  rewrite Hmin. cbn [bind].
  destruct (ro && eq_zero min_items); [reflexivity|].
  rewrite Hnest, Hmax, Hdesc, Hmem. cbn [bind].
  unfold known_nesting in Hk.
  apply orb_false_iff in Hk as [Hk Hmap].
  apply orb_false_iff in Hk as [Hk Hset].
  apply orb_false_iff in Hk as [Hsingle Hlist].
  now rewrite Hsingle, Hlist, Hset, Hmap.
Qed.

Lemma unknown_nesting_mode_only_comments_witness :
  _format_block_type "settings" group_block_type true 1 false
    = Ok ["  # Grouped settings"; "  # nesting: group, min: 1"].
Proof.
  apply (unknown_nesting_mode_only_comments "settings" group_block_type true 1 false
           (JInt 1) (JStr "group") JNull (Some "Grouped settings")
           [("size", JObj [("type", JStr "number")])] []);
    reflexivity.
Defined.

(** ** The attribute renderer: deprecated attributes *)

(** C7.  An attribute whose [deprecated] flag is true contributes no line,
    whatever the description and required-only flags: every successful call
    of [_format_attribute] on it returns the empty list, and the call is
    successful as soon as the type resolves and the description is absent
    or a str. *)
Theorem deprecated_attribute_emits_nothing
    (name : string) (schema : json) (wd : bool) (lvl : Z) (ro : bool)
    (deprecated : json) :
  py_get schema "deprecated" (JBool false) = Ok deprecated ->
  truthy deprecated = true ->
  (forall lines, _format_attribute name schema wd lvl ro = Ok lines -> lines = []) /\
  (forall t sig description,
     py_get schema "type" JNull = Ok t -> _parse_type t = Ok sig ->
     get_description schema wd = Ok description ->
     _format_attribute name schema wd lvl ro = Ok []).
Proof.
  intros Hdep Ht.
  destruct schema as [| | | | |d]; try discriminate Hdep.
  simpl in Hdep. injection Hdep as Hdep.
  split.
  - intros lines. unfold _format_attribute. cbn [py_get bind].
    destruct ro; cbn [bind].
    + destruct (negb (truthy _)); [now intros [= <-]|].
      destruct (_parse_type _); cbn [bind]; [|discriminate].
      destruct (get_description (JObj d) wd); cbn [bind]; [|discriminate].
      rewrite Hdep, Ht. now intros [= <-].
    + destruct (_parse_type _); cbn [bind]; [|discriminate].
      destruct (get_description (JObj d) wd); cbn [bind]; [|discriminate].
      rewrite Hdep, Ht. now intros [= <-].
  - intros t sig description Hty Hsig Hdesc.
    simpl in Hty. injection Hty as Hty.
    unfold _format_attribute. cbn [py_get bind].
    rewrite Hty, Hsig, Hdesc, Hdep, Ht. cbn [bind].
    destruct ro; cbn [bind]; [|reflexivity].
    now destruct (negb (truthy _)).
Qed.

Lemma deprecated_attribute_emits_nothing_witness :
  truthy (JBool true) = true /\
  _format_attribute "title" deprecated_attribute true 1 false = Ok [].
Proof.
  split; [reflexivity|].
  apply (deprecated_attribute_emits_nothing "title" deprecated_attribute true 1 false
           (JBool true) eq_refl eq_refl)
    with (t := JStr "string") (sig := "string")
         (description := Some "Use display_name instead");
    reflexivity.
Defined.

(** ** The template assembler: the [example_widget] scenario *)

Lemma join_snoc_nonempty (ls : list string) (c : string) :
  nonempty c = true -> nonempty (join NL (ls ++ [c])) = true.
Proof.
  intros Hc. induction ls as [|x ls IH]; simpl; [exact Hc|].
  destruct (ls ++ [c]) eqn:E; [now destruct ls|].
  now destruct x.
Qed.

(** a line of a chunk is a line of the joined text *)
Lemma in_split_join (x c : string) (chunks : list string) :
  In c chunks -> In x (split_on nl c) -> In x (split_on nl (join NL chunks)).
Proof.
  intros Hc Hx.
  rewrite split_on_join by (intros ->; destruct Hc).
  apply in_flat_map. exists c. split; assumption.
Qed.

Lemma hd_split_join (h : string) (rest : list string) :
  split_on nl h = [h] ->
  hd_error (split_on nl (join NL (h :: rest))) = Some h.
Proof.
  intros Hh. rewrite split_on_join by discriminate.
  cbn [flat_map]. rewrite Hh. reflexivity.
Qed.

Lemma display_name_attribute (s : dict) (wd ro : bool) (description : option string) :
  lookup "type" s = Some (JStr "string") ->
  lookup "required" s = Some (JBool true) ->
  lookup "default" s = None ->
  lookup "deprecated" s = None ->
  lookup "sensitive" s = None ->
  get_description (JObj s) wd = Ok description ->
  _format_attribute "display_name" (JObj s) wd 1 ro = Ok (display_name_lines description).
Proof.
  intros Ht Hr Hd Hp Hs Hdesc.
  unfold _format_attribute, display_name_lines. cbn [py_get bind].
  rewrite Ht, Hr, Hd, Hp, Hs, Hdesc.
  change (py_repeat "  " 1) with "  ".
  destruct ro; cbn [bind _parse_type truthy is_none negb];
  (destruct (desc_truthy description) eqn:E;
   [ rewrite andb_false_r, join_snoc_nonempty by reflexivity; reflexivity
   | reflexivity ]).
Qed.

Lemma example_widget_rendering
    (p : parser) (e b s : dict) (wd ro : bool) (description : option string) :
  lookup "example_widget" (resources p) = Some (JObj e) ->
  lookup "block" e = Some (JObj b) ->
  lookup "attributes" b = Some (JObj [("display_name", JObj s)]) ->
  py_get (JObj b) "block_types" (JObj []) = Ok (JObj []) ->
  _format_attribute "display_name" (JObj s) wd 1 ro = Ok (display_name_lines description) ->
  generate_hcl_template p "example_widget" wd ro 0
    = Ok (join NL (widget_header :: display_name_lines description ++ ["}"])).
Proof.
  intros He Hb Ha Hbt Hattr.
  assert (Ha' : py_get (JObj b) "attributes" (JObj [])
                = Ok (JObj [("display_name", JObj s)]))
    by (cbn [py_get]; now rewrite Ha).
  assert (Hblock : truthy (JObj b) = true)
    by (destruct b; [discriminate Ha | reflexivity]).
  unfold generate_hcl_template, get_schema_block, mem, getitem.
  rewrite He. cbn [bind py_get]. rewrite Hb, Hblock. cbn [negb].
  unfold template_lines. rewrite Ha', Hbt.
  cbn [py_items bind sorted_items insert_item extend_each].
  change (0 + 1) with 1. rewrite Hattr.
  cbn [bind]. rewrite !app_nil_r. reflexivity.
Qed.

(** C1 (as amended).  For the resource [example_widget] whose root block
    has the single attribute [display_name], a required string with no
    default, the template begins with the line
    [resource "example_widget" "example" {] and contains a line assigning
    [display_name = azurerm_display.example.name], the [_name] suffix rule
    taking precedence over the type; the annotation [# required, type:
    string] is on that line, or on the line of its own after a rendered
    description. *)
Theorem example_widget_template
    (p : parser) (e b s : dict) (wd ro : bool) (description : option string) :
  lookup "example_widget" (resources p) = Some (JObj e) ->
  lookup "block" e = Some (JObj b) ->
  lookup "attributes" b = Some (JObj [("display_name", JObj s)]) ->
  py_get (JObj b) "block_types" (JObj []) = Ok (JObj []) ->
  lookup "type" s = Some (JStr "string") ->
  lookup "required" s = Some (JBool true) ->
  lookup "default" s = None ->
  lookup "deprecated" s = None ->
  lookup "sensitive" s = None ->
  get_description (JObj s) wd = Ok description ->
  exists out,
    generate_hcl_template p "example_widget" wd ro 0 = Ok out /\
    hd_error (split_on nl out) = Some widget_header /\
    if desc_truthy description
    then In "  # required, type: string" (split_on nl out) /\
         In "  display_name = azurerm_display.example.name" (split_on nl out)
    else In "  display_name = azurerm_display.example.name  # required, type: string"
            (split_on nl out).
Proof.
  intros He Hb Ha Hbt Ht Hr Hd Hp Hs Hdesc.
  pose proof (display_name_attribute s wd ro description Ht Hr Hd Hp Hs Hdesc) as Hattr.
  pose proof (example_widget_rendering p e b s wd ro description He Hb Ha Hbt Hattr) as Hgen.
  assert (Hhead : split_on nl widget_header = [widget_header])
    by (vm_compute; reflexivity).
  unfold display_name_lines in Hgen.
  destruct (desc_truthy description); (eexists; split; [exact Hgen|]);
    (split; [now apply hd_split_join|]).
  - split.
    + eapply in_split_join; [right; left; reflexivity|].
      eapply in_split_join; [apply in_or_app; right; left; reflexivity|].
      vm_compute. left; reflexivity.
    + eapply in_split_join; [right; right; left; reflexivity|].
      vm_compute. left; reflexivity.
  - eapply in_split_join; [right; left; reflexivity|].
    vm_compute. left; reflexivity.
Qed.

Lemma example_widget_template_witness :
  exists out,
    generate_hcl_template widget_parser "example_widget" true false 0 = Ok out /\
    hd_error (split_on nl out) = Some widget_header /\
    In "  display_name = azurerm_display.example.name  # required, type: string"
       (split_on nl out).
Proof.
  apply (example_widget_template widget_parser
           [("block", JObj [("attributes",
               JObj [("display_name",
                      JObj [("type", JStr "string"); ("required", JBool true)])])])]
           [("attributes",
               JObj [("display_name",
                      JObj [("type", JStr "string"); ("required", JBool true)])])]
           [("type", JStr "string"); ("required", JBool true)]
           true false (Some EmptyString));
    reflexivity.
Defined.

(** C1 as stated fails: no line of the template of that entry assigns the
    empty string literal to [display_name]. *)
Lemma example_widget_no_empty_string_assignment :
  exists out,
    generate_hcl_template widget_parser "example_widget" true false 0 = Ok out /\
    forallb (fun line => negb (contains line ("display_name = " +++ DQ +++ DQ)))
            (split_on nl out) = true.
Proof.
  eexists. split; [vm_compute; reflexivity | vm_compute; reflexivity].
Qed.

(** ** The block renderer: the list and set modes *)

Lemma list_or_set_not_single (nesting : json) :
  eq_str nesting "list" || eq_str nesting "set" = true ->
  eq_str nesting "single" = false.
Proof.
  destruct nesting as [| | |s| |]; try discriminate.
  cbn [eq_str]. intros H.
  apply orb_true_iff in H as [H|H]; apply String.eqb_eq in H; subst s; reflexivity.
Qed.

(** the three cases of the list and set modes: the expanded instances, the
    placeholder instance, and nothing under [required_only] *)
Lemma list_set_block_rendering
    (name : string) (schema : json) (wd : bool) (lvl : Z) (ro : bool)
    (m : Z) (nesting max_items : json) (description : option string)
    (sub_attributes sub_block_types : dict) :
  py_get schema "min_items" (JInt 0) = Ok (JInt m) ->
  py_get schema "nesting_mode" (JStr "single") = Ok nesting ->
  eq_str nesting "list" || eq_str nesting "set" = true ->
  py_get schema "max_items" JNull = Ok max_items ->
  get_description schema wd = Ok description ->
  block_members schema = Ok (sub_attributes, sub_block_types) ->
  let indent := py_repeat "  " lvl in
  let info := nesting_info_lines indent nesting (JInt m) max_items description in
  let repeat_comment := repeat_comment_line indent (JInt m) max_items in
  (0 < m ->
   forall body,
     render_members _format_block_type sub_attributes sub_block_types wd (lvl + 1) ro
       = Ok body ->
     _format_block_type name schema wd lvl ro
       = Ok (info ++ [repeat_comment]
               ++ List.concat (repeat (block_instance indent name body) (Z.to_nat m)))) /\
  (m = 0 -> ro = false ->
   _format_block_type name schema wd lvl ro
     = Ok (info ++ [repeat_comment] ++ placeholder_instance indent name)) /\
  (m = 0 -> ro = true ->
   _format_block_type name schema wd lvl ro = Ok []).
Proof.
  intros Hmin Hnest Hmode Hmax Hdesc Hmem indent info repeat_comment.
  pose proof (list_or_set_not_single nesting Hmode) as Hsingle.
  split; [|split].
  - intros Hpos body Hbody.
    rewrite format_block_type_unfold. unfold format_block_type_body.
    rewrite Hmin. cbn [bind eq_zero].
    replace (m =? 0) with false by (symmetry; apply Z.eqb_neq; lia).
    rewrite andb_false_r, Hnest, Hmax, Hdesc, Hmem. cbn [bind].
    rewrite Hsingle, Hmode. cbn [gt_zero range_len bind].
    replace (0 <? m) with true by (symmetry; apply Z.ltb_lt; lia).
    rewrite Hbody. cbn [bind]. rewrite repeat_body_ok. reflexivity.
  - intros -> ->.
    rewrite format_block_type_unfold. unfold format_block_type_body.
    rewrite Hmin. cbn [bind andb].
    rewrite Hnest, Hmax, Hdesc, Hmem. cbn [bind].
    rewrite Hsingle, Hmode. reflexivity.
  - intros -> ->.
    rewrite format_block_type_unfold. unfold format_block_type_body.
    rewrite Hmin. reflexivity.
Qed.

(** under [required_only] a [list] block-type with [min_items = 0] is not
    shown at all; without it, it is shown as the placeholder instance *)
Lemma list_block_required_only_no_placeholder :
  _format_block_type "rule" (rule_block_type 0) true 1 true = Ok [] /\
  _format_block_type "rule" (rule_block_type 0) true 1 false
    = Ok ["  # # nesting: list, min: 0";
          "  # Repeat this block as needed (min: 0)";
          "  rule {  # optional, uncomment and fill if needed";
          "    # ...";
          "  }"].
Proof. split; vm_compute; reflexivity. Qed.

Lemma lstrip_append (a b : string) :
  lstrip (a +++ b) = match lstrip a with EmptyString => lstrip b | s => s +++ b end.
Proof.
  induction a as [|c a IH]; cbn [String.append lstrip]; [reflexivity|].
  destruct (is_space c); [exact IH | reflexivity].
Qed.

Lemma lstrip_indent (lvl : Z) (s : string) : lstrip (py_repeat "  " lvl +++ s) = lstrip s.
Proof.
  unfold py_repeat. induction (Z.to_nat lvl) as [|n IH]; cbn [repeat_nat]; [reflexivity|].
  rewrite append_assoc. exact IH.
Qed.

(** what follows a name that does not open a comment is not a comment *)
Lemma comment_line_append (name rest : string) :
  comment_line name = false -> comment_line rest = false ->
  comment_line (name +++ rest) = false.
Proof.
  unfold comment_line. intros Hn Hr. rewrite lstrip_append.
  destruct (lstrip name) as [|c s]; [exact Hr|].
  cbn [String.append startswith] in *. exact Hn.
Qed.

(** C6 (defect of the code).  For a block-type of nesting mode [list] or
    [set] with [min_items == 0], rendered without [required_only], the
    instance that follows the repeat comment is not commented out: its
    header, which carries the remark [optional, uncomment and fill if
    needed], and its closing brace are lines of the template that are not
    comments, so that the output holds one real, empty instance of the
    block; only the ellipsis line between them is a comment. *)
Theorem list_set_placeholder_is_live
    (name : string) (schema : json) (wd : bool) (lvl : Z)
    (nesting max_items : json) (description : option string)
    (sub_attributes sub_block_types : dict) :
  py_get schema "min_items" (JInt 0) = Ok (JInt 0) ->
  py_get schema "nesting_mode" (JStr "single") = Ok nesting ->
  eq_str nesting "list" || eq_str nesting "set" = true ->
  py_get schema "max_items" JNull = Ok max_items ->
  get_description schema wd = Ok description ->
  block_members schema = Ok (sub_attributes, sub_block_types) ->
  let indent := py_repeat "  " lvl in
  let info := nesting_info_lines indent nesting (JInt 0) max_items description in
  let repeat_comment := repeat_comment_line indent (JInt 0) max_items in
  let header := indent +++ name +++ " {  # optional, uncomment and fill if needed" in
  let ellipsis := indent +++ "  # ..." in
  let closing := indent +++ "}" in
  _format_block_type name schema wd lvl false
    = Ok (info ++ [repeat_comment; header; ellipsis; closing]) /\
  comment_line closing = false /\
  (comment_line name = false -> comment_line header = false) /\
  comment_line ellipsis = true.
Proof.
  intros Hmin Hnest Hmode Hmax Hdesc Hmem indent info repeat_comment header ellipsis closing.
  split; [|split; [|split]].
  - exact (proj1 (proj2 (list_set_block_rendering name schema wd lvl false 0 nesting
                           max_items description sub_attributes sub_block_types
                           Hmin Hnest Hmode Hmax Hdesc Hmem)) eq_refl eq_refl).
  - unfold comment_line, closing, indent. now rewrite lstrip_indent.
  - intros Hname.
    assert (E : comment_line header = comment_line (name +++ " {  # optional, uncomment and fill if needed")).
    { unfold comment_line, header, indent. now rewrite lstrip_indent. }
    rewrite E. now apply comment_line_append.
  - unfold comment_line, ellipsis, indent. now rewrite lstrip_indent.
Qed.

Lemma list_set_placeholder_is_live_witness :
  _format_block_type "rule" (rule_block_type 0) false 1 false
    = Ok ["  # # nesting: list, min: 0";
          "  # Repeat this block as needed (min: 0)";
          "  rule {  # optional, uncomment and fill if needed";
          "    # ...";
          "  }"] /\
  comment_line "  }" = false /\
  comment_line "  rule {  # optional, uncomment and fill if needed" = false /\
  comment_line "    # ..." = true.
Proof.
  pose proof (list_set_placeholder_is_live "rule" (rule_block_type 0) false 1
                (JStr "list") JNull None
                [("port", JObj [("type", JStr "number"); ("required", JBool true)])] []
                eq_refl eq_refl eq_refl eq_refl eq_refl eq_refl) as (E & C & H & L).
  split; [exact E|]. split; [exact C|]. split; [exact (H eq_refl) | exact L].
Defined.

(** ** The required-only rendering is contained in the full rendering *)














(** ** Rendering a well-formed schema tree succeeds *)

Lemma get_description_total (d : dict) (wd : bool) :
  str_or_absent d "description" ->
  exists description, get_description (JObj d) wd = Ok description.
Proof.
  unfold str_or_absent, get_description. cbn [py_get bind]. intros H.
  destruct wd; [|eexists; reflexivity].
  destruct (lookup "description" d) as [[| | |s| |]|]; try destruct H;
    eexists; reflexivity.
Qed.

Lemma members_of_items (d : dict) (k : string) (m : dict) :
  members_of d k = Some m ->
  exists v, py_get (JObj d) k (JObj []) = Ok v /\ py_items v = Ok m.
Proof.
  unfold members_of. cbn [py_get].
  destruct (lookup k d) as [[| | | | |x]|]; try discriminate; intros [= ->];
    eexists; split; reflexivity.
Qed.

Lemma block_members_total (d b attrs bts : dict) :
  members_of d "block" = Some b ->
  members_of b "attributes" = Some attrs ->
  members_of b "block_types" = Some bts ->
  block_members (JObj d) = Ok (sorted_items attrs, sorted_items bts).
Proof.
  intros Hb Ha Ht. unfold block_members.
  assert (Hblock : exists blk, py_get (JObj d) "block" (JObj []) = Ok blk /\
                     (blk = JObj b)).
  { unfold members_of in Hb. cbn [py_get].
    destruct (lookup "block" d) as [[| | | | |x]|]; try discriminate;
      injection Hb as <-; eexists; split; reflexivity. }
  destruct Hblock as (blk & -> & ->). cbn [bind].
  destruct (members_of_items _ _ _ Ha) as (va & -> & Hva). cbn [bind].
  rewrite Hva. cbn [bind].
  destruct (members_of_items _ _ _ Ht) as (vt & -> & Hvt). cbn [bind].
  rewrite Hvt. reflexivity.
Qed.

Lemma extend_each_total {A} (f : A -> outcome (list string)) (xs : list A) :
  (forall x, In x xs -> exists l, f x = Ok l) ->
  exists l, extend_each f xs = Ok l.
Proof.
  induction xs as [|x xs IH]; intros H; cbn [extend_each].
  - eexists; reflexivity.
  - destruct (H x (or_introl eq_refl)) as (l & ->).
    destruct (IH (fun y Hy => H y (or_intror Hy))) as (r & ->).
    eexists; reflexivity.
Qed.

Lemma format_attribute_total (name : string) (v : json) (wd : bool) (lvl : Z) (ro : bool) :
  wf_attribute v -> exists l, _format_attribute name v wd lvl ro = Ok l.
Proof.
  intros [d t Ht Hty Hdesc].
  destruct (parse_type_total_on_type_expr t Hty) as (sig & Hsig).
  destruct (get_description_total d wd Hdesc) as (description & Hd).
  unfold _format_attribute. cbn [py_get bind]. rewrite Ht, Hsig, Hd. cbn [bind].
  destruct ro; cbn [bind];
    repeat match goal with |- context [if ?c then _ else _] => destruct c end;
    eexists; reflexivity.
Qed.

Lemma render_members_total (self : block_renderer) (attrs bts : dict)
    (wd : bool) (lvl : Z) (ro : bool) :
  (forall k v, In (k, v) attrs -> wf_attribute v) ->
  (forall k v, In (k, v) bts -> exists l, self k v wd lvl ro = Ok l) ->
  exists body,
    render_members self (sorted_items attrs) (sorted_items bts) wd lvl ro = Ok body.
Proof.
  intros Ha Hb. unfold render_members.
  destruct (extend_each_total
              (fun '(attr_name, attr_schema) =>
                 _format_attribute attr_name attr_schema wd lvl ro)
              (sorted_items attrs)) as (la & ->).
  { intros [k v] Hin. apply (proj1 (sorted_items_in _ _)) in Hin.
    apply format_attribute_total. eapply Ha; eassumption. }
  destruct (extend_each_total
              (fun '(bt_name, bt_schema) => self bt_name bt_schema wd lvl ro)
              (sorted_items bts)) as (lb & ->).
  { intros [k v] Hin. apply (proj1 (sorted_items_in _ _)) in Hin. eapply Hb; eassumption. }
  eexists; reflexivity.
Qed.

Lemma format_block_type_total (v : json) :
  wf_block_type v ->
  forall name wd lvl ro, exists l, _format_block_type name v wd lvl ro = Ok l.
Proof.
  induction 1 as [d b attrs bts Hdesc Hmin Hb Ha Ht Hattrs _ IH].
  intros name wd lvl ro.
  rewrite format_block_type_unfold. unfold format_block_type_body.
  destruct (get_description_total d wd Hdesc) as (description & Hd).
  rewrite Hd, (block_members_total d b attrs bts Hb Ha Ht).
  assert (RM : forall lvl', exists body,
             render_members _format_block_type (sorted_items attrs) (sorted_items bts)
               wd lvl' ro = Ok body).
  { intros lvl'. apply render_members_total; [exact Hattrs|].
    intros k x Hin. apply (IH k x Hin). }
  assert (Hmi : exists m, py_get (JObj d) "min_items" (JInt 0) = Ok (JInt m)).
  { unfold int_or_absent in Hmin. cbn [py_get].
    destruct (lookup "min_items" d) as [[| |z| | |]|]; try destruct Hmin;
      eexists; reflexivity. }
  destruct Hmi as (m & ->). cbn [py_get bind].
  destruct (ro && eq_zero (JInt m)); [eexists; reflexivity|].
  destruct (eq_str _ "single").
  { destruct (RM (lvl + 1)) as (body & ->). eexists; reflexivity. }
  destruct (eq_str _ "list" || eq_str _ "set").
  { cbn [gt_zero range_len bind]. destruct (0 <? m); [|eexists; reflexivity].
    destruct (RM (lvl + 1)) as (body & ->). cbn [bind].
    rewrite repeat_body_ok. eexists; reflexivity. }
  destruct (eq_str _ "map").
  { destruct (RM (lvl + 2)) as (body & ->). eexists; reflexivity. }
  eexists; reflexivity.
Qed.

Lemma template_lines_total (block_type name : string) (block : json)
    (wd ro : bool) (lvl : Z) :
  wf_block block ->
  exists lines, template_lines block_type name block wd ro lvl = Ok lines.
Proof.
  intros (b & attrs & bts & -> & Ha & Ht & Hattrs & Hbts).
  unfold template_lines.
  destruct (members_of_items _ _ _ Ha) as (va & -> & Hva). cbn [bind].
  rewrite Hva. cbn [bind].
  destruct (extend_each_total
              (fun '(attr_name, attr_schema) =>
                 _format_attribute attr_name attr_schema wd (lvl + 1) ro)
              (sorted_items attrs)) as (la & ->).
  { intros [k v] Hin. apply (proj1 (sorted_items_in _ _)) in Hin.
    apply format_attribute_total. eapply Hattrs; eassumption. }
  cbn [bind].
  destruct (members_of_items _ _ _ Ht) as (vt & -> & Hvt). cbn [bind].
  rewrite Hvt. cbn [bind].
  destruct (extend_each_total
              (fun '(bt_name, bt_schema) =>
                 _format_block_type bt_name bt_schema wd (lvl + 1) ro)
              (sorted_items bts)) as (lb & ->).
  { intros [k v] Hin. apply (proj1 (sorted_items_in _ _)) in Hin.
    apply format_block_type_total. eapply Hbts; eassumption. }
  eexists; reflexivity.
Qed.

(** ** The errors of a rendering *)

Lemma clean_ok {A} (a : A) : clean (Ok a).
Proof. intros e H. discriminate H. Qed.

Lemma clean_raise {A} (e : pyerr) : python_error e -> clean (@Raise A e).
Proof. intros He e' [= <-]. exact He. Qed.

Lemma clean_bind {A B} (m : outcome A) (k : A -> outcome B) :
  clean m -> (forall a, m = Ok a -> clean (k a)) -> clean (bind m k).
Proof.
  intros Hm Hk e. destruct m as [a|e']; cbn [bind].
  - now apply Hk.
  - intros [= <-]. now apply Hm.
Qed.

Lemma clean_py_get (obj : json) (k : string) (dflt : json) : clean (py_get obj k dflt).
Proof. destruct obj; (apply clean_ok || now apply clean_raise). Qed.

Lemma clean_py_items (obj : json) : clean (py_items obj).
Proof. destruct obj; (apply clean_ok || now apply clean_raise). Qed.

Lemma clean_py_strip (obj : json) : clean (py_strip obj).
Proof. destruct obj; (apply clean_ok || now apply clean_raise). Qed.

Lemma clean_gt_zero (v : json) : clean (gt_zero v).
Proof. destruct v; (apply clean_ok || now apply clean_raise). Qed.

Lemma clean_range_len (v : json) : clean (range_len v).
Proof. destruct v; (apply clean_ok || now apply clean_raise). Qed.

Lemma clean_parse_type (t : json) : clean (_parse_type t).
Proof.
  revert t. fix clean_parse_type 1. intros t.
  destruct t as [| | | |l|]; try apply clean_ok.
  destruct l as [|h tl]; [now apply clean_raise|].
  cbn [_parse_type].
  destruct (eq_str h "list" || eq_str h "set" || eq_str h "map").
  - destruct tl as [|e rest]; [now apply clean_raise|].
    apply clean_bind; [apply clean_parse_type | intros; apply clean_ok].
  - destruct (eq_str h "object"); [apply clean_ok|].
    destruct (eq_str h "tuple"); apply clean_ok.
Qed.

Ltac clean_step :=
  match goal with
  | |- clean (Ok _) => apply clean_ok
  | |- clean (py_get _ _ _) => apply clean_py_get
  | |- clean (py_items _) => apply clean_py_items
  | |- clean (py_strip _) => apply clean_py_strip
  | |- clean (gt_zero _) => apply clean_gt_zero
  | |- clean (range_len _) => apply clean_range_len
  | |- clean (_parse_type _) => apply clean_parse_type
  | |- clean (bind _ _) => apply clean_bind; [|intros ? ?]
  | |- clean (if ?c then _ else _) => destruct c
  | |- clean (let '(_, _) := ?x in _) => destruct x
  end.

Lemma clean_get_description (schema : json) (wd : bool) : clean (get_description schema wd).
Proof. unfold get_description. repeat clean_step. Qed.

Lemma clean_format_attribute (name : string) (schema : json) (wd : bool) (lvl : Z) (ro : bool) :
  clean (_format_attribute name schema wd lvl ro).
Proof.
  unfold _format_attribute.
  repeat first [clean_step | apply clean_get_description].
Qed.

Lemma clean_extend_each {A} (f : A -> outcome (list string)) (xs : list A) :
  (forall x, In x xs -> clean (f x)) -> clean (extend_each f xs).
Proof.
  induction xs as [|x xs IH]; intros Hf; cbn [extend_each].
  - apply clean_ok.
  - apply clean_bind; [apply Hf; now left|]. intros l _.
    apply clean_bind; [apply IH; intros y Hy; apply Hf; now right|].
    intros r _. apply clean_ok.
Qed.

Lemma clean_repeat_body (n : nat) (body : outcome (list string)) :
  clean body -> clean (repeat_body n body).
Proof.
  intros Hb. induction n as [|n IH]; cbn [repeat_body].
  - apply clean_ok.
  - apply clean_bind; [exact Hb|]. intros l _.
    apply clean_bind; [exact IH|]. intros r _. apply clean_ok.
Qed.

Lemma clean_render_members (self : block_renderer) (sa sb : dict)
    (wd : bool) (lvl : Z) (ro : bool) :
  (forall k v, In (k, v) sb -> clean (self k v wd lvl ro)) ->
  clean (render_members self sa sb wd lvl ro).
Proof.
  intros Hself. unfold render_members.
  apply clean_bind;
    [apply clean_extend_each; intros [k v] _; apply clean_format_attribute|].
  intros la _.
  apply clean_bind; [apply clean_extend_each; intros [k v] Hin; now apply Hself|].
  intros lb _. apply clean_ok.
Qed.

Lemma clean_block_members (schema : json) : clean (block_members schema).
Proof. unfold block_members. repeat clean_step. Qed.

(** the body raises what its operations raise and what [self] raises on a
    sub-block-type *)
Lemma clean_format_block_type_body (self : block_renderer)
    (name : string) (schema : json) (wd : bool) (lvl : Z) (ro : bool) :
  (forall sa sb k v lvl', block_members schema = Ok (sa, sb) -> In (k, v) sb ->
     clean (self k v wd lvl' ro)) ->
  clean (format_block_type_body self name schema wd lvl ro).
Proof.
  intros Hself. unfold format_block_type_body.
  apply clean_bind; [apply clean_py_get|]. intros min_items _.
  destruct (ro && eq_zero min_items); [apply clean_ok|].
  apply clean_bind; [apply clean_py_get|]. intros nesting _.
  apply clean_bind; [apply clean_py_get|]. intros max_items _.
  apply clean_bind; [apply clean_get_description|]. intros description _.
  apply clean_bind; [apply clean_block_members|]. intros [sa sb] Hm.
  assert (RM : forall lvl', clean (render_members self sa sb wd lvl' ro)).
  { intros lvl'. apply clean_render_members. intros k v Hin.
    now apply (Hself sa sb). }
  repeat first [ clean_step | apply clean_repeat_body | apply RM ].
Qed.

Lemma clean_format_block_type_fuel (fuel : nat) :
  forall name schema wd lvl ro,
    (json_depth schema < fuel)%nat ->
    clean (format_block_type_fuel fuel name schema wd lvl ro).
Proof.
  induction fuel as [|fuel IH]; intros name schema wd lvl ro Hd; [lia|].
  cbn [format_block_type_fuel]. apply clean_format_block_type_body.
  intros sa sb k v lvl' Hm Hin.
  pose proof (block_members_depth _ _ _ _ _ Hm Hin).
  apply IH. lia.
Qed.

(** the fuel of [_format_block_type] is never exhausted *)
Lemma clean_format_block_type (name : string) (schema : json)
    (wd : bool) (lvl : Z) (ro : bool) :
  clean (_format_block_type name schema wd lvl ro).
Proof. apply clean_format_block_type_fuel. lia. Qed.

Lemma clean_template_lines (block_type name : string) (block : json)
    (wd ro : bool) (lvl : Z) :
  clean (template_lines block_type name block wd ro lvl).
Proof.
  unfold template_lines.
  repeat first [ clean_step
               | apply clean_extend_each; intros [k v] _;
                 first [ apply clean_format_attribute
                       | apply clean_format_block_type ] ].
Qed.

Lemma clean_get_schema_block (p : parser) (name : string) :
  clean (get_schema_block p name).
Proof.
  unfold get_schema_block, getitem, mem.
  destruct (lookup name (resources p)); [repeat clean_step|].
  destruct (lookup name (data_sources p)); repeat clean_step.
Qed.

(** C2 (as amended).  [generate_hcl_template] raises ValueError, and then
    the not-found error, exactly when [get_schema_block] yields a falsy
    block; this is the case when the name is in neither category, and also
    when the entry that resolves it has no block or an empty one.  For a
    name whose block is non-empty and well-formed it returns the template
    string.  The check precedes the construction of any line, and every
    other failure is an error raised by an operation on a malformed tree. *)
Theorem not_found_iff_no_block
    (p : parser) (name : string) (wd ro : bool) (lvl : Z) :
  ((exists msg, generate_hcl_template p name wd ro lvl = Raise (ValueError msg)) <->
   (exists block, get_schema_block p name = Ok block /\ truthy block = false)) /\
  (forall block, get_schema_block p name = Ok block -> truthy block = false ->
     generate_hcl_template p name wd ro lvl = Raise (not_found name)) /\
  (mem name (resources p) = false -> mem name (data_sources p) = false ->
     generate_hcl_template p name wd ro lvl = Raise (not_found name)) /\
  (forall block, get_schema_block p name = Ok block -> truthy block = true ->
     wf_block block ->
     exists out, generate_hcl_template p name wd ro lvl = Ok out) /\
  (forall e, generate_hcl_template p name wd ro lvl = Raise e ->
     e = not_found name \/ python_error e).
Proof.
  assert (Hfalsy : forall block, get_schema_block p name = Ok block ->
            truthy block = false ->
            generate_hcl_template p name wd ro lvl = Raise (not_found name)).
  { intros block Hb Ht. unfold generate_hcl_template. rewrite Hb. cbn [bind].
    now rewrite Ht. }
  split; [|split; [exact Hfalsy|split; [|split]]].
  - split.
    + intros (msg & H). unfold generate_hcl_template in H.
      destruct (get_schema_block p name) as [block|e] eqn:Hb; cbn [bind] in H.
      * destruct (truthy block) eqn:Ht; [|now exists block].
        cbn [negb] in H.
        destruct (template_lines _ name block wd ro lvl) as [lines|e] eqn:Hl;
          cbn [bind] in H; [discriminate H|].
        injection H as ->. destruct (clean_template_lines _ _ _ _ _ _ _ Hl).
      * injection H as ->. destruct (clean_get_schema_block _ _ _ Hb).
    + intros (block & Hb & Ht). eexists. exact (Hfalsy block Hb Ht).
  - intros Hr Hd. apply (Hfalsy JNull); [|reflexivity].
    unfold get_schema_block. now rewrite Hr, Hd.
  - intros block Hb Ht Hwf. unfold generate_hcl_template. rewrite Hb. cbn [bind].
    rewrite Ht. cbn [negb].
    destruct (template_lines_total
                (if mem name (resources p) then "resource" else "data")
                name block wd ro lvl Hwf) as (lines & ->).
    eexists; reflexivity.
  - intros e H. unfold generate_hcl_template in H.
    destruct (get_schema_block p name) as [block|e'] eqn:Hb; cbn [bind] in H.
    + destruct (truthy block); cbn [negb] in H; [|left; now injection H as <-].
      destruct (template_lines _ name block wd ro lvl) as [lines|e'] eqn:Hl;
        cbn [bind] in H; [discriminate H|].
      injection H as ->. right. exact (clean_template_lines _ _ _ _ _ _ _ Hl).
    + injection H as ->. right. exact (clean_get_schema_block _ _ _ Hb).
Qed.

Lemma widget_block_wf : wf_block widget_block.
Proof.
  exists [("attributes",
           JObj [("display_name",
                  JObj [("type", JStr "string"); ("required", JBool true)])])],
         [("display_name", JObj [("type", JStr "string"); ("required", JBool true)])],
         [].
  repeat split.
  - intros k v [[= <- <-]|[]].
    apply (wf_attribute_intro _ (JStr "string")); [reflexivity | constructor | exact I].
  - intros k v [].
Defined.

Lemma not_found_iff_no_block_witness :
  (mem "azurerm_missing" (resources widget_parser) = false /\
   mem "azurerm_missing" (data_sources widget_parser) = false /\
   generate_hcl_template widget_parser "azurerm_missing" true false 0
     = Raise (not_found "azurerm_missing")) /\
  (get_schema_block widget_parser "example_widget" = Ok widget_block /\
   truthy widget_block = true /\
   exists out, generate_hcl_template widget_parser "example_widget" true false 0 = Ok out).
Proof.
  split.
  - split; [reflexivity|]. split; [reflexivity|].
    apply (not_found_iff_no_block widget_parser "azurerm_missing" true false 0);
      reflexivity.
  - split; [reflexivity|]. split; [reflexivity|].
    apply (not_found_iff_no_block widget_parser "example_widget" true false 0)
      with (block := widget_block); [reflexivity | reflexivity | exact widget_block_wf].
Defined.

(** C2 as stated fails: a name that is present in the resource category,
    with an entry whose block is empty, fails with the not-found error. *)
Lemma present_name_without_block_not_found :
  mem "azurerm_empty" (resources empty_entry_parser) = true /\
  generate_hcl_template empty_entry_parser "azurerm_empty" true false 0
    = Raise (not_found "azurerm_empty").
Proof. split; reflexivity. Qed.

(** ** The order of the members in the source does not reach the output *)

Lemma insert_item_same_key (R : json -> json -> Prop) (x x' : string * json) (l l' : dict) :
  same_key R x x' -> Forall2 (same_key R) l l' ->
  Forall2 (same_key R) (insert_item x l) (insert_item x' l').
Proof.
  intros Hx H. induction H as [|y y' l l' Hy H IH]; cbn [insert_item].
  - constructor; [exact Hx | constructor].
  - destruct Hx as [Ex Rx], Hy as [Ey Ry]. rewrite <- Ex, <- Ey.
    destruct (String.leb (fst x) (fst y)).
    + constructor; [split; assumption|]. constructor; [split; assumption | exact H].
    + constructor; [split; assumption|]. apply IH.
Qed.

Lemma sorted_items_same_key (R : json -> json -> Prop) (l l' : dict) :
  Forall2 (same_key R) l l' -> Forall2 (same_key R) (sorted_items l) (sorted_items l').
Proof.
  induction 1 as [|x x' l l' Hx H IH]; cbn [sorted_items]; [constructor|].
  now apply insert_item_same_key.
Qed.

Lemma reordered_items_sorted (R : json -> json -> Prop) (d d' : dict) :
  reordered_items R d d' -> Forall2 (same_key R) (sorted_items d) (sorted_items d').
Proof.
  intros (ND & m & P & F).
  rewrite (sorted_items_perm_invariant d m ND P).
  now apply sorted_items_same_key.
Qed.

Lemma same_key_eq (l l' : dict) : Forall2 (same_key eq) l l' -> l = l'.
Proof.
  induction 1 as [|[k v] [k' v'] l l' [Hk Hv] _ IH]; [reflexivity|].
  cbn in Hk, Hv. now subst.
Qed.

Lemma extend_each_same_key (R : json -> json -> Prop)
    (f g : string * json -> outcome (list string)) (l l' : dict) :
  (forall x y, same_key R x y -> f x = g y) ->
  Forall2 (same_key R) l l' -> extend_each f l = extend_each g l'.
Proof.
  intros Hfg. induction 1 as [|x y l l' Hxy _ IH]; cbn [extend_each]; [reflexivity|].
  now rewrite (Hfg x y Hxy), IH.
Qed.

(** the sorted members read off a field, on both sides of a reordering *)
Lemma reordered_field_items (R : json -> json -> Prop) (b b' : dict) (k : string) :
  reordered_field R (lookup k b) (lookup k b') ->
  exists m m',
    (v <- py_get (JObj b) k (JObj []) ;; py_items v) = Ok m /\
    (v <- py_get (JObj b') k (JObj []) ;; py_items v) = Ok m' /\
    Forall2 (same_key R) (sorted_items m) (sorted_items m').
Proof.
  cbn [py_get bind].
  intros [[-> ->]|(d & d' & -> & -> & H)].
  - exists [], []. repeat split. constructor.
  - exists d, d'. repeat split. now apply reordered_items_sorted.
Qed.

(** [block_members] with its two reads grouped *)
Lemma block_members_reads (schema : json) :
  block_members schema =
  (block <- py_get schema "block" (JObj []) ;;
   attr_items <- (v <- py_get block "attributes" (JObj []) ;; py_items v) ;;
   bt_items <- (v <- py_get block "block_types" (JObj []) ;; py_items v) ;;
   Ok (sorted_items attr_items, sorted_items bt_items)).
Proof.
  unfold block_members.
  destruct (py_get schema "block" (JObj [])) as [block|]; cbn [bind]; [|reflexivity].
  destruct (py_get block "attributes" (JObj [])) as [va|]; cbn [bind]; [|reflexivity].
  destruct (py_items va); cbn [bind]; [|reflexivity].
  destruct (py_get block "block_types" (JObj [])); reflexivity.
Qed.

Lemma reordered_block_members (s s' : dict) :
  reordered (JObj s) (JObj s') ->
  exists sa sb sb',
    block_members (JObj s) = Ok (sa, sb) /\
    block_members (JObj s') = Ok (sa, sb') /\
    Forall2 (same_key reordered) sb sb'.
Proof.
  intros H. inversion H as [? ? _ Hblock]; subst.
  rewrite !block_members_reads. cbn [py_get bind].
  destruct Hblock as [[-> ->]|(b & b' & -> & -> & Ha & Ht)].
  - exists [], [], []. repeat split. constructor.
  - destruct (reordered_field_items eq b b' "attributes" Ha)
      as (ma & ma' & -> & -> & Fa).
    destruct (reordered_field_items reordered b b' "block_types" Ht)
      as (mt & mt' & -> & -> & Ft).
    apply same_key_eq in Fa. cbn [bind]. rewrite <- Fa.
    exists (sorted_items ma), (sorted_items mt), (sorted_items mt').
    repeat split. exact Ft.
Qed.

Lemma format_block_type_fuel_reordered (fuel : nat) :
  forall name schema schema' wd lvl ro,
    reordered schema schema' ->
    format_block_type_fuel fuel name schema wd lvl ro =
    format_block_type_fuel fuel name schema' wd lvl ro.
Proof.
  induction fuel as [|fuel IH]; intros name schema schema' wd lvl ro H; [reflexivity|].
  cbn [format_block_type_fuel]. unfold format_block_type_body.
  pose proof H as H0. inversion H0 as [s s' Hsame _]; subst.
  destruct (reordered_block_members s s' H) as (sa & sb & sb' & -> & -> & F).
  assert (G : forall k, k <> "block" -> forall dflt,
            py_get (JObj s) k dflt = py_get (JObj s') k dflt).
  { intros k Hk dflt. cbn [py_get]. now rewrite (Hsame k Hk). }
  assert (D : get_description (JObj s) wd = get_description (JObj s') wd).
  { unfold get_description. now rewrite (G "description") by discriminate. }
  rewrite (G "min_items"), (G "nesting_mode"), (G "max_items"), D by discriminate.
  assert (RM : forall lvl',
             render_members (format_block_type_fuel fuel) sa sb wd lvl' ro =
             render_members (format_block_type_fuel fuel) sa sb' wd lvl' ro).
  { intros lvl'. unfold render_members.
    rewrite (extend_each_same_key reordered
               (fun '(bt_name, bt_schema) =>
                  format_block_type_fuel fuel bt_name bt_schema wd lvl' ro)
               (fun '(bt_name, bt_schema) =>
                  format_block_type_fuel fuel bt_name bt_schema wd lvl' ro) sb sb');
      [reflexivity | | exact F].
    intros [k v] [k' v'] [Hk Hv]. cbn in Hk, Hv. subst k'. now apply IH. }
  cbn [py_get bind].
  destruct (ro && eq_zero _); [reflexivity|].
  destruct (get_description (JObj s') wd); cbn [bind]; [|reflexivity].
  now rewrite !RM.
Qed.

Lemma reordered_depth_fuel (name : string) (schema schema' : json)
    (wd : bool) (lvl : Z) (ro : bool) :
  reordered schema schema' ->
  _format_block_type name schema wd lvl ro = _format_block_type name schema' wd lvl ro.
Proof.
  intros H. unfold _format_block_type.
  set (F := S (Nat.max (json_depth schema) (json_depth schema'))).
  rewrite (fuel_irrelevant (S (json_depth schema)) F) by (unfold F; lia).
  rewrite (fuel_irrelevant (S (json_depth schema')) F) by (unfold F; lia).
  now apply format_block_type_fuel_reordered.
Qed.

(** [template_lines] with its reads grouped *)
Lemma template_lines_reads (block_type name : string) (block : json)
    (wd ro : bool) (lvl : Z) :
  template_lines block_type name block wd ro lvl =
  (attr_items <- (v <- py_get block "attributes" (JObj []) ;; py_items v) ;;
   la <- extend_each (fun '(attr_name, attr_schema) =>
           _format_attribute attr_name attr_schema wd (lvl + 1) ro)
         (sorted_items attr_items) ;;
   bt_items <- (v <- py_get block "block_types" (JObj []) ;; py_items v) ;;
   lb <- extend_each (fun '(bt_name, bt_schema) =>
           _format_block_type bt_name bt_schema wd (lvl + 1) ro)
         (sorted_items bt_items) ;;
   Ok ([header_line block_type name "example"] ++ la ++ lb
         ++ [py_repeat "}" (lvl + 1)])).
Proof.
  unfold template_lines.
  destruct (py_get block "attributes" (JObj [])) as [va|]; cbn [bind]; [|reflexivity].
  destruct (py_items va); cbn [bind]; [|reflexivity].
  destruct (extend_each _ _); cbn [bind]; [|reflexivity].
  destruct (py_get block "block_types" (JObj [])); reflexivity.
Qed.

Lemma template_lines_reordered (block_type name : string) (b b' : dict)
    (wd ro : bool) (lvl : Z) :
  reordered_block reordered b b' ->
  template_lines block_type name (JObj b) wd ro lvl =
  template_lines block_type name (JObj b') wd ro lvl.
Proof.
  intros [Ha Ht]. rewrite !template_lines_reads.
  destruct (reordered_field_items eq b b' "attributes" Ha)
    as (ma & ma' & -> & -> & Fa).
  destruct (reordered_field_items reordered b b' "block_types" Ht)
    as (mt & mt' & -> & -> & Ft).
  apply same_key_eq in Fa. cbn [bind]. rewrite <- Fa.
  destruct (extend_each _ (sorted_items ma)); cbn [bind]; [|reflexivity].
  rewrite (extend_each_same_key reordered
             (fun '(bt_name, bt_schema) =>
                _format_block_type bt_name bt_schema wd (lvl + 1) ro)
             (fun '(bt_name, bt_schema) =>
                _format_block_type bt_name bt_schema wd (lvl + 1) ro)
             (sorted_items mt) (sorted_items mt'));
    [reflexivity | | exact Ft].
  intros [k v] [k' v'] [Hk Hv]. cbn in Hk, Hv. subst k'.
  now apply reordered_depth_fuel.
Qed.

Lemma render_members_order (self : block_renderer) (sa sb : dict)
    (wd : bool) (lvl : Z) (ro : bool) (body : list string) :
  render_members self sa sb wd lvl ro = Ok body ->
  exists la lb,
    extend_each (fun '(attr_name, attr_schema) =>
                   _format_attribute attr_name attr_schema wd lvl ro) sa = Ok la /\
    extend_each (fun '(bt_name, bt_schema) => self bt_name bt_schema wd lvl ro) sb = Ok lb /\
    body = la ++ lb.
Proof.
  unfold render_members. intros H.
  apply bind_ok in H as (la & Ha & H). apply bind_ok in H as (lb & Hb & H).
  injection H as <-. now exists la, lb.
Qed.

Lemma extend_each_in_order (f : string -> json -> outcome (list string))
    (items : dict) (out : list string) :
  extend_each (fun '(k, v) => f k v) items = Ok out -> rendered_in_order f items out.
Proof.
  revert out. induction items as [|[k v] items IH]; intros out H; cbn [extend_each] in H.
  - injection H as <-. exists []. split; [constructor | reflexivity].
  - apply bind_ok in H as (l & Hl & H). apply bind_ok in H as (r & Hr & H).
    injection H as <-. destruct (IH r Hr) as (chunks & F & ->).
    exists (l :: chunks). split; [constructor; [exact Hl | exact F] | reflexivity].
Qed.

Lemma render_members_in_order (sa sb : dict) (wd : bool) (lvl : Z) (ro : bool)
    (body : list string) :
  render_members _format_block_type sa sb wd lvl ro = Ok body ->
  exists la lb,
    rendered_in_order (fun k v => _format_attribute k v wd lvl ro) sa la /\
    rendered_in_order (fun k v => _format_block_type k v wd lvl ro) sb lb /\
    body = la ++ lb.
Proof.
  unfold render_members. intros H.
  apply bind_ok in H as (la & Ha & H). apply bind_ok in H as (lb & Hb & H).
  injection H as <-. exists la, lb.
  split; [|split; [|reflexivity]].
  - exact (extend_each_in_order (fun k v => _format_attribute k v wd lvl ro) sa la Ha).
  - exact (extend_each_in_order (fun k v => _format_block_type k v wd lvl ro) sb lb Hb).
Qed.

Lemma members_of_get (d : dict) (k : string) (v : json) (m : dict) :
  py_get (JObj d) k (JObj []) = Ok v -> py_items v = Ok m -> members_of d k = Some m.
Proof.
  unfold members_of. cbn [py_get]. intros [= <-].
  destruct (lookup k d) as [[| | | | |x]|]; cbn [py_items]; intros H;
    try discriminate H; now injection H as <-.
Qed.

(** the members [block_members] reads are those of the nested block, sorted *)
Lemma block_members_inv (schema : json) (sa sb : dict) :
  block_members schema = Ok (sa, sb) ->
  exists d b attrs bts,
    schema = JObj d /\ members_of d "block" = Some b /\
    members_of b "attributes" = Some attrs /\
    members_of b "block_types" = Some bts /\
    sa = sorted_items attrs /\ sb = sorted_items bts.
Proof.
  unfold block_members. intros H.
  apply bind_ok in H as (block & Hb & H).
  apply bind_ok in H as (va & Hva & H).
  apply bind_ok in H as (attrs & Ha & H).
  apply bind_ok in H as (vt & Hvt & H).
  apply bind_ok in H as (bts & Ht & H).
  injection H as <- <-.
  destruct schema as [| | | | |d]; try discriminate Hb.
  destruct block as [| | | | |b]; try discriminate Hva.
  exists d, b, attrs, bts.
  split; [reflexivity|].
  split; [exact (members_of_get d "block" (JObj b) b Hb eq_refl)|].
  split; [exact (members_of_get b "attributes" va attrs Hva Ha)|].
  split; [exact (members_of_get b "block_types" vt bts Hvt Ht)|].
  split; reflexivity.
Qed.

Lemma repeat_body_inv (n : nat) (body : outcome (list string)) (r : list string) :
  (0 < n)%nat -> repeat_body n body = Ok r ->
  exists l, body = Ok l /\ r = List.concat (repeat l n).
Proof.
  intros Hn H. destruct n as [|n]; [lia|].
  destruct body as [l|e]; [|discriminate H].
  rewrite repeat_body_ok in H. injection H as <-. now exists l.
Qed.

Lemma range_len_positive (min_items : json) (n : nat) :
  gt_zero min_items = Ok true -> range_len min_items = Ok n -> (0 < n)%nat.
Proof.
  destruct min_items as [|b|z| | |]; cbn [gt_zero range_len]; try discriminate.
  - intros [= ->] [= <-]. lia.
  - intros [= H] [= <-]. apply Z.ltb_lt in H. lia.
Qed.

(** the lines of a block-type, with its members in the order of their names *)
Lemma format_block_type_in_order (name : string) (schema : json) (wd : bool) (lvl : Z)
    (ro : bool) (lines : list string) :
  _format_block_type name schema wd lvl ro = Ok lines ->
  exists min_items,
    py_get schema "min_items" (JInt 0) = Ok min_items /\
    if ro && eq_zero min_items then lines = [] else
    exists nesting max_items description d b attrs bts,
      py_get schema "nesting_mode" (JStr "single") = Ok nesting /\
      py_get schema "max_items" JNull = Ok max_items /\
      get_description schema wd = Ok description /\
      schema = JObj d /\ members_of d "block" = Some b /\
      members_of b "attributes" = Some attrs /\
      members_of b "block_types" = Some bts /\
      block_type_layout name nesting min_items max_items description attrs bts
        wd lvl ro lines.
Proof.
  rewrite format_block_type_unfold. unfold format_block_type_body. intros H.
  apply bind_ok in H as (min_items & Hmin & H).
  exists min_items. split; [exact Hmin|].
  destruct (ro && eq_zero min_items); [now injection H|].
  apply bind_ok in H as (nesting & Hnest & H).
  apply bind_ok in H as (max_items & Hmax & H).
  apply bind_ok in H as (description & Hdesc & H).
  apply bind_ok in H as ([sa sb] & Hmem & H).
  destruct (block_members_inv schema sa sb Hmem)
    as (d & b & attrs & bts & Ed & Hb & Ha & Ht & -> & ->).
  exists nesting, max_items, description, d, b, attrs, bts.
  repeat (split; [assumption|]).
  unfold block_type_layout.
  destruct (eq_str nesting "single").
  { apply bind_ok in H as (body & Hbody & H). injection H as <-.
    exists body. split; [|reflexivity].
    exact (render_members_in_order _ _ _ _ _ _ Hbody). }
  destruct (eq_str nesting "list" || eq_str nesting "set").
  { apply bind_ok in H as (positive & Hpos & H). destruct positive.
    - apply bind_ok in H as (n & Hn & H). apply bind_ok in H as (instances & Hi & H).
      injection H as <-.
      pose proof (range_len_positive min_items n Hpos Hn) as Hn0.
      destruct (repeat_body_inv n _ instances Hn0 Hi) as (l & Hl & ->).
      apply bind_ok in Hl as (body & Hbody & Hl). injection Hl as <-.
      left. exists body, n.
      repeat (split; [assumption|]). split; [|reflexivity].
      exact (render_members_in_order _ _ _ _ _ _ Hbody).
    - injection H as <-. right. split; [exact Hpos | reflexivity]. }
  destruct (eq_str nesting "map").
  { apply bind_ok in H as (body & Hbody & H). injection H as <-.
    exists body. split; [|reflexivity].
    exact (render_members_in_order _ _ _ _ _ _ Hbody). }
  now injection H.
Qed.

(** the lines of a template, with the members of the root block in the
    order of their names *)
Lemma template_lines_in_order (block_type name : string) (block : json)
    (wd ro : bool) (lvl : Z) (lines : list string) :
  template_lines block_type name block wd ro lvl = Ok lines ->
  exists b attrs bts body,
    block = JObj b /\
    members_of b "attributes" = Some attrs /\
    members_of b "block_types" = Some bts /\
    members_in_name_order attrs bts wd (lvl + 1) ro body /\
    lines = header_line block_type name "example" :: body ++ [py_repeat "}" (lvl + 1)].
Proof.
  unfold template_lines. intros H.
  apply bind_ok in H as (va & Hva & H).
  destruct block as [| | | | |b]; try discriminate Hva.
  apply bind_ok in H as (attrs & Ha & H).
  apply bind_ok in H as (la & Hla & H).
  apply bind_ok in H as (vt & Hvt & H).
  apply bind_ok in H as (bts & Ht & H).
  apply bind_ok in H as (lb & Hlb & H).
  injection H as <-.
  exists b, attrs, bts, (la ++ lb).
  split; [reflexivity|].
  split; [exact (members_of_get b "attributes" va attrs Hva Ha)|].
  split; [exact (members_of_get b "block_types" vt bts Hvt Ht)|].
  split.
  - exists la, lb. split; [|split; [|reflexivity]].
    + exact (extend_each_in_order (fun k v => _format_attribute k v wd (lvl + 1) ro) _ la Hla).
    + exact (extend_each_in_order (fun k v => _format_block_type k v wd (lvl + 1) ro) _ lb Hlb).
  - cbn [app]. now rewrite app_assoc.
Qed.

(** C8.  At every depth the members are rendered attributes first, then
    block-types, each group in strictly ascending order of the names,
    whatever the order in the source: [sorted_items] returns the strictly
    ascending arrangement of a dict and gives the same list for every
    insertion order; the lines of a template are the header, the renderings
    of the attributes of the root block one after the other in that order,
    then those of its block-types in that order, and the closing line; the
    lines of a block-type that is shown are its leading comments and,
    inside each instance its nesting mode opens, the renderings of the
    attributes of its nested block in that order followed by those of its
    block-types, each of them rendered by the same function; and two schema
    trees that differ only in the order in which blocks list their
    attributes and block-types, at any depth, render identically. *)
Theorem members_rendered_in_name_order :
  (forall d : dict, NoDup (keys d) ->
     StronglySorted name_lt (sorted_items d) /\ Permutation d (sorted_items d)) /\
  (forall d d' : dict, NoDup (keys d) -> Permutation d d' ->
     sorted_items d = sorted_items d') /\
  (forall d b attrs bts : dict,
     members_of d "block" = Some b ->
     members_of b "attributes" = Some attrs ->
     members_of b "block_types" = Some bts ->
     block_members (JObj d) = Ok (sorted_items attrs, sorted_items bts)) /\
  (forall (self : block_renderer) sa sb wd lvl ro body,
     render_members self sa sb wd lvl ro = Ok body ->
     exists la lb,
       extend_each (fun '(attr_name, attr_schema) =>
                      _format_attribute attr_name attr_schema wd lvl ro) sa = Ok la /\
       extend_each (fun '(bt_name, bt_schema) =>
                      self bt_name bt_schema wd lvl ro) sb = Ok lb /\
       body = la ++ lb) /\
  (forall name schema schema' wd lvl ro,
     reordered schema schema' ->
     _format_block_type name schema wd lvl ro
     = _format_block_type name schema' wd lvl ro) /\
  (forall block_type name b b' wd ro lvl,
     reordered_block reordered b b' ->
     template_lines block_type name (JObj b) wd ro lvl
     = template_lines block_type name (JObj b') wd ro lvl) /\
  (forall block_type name block wd ro lvl lines,
     template_lines block_type name block wd ro lvl = Ok lines ->
     exists b attrs bts body,
       block = JObj b /\
       members_of b "attributes" = Some attrs /\
       members_of b "block_types" = Some bts /\
       members_in_name_order attrs bts wd (lvl + 1) ro body /\
       lines = header_line block_type name "example" :: body ++ [py_repeat "}" (lvl + 1)]) /\
  (forall name schema wd lvl ro lines,
     _format_block_type name schema wd lvl ro = Ok lines ->
     exists min_items,
       py_get schema "min_items" (JInt 0) = Ok min_items /\
       if ro && eq_zero min_items then lines = [] else
       exists nesting max_items description d b attrs bts,
         py_get schema "nesting_mode" (JStr "single") = Ok nesting /\
         py_get schema "max_items" JNull = Ok max_items /\
         get_description schema wd = Ok description /\
         schema = JObj d /\ members_of d "block" = Some b /\
         members_of b "attributes" = Some attrs /\
         members_of b "block_types" = Some bts /\
         block_type_layout name nesting min_items max_items description attrs bts
           wd lvl ro lines).
Proof.
  split; [|split; [|split; [|split; [|split; [|split; [|split]]]]]].
  - intros d ND. split; [now apply sorted_items_strict | apply sorted_items_perm].
  - exact sorted_items_perm_invariant.
  - exact block_members_total.
  - exact render_members_order.
  - intros. now apply reordered_depth_fuel.
  - intros. now apply template_lines_reordered.
  - exact template_lines_in_order.
  - exact format_block_type_in_order.
Qed.

Lemma endpoint_reordered :
  reordered (endpoint_block_type [("port", port_attribute); ("host", host_attribute)])
            (endpoint_block_type [("host", host_attribute); ("port", port_attribute)]).
Proof.
  constructor.
  - intros k Hk. cbn [lookup].
    destruct (String.eqb_spec k "nesting_mode"); [reflexivity|].
    destruct (String.eqb_spec k "block"); [contradiction | reflexivity].
  - right. do 2 eexists. split; [reflexivity|]. split; [reflexivity|].
    split; [|left; split; reflexivity].
    right. do 2 eexists. split; [reflexivity|]. split; [reflexivity|].
    split.
    + repeat constructor; cbn; intuition discriminate.
    + eexists. split; [apply perm_swap|].
      repeat constructor.
Defined.

Lemma members_rendered_in_name_order_witness :
  (NoDup (keys [("port", port_attribute); ("host", host_attribute)]) /\
   sorted_items [("port", port_attribute); ("host", host_attribute)]
   = sorted_items [("host", host_attribute); ("port", port_attribute)]) /\
  _format_block_type "endpoint"
    (endpoint_block_type [("port", port_attribute); ("host", host_attribute)]) true 0 false
  = _format_block_type "endpoint"
      (endpoint_block_type [("host", host_attribute); ("port", port_attribute)]) true 0 false /\
  _format_block_type "endpoint"
    (endpoint_block_type [("port", port_attribute); ("host", host_attribute)]) true 0 false
  = Ok ["# # nesting: single, min: 0"; "endpoint {";
        "  host = " +++ DQ +++ DQ +++ "  # optional, type: string";
        "  port = 0  # required, type: number"; "}"] /\
  block_type_layout "endpoint" (JStr "single") (JInt 0) JNull None
    [("port", port_attribute); ("host", host_attribute)] [] true 0 false
    ["# # nesting: single, min: 0"; "endpoint {";
     "  host = " +++ DQ +++ DQ +++ "  # optional, type: string";
     "  port = 0  # required, type: number"; "}"].
Proof.
  assert (ND : NoDup (keys [("port", port_attribute); ("host", host_attribute)]))
    by (repeat constructor; cbn; intuition discriminate).
  pose proof members_rendered_in_name_order as (_ & H2 & _ & _ & H5 & _ & _ & H8).
  split; [split; [exact ND|]|split; [|split]].
  - apply H2; [exact ND | apply perm_swap].
  - apply H5. exact endpoint_reordered.
  - reflexivity.
  - destruct (H8 "endpoint"
                (endpoint_block_type [("port", port_attribute); ("host", host_attribute)])
                true 0 false
                ["# # nesting: single, min: 0"; "endpoint {";
                 "  host = " +++ DQ +++ DQ +++ "  # optional, type: string";
                 "  port = 0  # required, type: number"; "}"] eq_refl)
      as (min_items & Hmin & H).
    injection Hmin as <-. cbn [andb] in H.
    destruct H as (nesting & max_items & description & d & b & attrs & bts
                   & Hn & Hm & Hd & Ed & Hb & Ha & Ht & L).
    injection Hn as <-. injection Hm as <-. injection Hd as <-. injection Ed as <-.
    injection Hb as <-. injection Ha as <-. injection Ht as <-.
    exact L.
Defined.

(** ** The template assembler: a name of both categories *)

(** C9.  A name present in both categories is rendered as a resource:
    [get_schema_block] returns the block of the resource entry, the result
    does not depend on the data-source category at all, and a rendered
    template opens with the [resource] header, not with [data].  The
    template is the one of the block of the resource entry under the keyword
    [resource]: the header, the members of that block, attributes first and
    each group in the order of the names, and the closing line; and it is
    produced as soon as that block is of the shape of section 3. *)
Theorem resource_category_wins (p : parser) (name : string) (wd ro : bool) (lvl : Z) :
  mem name (resources p) = true ->
  mem name (data_sources p) = true ->
  get_schema_block p name
    = (entry <- getitem (resources p) name ;; py_get entry "block" (JObj [])) /\
  (forall other : dict,
     generate_hcl_template {| resources := resources p; data_sources := other |}
       name wd ro lvl
     = generate_hcl_template p name wd ro lvl) /\
  (forall out, generate_hcl_template p name wd ro lvl = Ok out ->
     startswith out (header_line "resource" name "example") = true /\
     startswith out "data" = false) /\
  (forall entry block,
     lookup name (resources p) = Some entry ->
     py_get entry "block" (JObj []) = Ok block ->
     truthy block = true ->
     generate_hcl_template p name wd ro lvl
       = (lines <- template_lines "resource" name block wd ro lvl ;; Ok (join NL lines)) /\
     (forall out, generate_hcl_template p name wd ro lvl = Ok out ->
        exists b attrs bts body,
          block = JObj b /\
          members_of b "attributes" = Some attrs /\
          members_of b "block_types" = Some bts /\
          members_in_name_order attrs bts wd (lvl + 1) ro body /\
          out = join NL (header_line "resource" name "example"
                         :: body ++ [py_repeat "}" (lvl + 1)])) /\
     (wf_block block ->
      exists out,
        generate_hcl_template p name wd ro lvl = Ok out /\
        startswith out (header_line "resource" name "example") = true /\
        startswith out "data" = false)).
Proof.
  intros Hr _.
  assert (H3 : forall out, generate_hcl_template p name wd ro lvl = Ok out ->
                 startswith out (header_line "resource" name "example") = true /\
                 startswith out "data" = false).
  { intros out H. unfold generate_hcl_template in H.
    apply bind_ok in H as (block & _ & H).
    destruct (negb (truthy block)); [discriminate|].
    rewrite Hr in H.
    apply bind_ok in H as (lines & Hl & H). injection H as <-.
    apply template_lines_head in Hl as (rest & ->).
    destruct (join_cons_prefix NL (header_line "resource" name "example") rest)
      as (tail & ->).
    split; [apply startswith_append | reflexivity]. }
  split; [|split; [|split]].
  - unfold get_schema_block. now rewrite Hr.
  - intros other. unfold generate_hcl_template, get_schema_block. simpl.
    now rewrite Hr.
  - exact H3.
  - intros entry block He Hb Ht.
    assert (E : generate_hcl_template p name wd ro lvl
                = (lines <- template_lines "resource" name block wd ro lvl ;;
                   Ok (join NL lines))).
    { unfold generate_hcl_template, get_schema_block, getitem.
      rewrite Hr, He. cbn [bind]. rewrite Hb. cbn [bind]. rewrite Ht. reflexivity. }
    split; [exact E|]. split.
    { intros out H. rewrite E in H.
      apply bind_ok in H as (lines & Hl & H). injection H as <-.
      apply template_lines_in_order in Hl as (b & attrs & bts & body & -> & Ha & Hbt & Hm & ->).
      now exists b, attrs, bts, body. }
    intros Hw.
    destruct (template_lines_total "resource" name block wd ro lvl Hw) as (lines & Hl).
    exists (join NL lines).
    assert (G : generate_hcl_template p name wd ro lvl = Ok (join NL lines))
      by (rewrite E, Hl; reflexivity).
    split; [exact G | exact (H3 _ G)].
Qed.

Lemma resource_category_wins_witness :
  mem "azurerm_thing" (resources both_categories) = true /\
  mem "azurerm_thing" (data_sources both_categories) = true /\
  generate_hcl_template both_categories "azurerm_thing" true false 0
    = Ok (join NL [header_line "resource" "azurerm_thing" "example";
                   "  size = 0  # required, type: number";
                   "}"]) /\
  startswith (join NL [header_line "resource" "azurerm_thing" "example";
                       "  size = 0  # required, type: number";
                       "}"])
             (header_line "resource" "azurerm_thing" "example") = true /\
  startswith (join NL [header_line "resource" "azurerm_thing" "example";
                       "  size = 0  # required, type: number";
                       "}"]) "data" = false.
Proof.
  split; [reflexivity|]. split; [reflexivity|].
  pose proof (resource_category_wins both_categories "azurerm_thing" true false 0
                eq_refl eq_refl) as (_ & _ & H3 & H4).
  assert (E : generate_hcl_template both_categories "azurerm_thing" true false 0
              = Ok (join NL [header_line "resource" "azurerm_thing" "example";
                             "  size = 0  # required, type: number";
                             "}"])).
  { rewrite (proj1 (H4 _ _ eq_refl eq_refl eq_refl)). reflexivity. }
  split; [exact E | exact (H3 _ E)].
Defined.

(** * Properties of the catalogue *)

(** ** The listing of the names *)

Lemma mem_in_keys (k : string) (d : dict) : mem k d = true <-> In k (keys d).
Proof.
  unfold mem. induction d as [|[k' v] d IH]; cbn [lookup keys map fst].
  - split; [discriminate | intros []].
  - destruct (String.eqb_spec k k') as [->|Hne].
    + split; [now left | reflexivity].
    + rewrite IH. split; [now right | intros [E|H]; [now elim Hne | exact H]].
Qed.

Lemma insert_name_keys (x : string * json) (l : dict) :
  insert_name (fst x) (keys l) = keys (insert_item x l).
Proof.
  induction l as [|y l IH]; cbn [insert_name insert_item keys map]; [reflexivity|].
  destruct (String.leb (fst x) (fst y)); cbn [map]; [reflexivity|].
  f_equal. exact IH.
Qed.

(** the names are listed in the order in which the members are rendered *)
Lemma sorted_names_keys (d : dict) : sorted_names (keys d) = keys (sorted_items d).
Proof.
  induction d as [|x d IH]; cbn [sorted_names sorted_items keys map]; [reflexivity|].
  fold (keys d). rewrite IH. apply insert_name_keys.
Qed.

Lemma sorted_names_perm (d : dict) : Permutation (keys d) (sorted_names (keys d)).
Proof.
  rewrite sorted_names_keys. unfold keys. apply Permutation_map, sorted_items_perm.
Qed.

Lemma sorted_names_strict (d : dict) :
  NoDup (keys d) ->
  StronglySorted (fun a b => String.ltb a b = true) (sorted_names (keys d)).
Proof.
  intros ND. rewrite sorted_names_keys.
  pose proof (sorted_items_strict d ND) as S.
  induction S as [|x l S IH A]; cbn [keys map]; constructor.
  - exact IH.
  - unfold keys. rewrite Forall_map. exact A.
Qed.

Lemma sorted_names_in (name : string) (d : dict) :
  In name (sorted_names (keys d)) <-> mem name d = true.
Proof.
  rewrite mem_in_keys.
  split; apply Permutation_in;
    [apply Permutation_sym|]; apply sorted_names_perm.
Qed.



(** X1.  Without the data sources [get_all_names] lists every resource name
    once, in strictly ascending order; with them it lists the same names
    first, followed by the data-source names, again each once and in
    strictly ascending order.  A dict holds a key once. *)
Theorem get_all_names_ascending (p : parser) :
  NoDup (keys (resources p)) -> NoDup (keys (data_sources p)) ->
  let ascending := StronglySorted (fun a b => String.ltb a b = true) in
  ascending (get_all_names p false) /\
  (forall name, In name (get_all_names p false) <-> mem name (resources p) = true) /\
  exists data_names,
    get_all_names p true = get_all_names p false ++ data_names /\
    ascending data_names /\
    (forall name, In name data_names <-> mem name (data_sources p) = true).
Proof.
  intros NDr NDd ascending. unfold get_all_names.
  split; [now apply sorted_names_strict|].
  split; [intros name; apply sorted_names_in|].
  exists (sorted_names (keys (data_sources p))).
  split; [reflexivity|].
  split; [now apply sorted_names_strict | intros name; apply sorted_names_in].
Qed.

Lemma catalogue_keys_nodup :
  NoDup (keys (resources catalogue)) /\ NoDup (keys (data_sources catalogue)).
Proof. split; repeat constructor; cbn; intuition discriminate. Defined.

Lemma get_all_names_ascending_witness :
  get_all_names catalogue false = ["azurerm_subnet"; "azurerm_virtual_network"] /\
  StronglySorted (fun a b => String.ltb a b = true) (get_all_names catalogue false) /\
  (In "azurerm_subnet" (get_all_names catalogue false) <->
   mem "azurerm_subnet" (resources catalogue) = true).
Proof.
  split; [reflexivity|].
  pose proof (get_all_names_ascending catalogue
                (proj1 catalogue_keys_nodup) (proj2 catalogue_keys_nodup)) as (S & I & _).
  split; [exact S | exact (I "azurerm_subnet")].
Defined.



(** ** The search by a part of the name *)

Lemma length_append (a b : string) :
  String.length (a +++ b) = (String.length a + String.length b)%nat.
Proof. induction a as [|c a IH]; cbn; [reflexivity | now rewrite IH]. Qed.

Lemma substring_here (n : nat) (x b : string) :
  String.length x = n -> substring 0 n (x +++ b) = x.
Proof.
  revert n. induction x as [|c x IH]; intros n <-; cbn.
  - now destruct b.
  - now rewrite IH.
Qed.

Lemma substring_skip (a s : string) (n : nat) :
  substring (String.length a) n (a +++ s) = substring 0 n s.
Proof. induction a as [|c a IH]; cbn; [reflexivity | exact IH]. Qed.

Lemma substring_head_split (s : string) (n : nat) (x : string) :
  substring 0 n s = x -> String.length x = n -> exists b, s = x +++ b.
Proof.
  revert n x. induction s as [|c s IH]; intros n x H L.
  - destruct n; cbn in H; subst x; exists EmptyString; reflexivity.
  - destruct n; cbn in H; subst x.
    + eexists; reflexivity.
    + cbn in L. injection L as L.
      destruct (IH n _ eq_refl L) as (b & E).
      exists b. cbn. now rewrite <- E.
Qed.

(** the part of [s] read at an offset splits [s] around it *)
Lemma substring_split (s : string) (m n : nat) (x : string) :
  substring m n s = x -> String.length x = n -> exists a b, s = a +++ x +++ b.
Proof.
  revert s. induction m as [|m IH]; intros s H L.
  - destruct (substring_head_split s n x H L) as (b & ->).
    exists EmptyString, b. reflexivity.
  - destruct s as [|c s].
    + cbn in H. subst x. exists EmptyString, EmptyString. reflexivity.
    + cbn in H. destruct (IH s H L) as (a & b & ->).
      exists (String c a), b. reflexivity.
Qed.

(** [p in s] holds exactly when [s] is [p] with something around it *)
Lemma contains_iff (s p : string) :
  contains s p = true <-> exists a b, s = a +++ p +++ b.
Proof.
  unfold contains. split.
  - destruct (index 0 p s) as [m|] eqn:E; [intros _|discriminate].
    apply index_correct1 in E. now apply (substring_split s m _ p E).
  - intros (a & b & ->).
    destruct (index 0 p (a +++ p +++ b)) as [m|] eqn:E; [reflexivity|].
    destruct p as [|c p].
    + apply index_correct4 in E. lia.
    + exfalso.
      apply (index_correct3 0 (String.length a) _ _ E); [discriminate | lia |].
      rewrite substring_skip. now apply substring_here.
Qed.

Lemma contains_empty (s : string) : contains s EmptyString = true.
Proof. apply contains_iff. exists EmptyString, s. reflexivity. Qed.

Lemma contains_refl (s : string) : contains s s = true.
Proof.
  apply contains_iff. exists EmptyString, EmptyString.
  cbn. now rewrite append_empty_r.
Qed.

Lemma contains_part (s q1 q2 : string) :
  contains s (q1 +++ q2) = true -> contains s q1 = true /\ contains s q2 = true.
Proof.
  intros H. apply contains_iff in H as (a & b & ->).
  split; apply contains_iff.
  - exists a, (q2 +++ b). now rewrite append_assoc.
  - exists (a +++ q1), b. now rewrite !append_assoc.
Qed.

Lemma lower_char_idempotent (c : ascii) : lower_char (lower_char c) = lower_char c.
Proof. destruct c as [[] [] [] [] [] [] [] []]; reflexivity. Qed.

Lemma lower_idempotent (s : string) : lower (lower s) = lower s.
Proof.
  induction s as [|c s IH]; cbn [lower]; [reflexivity|].
  now rewrite lower_char_idempotent, IH.
Qed.

Lemma filter_names_in (p : parser) (query name : string) (include_data : bool) :
  In name (filter_names p query include_data) <->
  In name (get_all_names p include_data) /\ contains (lower name) (lower query) = true.
Proof. unfold filter_names. cbv zeta. now rewrite filter_In. Qed.

(** X3.  The empty query matches every name: [filter_names] then returns
    the whole listing of [get_all_names], in its order. *)
Theorem filter_names_empty_query (p : parser) (include_data : bool) :
  filter_names p EmptyString include_data = get_all_names p include_data.
Proof.
  unfold filter_names. cbn [lower].
  apply forallb_filter_id, forallb_forall. intros name _. apply contains_empty.
Qed.

(** X4.  The search ignores the letter case on both sides: a query gives
    the result of its lower-case form, and a listed name is found by any
    query that differs from it, or from a part of it, by letter case only. *)
Theorem filter_names_ignores_case (p : parser) (query : string) (include_data : bool) :
  filter_names p (lower query) include_data = filter_names p query include_data /\
  (forall name before after,
     In name (get_all_names p include_data) ->
     lower name = before +++ lower query +++ after ->
     In name (filter_names p query include_data)).
Proof.
  split.
  - unfold filter_names. now rewrite lower_idempotent.
  - intros name before after Hin E. apply filter_names_in. split; [exact Hin|].
    apply contains_iff. now exists before, after.
Qed.

Lemma filter_names_ignores_case_witness :
  In "azurerm_subnet" (get_all_names catalogue false) /\
  In "azurerm_subnet" (filter_names catalogue "SubNet" false).
Proof.
  assert (H : In "azurerm_subnet" (get_all_names catalogue false)) by (now left).
  split; [exact H|].
  exact (proj2 (filter_names_ignores_case catalogue "SubNet" false)
           "azurerm_subnet" "azurerm_" EmptyString H eq_refl).
Defined.

(** X5.  Typing more never adds matches, as long as lower-casing the
    longer query gives the lower-cased parts side by side, which is always
    so for code points below 256: every name found by the query is then
    found by each of its two parts, and the result is what the longer query
    finds among the matches of its first part, in the order of the
    listing. *)
Theorem filter_names_narrows (p : parser) (q1 q2 : string) (include_data : bool) :
  lower (q1 +++ q2) = lower q1 +++ lower q2 ->
  incl (filter_names p (q1 +++ q2) include_data) (filter_names p q1 include_data) /\
  incl (filter_names p (q1 +++ q2) include_data) (filter_names p q2 include_data) /\
  filter_names p (q1 +++ q2) include_data
    = filter (fun name => contains (lower name) (lower (q1 +++ q2)))
        (filter_names p q1 include_data).
Proof.
  intros Hlower.
  assert (P : forall name, contains (lower name) (lower (q1 +++ q2)) = true ->
              contains (lower name) (lower q1) = true /\
              contains (lower name) (lower q2) = true).
  { intros name. rewrite Hlower. apply contains_part. }
  split; [|split].
  - intros name H. apply filter_names_in in H as [Hin Hc].
    apply filter_names_in. split; [exact Hin | now apply P].
  - intros name H. apply filter_names_in in H as [Hin Hc].
    apply filter_names_in. split; [exact Hin | now apply P].
  - unfold filter_names.
    induction (get_all_names p include_data) as [|name l IH]; cbn [filter]; [reflexivity|].
    destruct (contains (lower name) (lower (q1 +++ q2))) eqn:E.
    + destruct (P name E) as [-> _]. cbn [filter]. rewrite E. now f_equal.
    + destruct (contains (lower name) (lower q1)); cbn [filter]; [rewrite E|]; exact IH.
Qed.

Lemma filter_names_narrows_witness :
  lower ("Sub" +++ "NET") = lower "Sub" +++ lower "NET" /\
  filter_names catalogue ("Sub" +++ "NET") true = ["azurerm_subnet"; "azurerm_subnet"] /\
  filter_names catalogue "Sub" true = ["azurerm_subnet"; "azurerm_subnet"] /\
  filter_names catalogue ("Sub" +++ "NET") true
    = filter (fun name => contains (lower name) (lower ("Sub" +++ "NET")))
        (filter_names catalogue "Sub" true).
Proof.
  split; [reflexivity|]. split; [reflexivity|]. split; [reflexivity|].
  exact (proj2 (proj2 (filter_names_narrows catalogue "Sub" "NET" true eq_refl))).
Defined.

(** ** Loading the schema document *)

Lemma load_schema_document (doc : dict) :
  _load_schema (JObj doc)
  = (provider_schema <- py_get (get_or_empty doc "provider_schemas") provider_key JNull ;;
     if negb (truthy provider_schema) then Raise no_provider else
     resources <- py_get provider_schema "resource_schemas" (JObj []) ;;
     data_sources <- py_get provider_schema "data_source_schemas" (JObj []) ;;
     if negb (truthy resources) && negb (truthy data_sources) then Raise no_entries
     else Ok (resources, data_sources)).
Proof. reflexivity. Qed.

Lemma load_schema_keeps_a_category_aux (schema_data resources data_sources : json) :
  _load_schema schema_data = Ok (resources, data_sources) ->
  truthy resources || truthy data_sources = true.
Proof.
  unfold _load_schema. intros H.
  apply bind_ok in H as (schemas & _ & H).
  apply bind_ok in H as (prov & _ & H).
  destruct (negb (truthy prov)); [discriminate H|].
  apply bind_ok in H as (r & _ & H).
  apply bind_ok in H as (d & _ & H).
  destruct (negb (truthy r) && negb (truthy d)) eqn:Et; [discriminate H|].
  assert (r = resources) as <- by congruence.
  assert (d = data_sources) as <- by congruence.
  apply andb_false_iff in Et as [Et|Et]; apply negb_false_iff in Et;
    rewrite Et; [reflexivity | apply orb_true_r].
Qed.

(** X7.  A schema document that [_load_schema] accepts is an object whose
    [provider_schemas] object holds a non-empty object for the provider;
    the two categories are read off that object, an absent one being the
    empty mapping, and they are never both empty. *)
Theorem load_schema_keeps_a_category (schema_data resources data_sources : json) :
  _load_schema schema_data = Ok (resources, data_sources) ->
  truthy resources || truthy data_sources = true /\
  exists doc schemas provider_schema,
    schema_data = JObj doc /\
    lookup "provider_schemas" doc = Some (JObj schemas) /\
    lookup provider_key schemas = Some (JObj provider_schema) /\
    provider_schema <> [] /\
    resources = get_or_empty provider_schema "resource_schemas" /\
    data_sources = get_or_empty provider_schema "data_source_schemas".
Proof.
  intros H.
  destruct schema_data as [| | | | |doc]; try discriminate H.
  rewrite load_schema_document in H. unfold get_or_empty in H.
  destruct (lookup "provider_schemas" doc) as [[| | | | |schemas]|] eqn:Es;
    try discriminate H.
  cbn [py_get bind] in H.
  destruct (lookup provider_key schemas) as [[| | | | |prov]|] eqn:Ep;
    cbn [truthy negb] in H; try discriminate H;
    try (destruct (negb _) in H; discriminate H).
  destruct prov as [|kv prov]; [discriminate H|].
  cbn [negb py_get bind] in H.
  fold (get_or_empty (kv :: prov) "resource_schemas") in H.
  fold (get_or_empty (kv :: prov) "data_source_schemas") in H.
  remember (get_or_empty (kv :: prov) "resource_schemas") as r eqn:Er.
  remember (get_or_empty (kv :: prov) "data_source_schemas") as d eqn:Ed.
  destruct (negb (truthy r) && negb (truthy d)) eqn:Et; [discriminate H|].
  assert (Hr : r = resources) by congruence.
  assert (Hd : d = data_sources) by congruence.
  subst resources data_sources.
  split.
  - apply andb_false_iff in Et as [Et|Et]; apply negb_false_iff in Et;
      rewrite Et; [reflexivity | apply orb_true_r].
  - exists doc, schemas, (kv :: prov). repeat split; try assumption. discriminate.
Qed.

Lemma load_schema_keeps_a_category_witness :
  _load_schema catalogue_document
    = Ok (JObj catalogue_resources, JObj catalogue_data_sources) /\
  truthy (JObj catalogue_resources) || truthy (JObj catalogue_data_sources) = true.
Proof.
  split; [reflexivity|].
  exact (proj1 (load_schema_keeps_a_category catalogue_document
                  (JObj catalogue_resources) (JObj catalogue_data_sources) eq_refl)).
Defined.

Lemma py_get_raise (obj : json) (k : string) (dflt : json) (e : pyerr) :
  py_get obj k dflt = Raise e -> e = AttributeError.
Proof. destruct obj; cbn [py_get]; intros H; try discriminate H; now injection H. Qed.

(** X8.  [_load_schema] raises nothing but its two ValueErrors and the
    AttributeError of a value that is not an object where one is read; a
    missing key is never an error of its own.  A document without
    [provider_schemas], or without the entry of the provider in it, or with
    an empty entry, is refused as having no schema for the provider; a
    provider entry whose two categories are absent or empty is refused as
    having no resources or data sources. *)
Theorem load_schema_errors :
  (forall schema_data e, _load_schema schema_data = Raise e ->
     e = no_provider \/ e = no_entries \/ e = AttributeError) /\
  (forall doc, lookup "provider_schemas" doc = None ->
     _load_schema (JObj doc) = Raise no_provider) /\
  (forall doc schemas,
     lookup "provider_schemas" doc = Some (JObj schemas) ->
     lookup provider_key schemas = None \/ lookup provider_key schemas = Some (JObj []) ->
     _load_schema (JObj doc) = Raise no_provider) /\
  (forall doc schemas provider_schema,
     lookup "provider_schemas" doc = Some (JObj schemas) ->
     lookup provider_key schemas = Some (JObj provider_schema) ->
     provider_schema <> [] ->
     get_or_empty provider_schema "resource_schemas" = JObj [] ->
     get_or_empty provider_schema "data_source_schemas" = JObj [] ->
     _load_schema (JObj doc) = Raise no_entries).
Proof.
  split; [|split; [|split]].
  - intros schema_data e H. unfold _load_schema in H.
    destruct (py_get schema_data "provider_schemas" (JObj [])) as [schemas|e1] eqn:E1;
      cbn [bind] in H.
    2:{ injection H as <-. apply py_get_raise in E1. auto. }
    destruct (py_get schemas provider_key JNull) as [prov|e2] eqn:E2; cbn [bind] in H.
    2:{ injection H as <-. apply py_get_raise in E2. auto. }
    destruct (negb (truthy prov)); [injection H as <-; now left|].
    destruct (py_get prov "resource_schemas" (JObj [])) as [r|e3] eqn:E3; cbn [bind] in H.
    2:{ injection H as <-. apply py_get_raise in E3. auto. }
    destruct (py_get prov "data_source_schemas" (JObj [])) as [d|e4] eqn:E4;
      cbn [bind] in H.
    2:{ injection H as <-. apply py_get_raise in E4. auto. }
    destruct (negb (truthy r) && negb (truthy d)); [|discriminate H].
    injection H as <-. right. now left.
  - intros doc Hs. rewrite load_schema_document. unfold get_or_empty. now rewrite Hs.
  - intros doc schemas Hs Hp. rewrite load_schema_document. unfold get_or_empty.
    rewrite Hs. cbn [py_get bind]. destruct Hp as [-> | ->]; reflexivity.
  - intros doc schemas prov Hs Hp Hne Hr Hd.
    assert (Ht : truthy (JObj prov) = true) by (destruct prov; [now elim Hne | reflexivity]).
    rewrite load_schema_document. unfold get_or_empty at 1.
    rewrite Hs. cbn [py_get bind]. rewrite Hp, Ht. cbn [negb py_get bind].
    unfold get_or_empty in Hr, Hd. rewrite Hr, Hd. reflexivity.
Qed.

Lemma load_schema_errors_witness :
  _load_schema (JObj [("format_version", JStr "1.0")]) = Raise no_provider /\
  _load_schema (JObj [("provider_schemas", JObj [("registry.terraform.io/hashicorp/aws",
                                                   JObj [("resource_schemas", JObj [])])])])
    = Raise no_provider /\
  _load_schema (JObj [("provider_schemas",
                       JObj [(provider_key, JObj [("provider", JObj [("version", JInt 0)])])])])
    = Raise no_entries.
Proof.
  destruct load_schema_errors as (_ & H1 & H2 & H3).
  split; [|split].
  - apply H1. reflexivity.
  - eapply H2; [reflexivity | left; reflexivity].
  - eapply H3; [reflexivity | reflexivity | discriminate | reflexivity | reflexivity].
Defined.

(** ** From the listing to a template *)

Lemma mem_lookup (k : string) (d : dict) :
  mem k d = true -> exists v, lookup k d = Some v.
Proof. unfold mem. destruct (lookup k d) as [v|]; [now exists v | discriminate]. Qed.

Lemma get_all_names_in (p : parser) (name : string) (include_data : bool) :
  In name (get_all_names p include_data) ->
  mem name (resources p) = true \/
  (include_data = true /\ mem name (data_sources p) = true).
Proof.
  unfold get_all_names. destruct include_data.
  - rewrite in_app_iff, !sorted_names_in. intros [H|H]; [now left | now right].
  - rewrite sorted_names_in. now left.
Qed.

(** the block [get_schema_block] finds for a name held by a category *)
Lemma get_schema_block_entry (p : parser) (name : string) :
  wf_category (resources p) -> wf_category (data_sources p) ->
  mem name (resources p) || mem name (data_sources p) = true ->
  exists block,
    get_schema_block p name = Ok block /\ truthy block = true /\ wf_block block.
Proof.
  intros Wr Wd Hm. unfold get_schema_block.
  destruct (mem name (resources p)) eqn:Er.
  - destruct (mem_lookup _ _ Er) as (v & Hv).
    destruct (Wr name v (lookup_in _ _ _ Hv)) as (e & block & -> & Hb & Ht & Hw).
    unfold getitem. rewrite Hv. cbn [bind py_get]. rewrite Hb. now exists block.
  - cbn [orb] in Hm. rewrite Hm.
    destruct (mem_lookup _ _ Hm) as (v & Hv).
    destruct (Wd name v (lookup_in _ _ _ Hv)) as (e & block & -> & Hb & Ht & Hw).
    unfold getitem. rewrite Hv. cbn [bind py_get]. rewrite Hb. now exists block.
Qed.

(** X6.  Every name the search returns can be rendered: when the entries
    of both categories own a non-empty root block of the shape of section 3,
    [generate_hcl_template] succeeds on each name of [filter_names], under
    every flag, and the template opens with the header of the category that
    resolves the name; without the data sources every match is a resource. *)
Theorem listed_name_renders (p : parser) (query name : string)
    (include_data wd ro : bool) (lvl : Z) :
  wf_category (resources p) -> wf_category (data_sources p) ->
  In name (filter_names p query include_data) ->
  (include_data = false -> mem name (resources p) = true) /\
  exists out,
    generate_hcl_template p name wd ro lvl = Ok out /\
    startswith out (header_line (category_keyword p name) name "example") = true.
Proof.
  intros Wr Wd Hin.
  apply filter_names_in in Hin as [Hin _].
  apply get_all_names_in in Hin.
  split.
  - intros ->. destruct Hin as [H|[H _]]; [exact H | discriminate H].
  - assert (Hm : mem name (resources p) || mem name (data_sources p) = true).
    { destruct Hin as [->|[_ ->]]; [reflexivity | apply orb_true_r]. }
    destruct (get_schema_block_entry p name Wr Wd Hm) as (block & Hb & Ht & Hw).
    unfold generate_hcl_template. rewrite Hb. cbn [bind]. rewrite Ht. cbn [negb].
    fold (category_keyword p name).
    destruct (template_lines_total (category_keyword p name) name block wd ro lvl Hw)
      as (lines & Hl).
    rewrite Hl. cbn [bind]. eexists. split; [reflexivity|].
    apply template_lines_head in Hl as (rest & ->).
    destruct (join_cons_prefix NL (header_line (category_keyword p name) name "example") rest)
      as (tail & ->).
    apply startswith_append.
Qed.

Lemma name_entry_wf : wf_entry name_entry.
Proof.
  eexists _, _. split; [reflexivity|]. split; [reflexivity|]. split; [reflexivity|].
  eexists _, [("name", JObj [("type", JStr "string"); ("required", JBool true)])], [].
  split; [reflexivity|]. split; [reflexivity|]. split; [reflexivity|]. split.
  - intros k v [[= <- <-]|[]].
    apply (wf_attribute_intro _ (JStr "string")); [reflexivity | constructor | exact I].
  - intros k v [].
Defined.

Lemma catalogue_wf :
  wf_category (resources catalogue) /\ wf_category (data_sources catalogue).
Proof.
  split; intros name entry H; cbn in H;
    repeat (destruct H as [[= <- <-]|H]; [exact name_entry_wf|]); destruct H.
Defined.

Lemma listed_name_renders_witness :
  filter_names catalogue "net" true
    = ["azurerm_subnet"; "azurerm_virtual_network"; "azurerm_subnet"] /\
  exists out,
    generate_hcl_template catalogue "azurerm_subnet" true false 0 = Ok out /\
    startswith out (header_line "resource" "azurerm_subnet" "example") = true.
Proof.
  split; [reflexivity|].
  exact (proj2 (listed_name_renders catalogue "net" "azurerm_subnet" true true false 0
                  (proj1 catalogue_wf) (proj2 catalogue_wf) (or_introl eq_refl))).
Defined.

Lemma sorted_names_not_nil (l : list string) : l <> [] -> sorted_names l <> [].
Proof.
  destruct l as [|x l]; [now intros H | intros _].
  cbn [sorted_names]. destruct (sorted_names l); cbn [insert_name]; [discriminate|].
  destruct (String.leb x s); discriminate.
Qed.

(** X9.  A provider schema that was loaded lists at least one name: when
    [_load_schema] returns two mappings, the listing with the data sources
    is not empty, and neither is what the empty query finds in it. *)
Theorem loaded_catalogue_lists_a_name (schema_data : json) (rs ds : dict) :
  _load_schema schema_data = Ok (JObj rs, JObj ds) ->
  let p := {| resources := rs; data_sources := ds |} in
  get_all_names p true <> [] /\ filter_names p EmptyString true <> [].
Proof.
  intros H p.
  assert (N : get_all_names p true <> []).
  { apply load_schema_keeps_a_category_aux in H.
    unfold get_all_names. cbn [resources data_sources p].
    intros E. apply app_eq_nil in E as [E1 E2].
    destruct rs as [|r rs]; [destruct ds as [|d ds]; [discriminate H|]|].
    - revert E2. now apply sorted_names_not_nil.
    - revert E1. now apply sorted_names_not_nil. }
  split; [exact N|].
  unfold filter_names. cbn [lower].
  rewrite forallb_filter_id; [exact N|].
  apply forallb_forall. intros name _. apply contains_empty.
Qed.

Lemma loaded_catalogue_lists_a_name_witness :
  get_all_names catalogue true <> [] /\ filter_names catalogue EmptyString true <> [].
Proof.
  exact (loaded_catalogue_lists_a_name catalogue_document
           catalogue_resources catalogue_data_sources eq_refl).
Defined.

(** * Further properties of the renderer *)

(** ** The attribute renderer: what it reads and what it returns *)

Lemma startswith_weaken (s a b : string) :
  startswith s (a +++ b) = true -> startswith s a = true.
Proof.
  revert s. induction a as [|c a IH]; intros s; cbn [String.append startswith];
    [reflexivity|].
  destruct s as [|d s]; [discriminate|].
  destruct (Ascii.eqb c d); cbn [andb]; [apply IH | discriminate].
Qed.

Lemma startswith_append2 (a b c : string) :
  startswith (a +++ b +++ c) (a +++ b) = true.
Proof. rewrite <- append_assoc. apply startswith_append. Qed.

Lemma startswith_join (sep h p : string) (t : list string) :
  startswith h p = true -> startswith (join sep (h :: t)) p = true.
Proof.
  intros H. destruct (join_cons_prefix sep h t) as (rest & ->).
  revert h H. induction p as [|c p IH]; intros h H; cbn [startswith]; [reflexivity|].
  destruct h as [|d h]; [discriminate H|]. cbn [startswith String.append] in *.
  destruct (Ascii.eqb c d); cbn [andb] in *; [now apply IH | discriminate].
Qed.

(** the two forms of a rendered attribute: the assignment with its inline
    annotation, or the comment chunk followed by the assignment *)
Lemma format_attribute_cases (name : string) (schema : json) (wd : bool)
    (lvl : Z) (ro : bool) (lines : list string) :
  _format_attribute name schema wd lvl ro = Ok lines ->
  lines = [] \/
  exists type_ default description annotation,
    get_description schema wd = Ok description /\
    let indent := py_repeat "  " lvl in
    let line := indent +++ name +++ " = " +++ _get_placeholder type_ name default in
    (desc_truthy description = false /\ lines = [line +++ "  # " +++ annotation]) \/
    (desc_truthy description = true /\
     lines = [join NL (desc_lines indent description ++ [indent +++ "# " +++ annotation]);
              line]).
Proof.
  unfold _format_attribute. intros H.
  destruct schema as [| | | | |d]; try (destruct ro; discriminate H).
  cbn [py_get bind] in H.
  assert (H' :
    (let indent := py_repeat "  " lvl in
     type_ <- _parse_type (match lookup "type" d with Some v => v | None => JNull end) ;;
     description <- get_description (JObj d) wd ;;
     if truthy (match lookup "deprecated" d with Some v => v | None => JBool false end)
     then Ok [] else
     let required := match lookup "required" d with Some v => v | None => JBool false end in
     let optional := match lookup "optional" d with Some v => v | None => JBool false end in
     let sensitive := match lookup "sensitive" d with Some v => v | None => JBool false end in
     let default := match lookup "default" d with Some v => v | None => JNull end in
     let status := if truthy required then "required"
                   else if truthy optional then "optional" else "computed" in
     let comment := "# " +++ status +++ ", type: " +++ type_ in
     let comment := if truthy sensitive then comment +++ ", sensitive" else comment in
     let comment := if negb (is_none default)
                    then comment +++ ", default: " +++ py_str default else comment in
     let comment := if desc_truthy description
                    then join NL (desc_lines indent description ++ [indent +++ comment])
                    else "  " +++ comment in
     let placeholder := _get_placeholder type_ name default in
     let line := indent +++ name +++ " = " +++ placeholder in
     if nonempty comment && negb (desc_truthy description) then Ok [line +++ comment]
     else Ok ((if nonempty comment then [comment] else []) ++ [line])) = Ok lines
    \/ lines = []).
  { destruct ro; cbn [bind] in H; [|left; exact H].
    destruct (negb (truthy _)) in H; [right; now injection H | left; exact H]. }
  clear H. destruct H' as [H|H]; [|now left]. cbv zeta in H.
  destruct (_parse_type _) as [type_|] in H; cbn [bind] in H; [|discriminate H].
  destruct (get_description (JObj d) wd) as [description|] eqn:Hd;
    cbn [bind] in H; [|discriminate H].
  destruct (truthy _) in H; [left; now injection H|].
  right.
  exists type_, (match lookup "default" d with Some v => v | None => JNull end), description.
  set (required := truthy match lookup "required" d with Some v => v | None => JBool false end) in H.
  set (optional := truthy match lookup "optional" d with Some v => v | None => JBool false end) in H.
  set (sensitive := truthy match lookup "sensitive" d with Some v => v | None => JBool false end) in H.
  set (default := match lookup "default" d with Some v => v | None => JNull end) in *.
  set (status := if required then "required" else if optional then "optional" else "computed") in H.
  assert (A : exists annotation,
            (if negb (is_none default)
             then (if sensitive then ("# " +++ status +++ ", type: " +++ type_) +++ ", sensitive"
                   else "# " +++ status +++ ", type: " +++ type_)
                  +++ ", default: " +++ py_str default
             else (if sensitive then ("# " +++ status +++ ", type: " +++ type_) +++ ", sensitive"
                   else "# " +++ status +++ ", type: " +++ type_))
            = "# " +++ annotation).
  { destruct (negb (is_none default)), sensitive; eexists; reflexivity. }
  destruct A as (annotation & A). rewrite A in H.
  exists annotation. split; [reflexivity|]. cbv zeta.
  destruct (desc_truthy description) eqn:Et.
  - right. split; [reflexivity|].
    rewrite andb_false_r, join_snoc_nonempty in H by (now destruct (py_repeat "  " lvl)).
    now injection H.
  - left. split; [reflexivity|].
    cbn [nonempty String.append negb andb] in H. now injection H.
Qed.

Lemma format_attribute_indented (name : string) (schema : json) (wd : bool)
    (lvl : Z) (ro : bool) (lines : list string) :
  _format_attribute name schema wd lvl ro = Ok lines -> Forall (indented lvl) lines.
Proof.
  intros H. apply format_attribute_cases in H
    as [->|(type_ & default & description & annotation & _ & [[_ ->]|[_ ->]])];
    unfold indented.
  - constructor.
  - constructor; [|constructor]. rewrite append_assoc. apply startswith_append.
  - constructor; [|constructor; [apply startswith_append | constructor]].
    destruct (desc_lines (py_repeat "  " lvl) description) as [|h t] eqn:E;
      cbn [app].
    + apply startswith_join, startswith_append.
    + apply startswith_join.
      unfold desc_lines in E. destruct description as [s|]; [|discriminate E].
      destruct (filter _ _) as [|x xs]; [discriminate E|].
      cbn [map] in E. injection E as <- _. apply startswith_append.
Qed.

(** X12.  An attribute renders to nothing, to one assignment line that
    carries its annotation as an inline comment, or, when a description is
    shown, to a comment chunk followed by the bare assignment line.  The
    comment chunk opens with a comment at the indentation of the level, and
    the assignment is the name, [ = ] and the placeholder of the attribute at
    that indentation. *)
Theorem format_attribute_shape (name : string) (schema : json) (wd : bool)
    (lvl : Z) (ro : bool) (lines : list string) :
  _format_attribute name schema wd lvl ro = Ok lines ->
  let indent := py_repeat "  " lvl in
  lines = [] \/
  exists type_ default description,
    get_description schema wd = Ok description /\
    let assignment := indent +++ name +++ " = " +++ _get_placeholder type_ name default in
    (desc_truthy description = false /\
     exists annotation, lines = [assignment +++ "  # " +++ annotation]) \/
    (desc_truthy description = true /\
     exists chunk, lines = [chunk; assignment] /\
                   startswith chunk (indent +++ "# ") = true).
Proof.
  intros H indent.
  apply format_attribute_cases in H
    as [->|(type_ & default & description & annotation & Hd & [[Ht ->]|[Ht ->]])];
    [now left | right; exists type_, default, description; split; [exact Hd|] ..].
  - left. split; [exact Ht|]. now exists annotation.
  - right. split; [exact Ht|]. eexists. split; [reflexivity|].
    fold indent.
    destruct (desc_lines indent description) as [|h t] eqn:E; cbn [app].
    + apply startswith_join. apply (startswith_append2 indent "# " annotation).
    + apply startswith_join.
      unfold desc_lines in E. destruct description as [s|]; [|discriminate E].
      destruct (filter _ _) as [|x xs]; [discriminate E|].
      cbn [map] in E. injection E as <- _.
      apply (startswith_append2 indent "# " x).
Qed.

(** X10.  The output of [_format_attribute] depends on the descriptor only
    through its keys [type], [required], [optional], [deprecated],
    [sensitive], [default] and [description]: the [computed] flag, which is
    read, and every other key leave it unchanged. *)
Theorem format_attribute_reads (name : string) (d d' : dict) (wd : bool)
    (lvl : Z) (ro : bool) :
  (forall k, In k ["type"; "required"; "optional"; "deprecated"; "sensitive";
                   "default"; "description"] ->
             lookup k d = lookup k d') ->
  _format_attribute name (JObj d) wd lvl ro = _format_attribute name (JObj d') wd lvl ro.
Proof.
  intros H.
  assert (Ht : lookup "type" d = lookup "type" d') by (apply H; cbn; tauto).
  assert (Hr : lookup "required" d = lookup "required" d') by (apply H; cbn; tauto).
  assert (Ho : lookup "optional" d = lookup "optional" d') by (apply H; cbn; tauto).
  assert (Hp : lookup "deprecated" d = lookup "deprecated" d') by (apply H; cbn; tauto).
  assert (Hs : lookup "sensitive" d = lookup "sensitive" d') by (apply H; cbn; tauto).
  assert (Hf : lookup "default" d = lookup "default" d') by (apply H; cbn; tauto).
  assert (Hd : lookup "description" d = lookup "description" d') by (apply H; cbn; tauto).
  unfold _format_attribute, get_description. cbn [py_get bind].
  now rewrite Ht, Hr, Ho, Hp, Hs, Hf, Hd.
Qed.

Lemma format_attribute_reads_witness :
  _format_attribute "location"
    (JObj [("type", JStr "string"); ("computed", JBool true)]) true 1 false
  = _format_attribute "location"
      (JObj [("type", JStr "string"); ("description_kind", JStr "plain")]) true 1 false.
Proof.
  apply format_attribute_reads.
  intros k H. cbn in H.
  repeat (destruct H as [<-|H]; [reflexivity|]). destruct H.
Defined.

(** X11.  A description that is absent, empty or made of white space only
    is no description: the attribute renders with descriptions switched on
    exactly as it does with descriptions switched off. *)
Theorem blank_description_is_no_description (name : string) (d : dict)
    (lvl : Z) (ro : bool) :
  (lookup "description" d = None \/
   exists s, lookup "description" d = Some (JStr s) /\ strip s = EmptyString) ->
  _format_attribute name (JObj d) true lvl ro = _format_attribute name (JObj d) false lvl ro.
Proof.
  intros H.
  assert (E : get_description (JObj d) true = Ok (Some EmptyString)).
  { unfold get_description. cbn [py_get bind].
    destruct H as [->|(s & -> & Hs)]; cbn [py_strip bind]; [reflexivity | now rewrite Hs]. }
  unfold _format_attribute. rewrite E.
  change (get_description (JObj d) false) with (@Ok (option string) None).
  reflexivity.
Qed.

Lemma blank_description_is_no_description_witness :
  strip (String " " (String nl EmptyString)) = EmptyString /\
  _format_attribute "size"
    (JObj [("type", JStr "number");
           ("description", JStr (String " " (String nl EmptyString)))]) true 1 false
  = Ok ["  size = 0  # computed, type: number"].
Proof.
  split; [reflexivity|].
  rewrite blank_description_is_no_description; [reflexivity|].
  right. eexists. split; reflexivity.
Defined.

Lemma format_attribute_shape_witness :
  let lines := ["  # The size in GB" +++ NL +++ "  # optional, type: number"; "  size = 0"] in
  _format_attribute "size" size_attribute true 1 false = Ok lines /\
  (lines = [] \/
   exists type_ default description,
     get_description size_attribute true = Ok description /\
     let assignment := "  " +++ "size" +++ " = " +++ _get_placeholder type_ "size" default in
     (desc_truthy description = false /\
      exists annotation, lines = [assignment +++ "  # " +++ annotation]) \/
     (desc_truthy description = true /\
      exists chunk, lines = [chunk; assignment] /\
                    startswith chunk ("  " +++ "# ") = true)).
Proof.
  split; [reflexivity|].
  exact (format_attribute_shape "size" size_attribute true 1 false
           ["  # The size in GB" +++ NL +++ "  # optional, type: number"; "  size = 0"]
           eq_refl).
Defined.

(** ** The indentation of the rendered lines *)

Lemma repeat_nat_add (s : string) (n m : nat) :
  repeat_nat s (n + m) = repeat_nat s n +++ repeat_nat s m.
Proof.
  induction n as [|n IH]; cbn [repeat_nat Nat.add]; [reflexivity|].
  now rewrite IH, append_assoc.
Qed.

Lemma py_repeat_deeper (s : string) (lvl k : Z) :
  0 <= k -> exists rest, py_repeat s (lvl + k) = py_repeat s lvl +++ rest.
Proof.
  intros Hk. unfold py_repeat.
  replace (Z.to_nat (lvl + k))
    with (Z.to_nat lvl + (Z.to_nat (lvl + k) - Z.to_nat lvl))%nat by lia.
  rewrite repeat_nat_add. eexists. reflexivity.
Qed.

(** a line indented for a deeper level is indented for the level *)
Lemma indented_deeper (lvl k : Z) (line : string) :
  0 <= k -> indented (lvl + k) line -> indented lvl line.
Proof.
  unfold indented. intros Hk H.
  destruct (py_repeat_deeper "  " lvl k Hk) as (rest & E).
  rewrite E in H. now apply startswith_weaken in H.
Qed.

Lemma indented_append (lvl : Z) (rest : string) :
  indented lvl (py_repeat "  " lvl +++ rest).
Proof. apply startswith_append. Qed.

Lemma extend_each_forall {A} (P : string -> Prop) (f : A -> outcome (list string))
    (xs : list A) (r : list string) :
  (forall x l, In x xs -> f x = Ok l -> Forall P l) ->
  extend_each f xs = Ok r -> Forall P r.
Proof.
  revert r. induction xs as [|x xs IH]; intros r Hf H; cbn [extend_each] in H.
  - injection H as <-. constructor.
  - apply bind_ok in H as (l & Hl & H). apply bind_ok in H as (r' & Hr & H).
    injection H as <-. apply Forall_app. split.
    + apply (Hf x l); [now left | exact Hl].
    + apply IH; [|exact Hr]. intros y m Hy. apply Hf. now right.
Qed.

Lemma repeat_body_forall (P : string -> Prop) (n : nat) (body : outcome (list string))
    (r : list string) :
  (forall l, body = Ok l -> Forall P l) -> repeat_body n body = Ok r -> Forall P r.
Proof.
  intros Hb. revert r. induction n as [|n IH]; intros r H; cbn [repeat_body] in H.
  - injection H as <-. constructor.
  - apply bind_ok in H as (l & Hl & H). apply bind_ok in H as (r' & Hr & H).
    injection H as <-. apply Forall_app. split; [now apply Hb | now apply IH].
Qed.

Lemma render_members_indented (self : block_renderer) (sa sb : dict)
    (wd : bool) (lvl : Z) (ro : bool) (body : list string) :
  (forall k v l, In (k, v) sb -> self k v wd lvl ro = Ok l -> Forall (indented lvl) l) ->
  render_members self sa sb wd lvl ro = Ok body -> Forall (indented lvl) body.
Proof.
  intros Hs H. unfold render_members in H.
  apply bind_ok in H as (la & Ha & H). apply bind_ok in H as (lb & Hb & H).
  injection H as <-. apply Forall_app. split.
  - eapply extend_each_forall; [|exact Ha].
    intros [k v] l _ Hl. now apply format_attribute_indented in Hl.
  - eapply extend_each_forall; [|exact Hb].
    intros [k v] l Hin Hl. now apply (Hs k v).
Qed.

Lemma nesting_info_lines_indented (lvl : Z) (nesting min_items max_items : json)
    (description : option string) :
  Forall (indented lvl)
    (nesting_info_lines (py_repeat "  " lvl) nesting min_items max_items description).
Proof.
  eapply Forall_impl; [|apply nesting_info_lines_comments].
  intros line H. unfold indented. now apply startswith_weaken in H.
Qed.

Lemma members_indented_deeper (lvl k : Z) (body : list string) :
  0 <= k -> Forall (indented (lvl + k)) body -> Forall (indented lvl) body.
Proof.
  intros Hk. apply Forall_impl. intros line. now apply indented_deeper.
Qed.

Lemma repeat_comment_line_indented (lvl : Z) (min_items max_items : json) :
  indented lvl (repeat_comment_line (py_repeat "  " lvl) min_items max_items).
Proof.
  unfold repeat_comment_line.
  destruct (truthy max_items); rewrite !append_assoc; apply indented_append.
Qed.

Ltac indented_lines :=
  repeat first
    [ assumption
    | apply Forall_nil
    | apply Forall_cons;
      [first [apply indented_append | apply repeat_comment_line_indented]|]
    | apply Forall_app; split ].

Lemma format_block_type_body_indented (self : block_renderer)
    (name : string) (schema : json) (wd : bool) (lvl : Z) (ro : bool)
    (lines : list string) :
  (forall k v lvl' l, self k v wd lvl' ro = Ok l -> Forall (indented lvl') l) ->
  format_block_type_body self name schema wd lvl ro = Ok lines ->
  Forall (indented lvl) lines.
Proof.
  intros Hs H. unfold format_block_type_body in H.
  apply bind_ok in H as (min_items & _ & H).
  destruct (ro && eq_zero min_items); [injection H as <-; constructor|].
  apply bind_ok in H as (nesting & _ & H).
  apply bind_ok in H as (max_items & _ & H).
  apply bind_ok in H as (description & _ & H).
  apply bind_ok in H as ([sa sb] & _ & H).
  pose proof (nesting_info_lines_indented lvl nesting min_items max_items description)
    as Hinfo.
  assert (RM : forall k body, 0 <= k ->
            render_members self sa sb wd (lvl + k) ro = Ok body ->
            Forall (indented lvl) body).
  { intros k body Hk Hb. apply (members_indented_deeper lvl k); [exact Hk|].
    eapply render_members_indented; [|exact Hb].
    intros k' v l _ Hl. now apply (Hs k' v). }
  destruct (eq_str nesting "single").
  { apply bind_ok in H as (body & Hb & H). injection H as <-.
    apply (RM 1 body) in Hb; [|lia]. indented_lines. }
  destruct (eq_str nesting "list" || eq_str nesting "set").
  { apply bind_ok in H as (positive & _ & H). destruct positive.
    - apply bind_ok in H as (n & _ & H). apply bind_ok in H as (instances & Hi & H).
      injection H as <-.
      assert (Forall (indented lvl) instances).
      { eapply repeat_body_forall; [|exact Hi].
        intros l Hl. apply bind_ok in Hl as (body & Hb & Hl). injection Hl as <-.
        apply (RM 1 body) in Hb; [|lia]. indented_lines. }
      indented_lines.
    - injection H as <-. indented_lines. }
  destruct (eq_str nesting "map").
  { apply bind_ok in H as (body & Hb & H). injection H as <-.
    apply (RM 2 body) in Hb; [|lia]. indented_lines. }
  injection H as <-. exact Hinfo.
Qed.

Lemma format_block_type_fuel_indented (fuel : nat) :
  forall name schema wd lvl ro lines,
    format_block_type_fuel fuel name schema wd lvl ro = Ok lines ->
    Forall (indented lvl) lines.
Proof.
  induction fuel as [|fuel IH]; intros name schema wd lvl ro lines H;
    cbn [format_block_type_fuel] in H; [discriminate H|].
  eapply format_block_type_body_indented; [|exact H].
  intros k v lvl' l. apply IH.
Qed.

(** X13.  Every line a block-type renders to, at every depth of its nested
    blocks, starts with the indentation of the level the block-type is
    rendered at; so do the lines of an attribute. *)
Theorem rendered_lines_are_indented
    (name : string) (schema : json) (wd : bool) (lvl : Z) (ro : bool)
    (lines : list string) :
  _format_block_type name schema wd lvl ro = Ok lines \/
  _format_attribute name schema wd lvl ro = Ok lines ->
  Forall (indented lvl) lines.
Proof.
  intros [H|H].
  - unfold _format_block_type in H. now apply format_block_type_fuel_indented in H.
  - now apply format_attribute_indented in H.
Qed.

Lemma rendered_lines_are_indented_witness :
  _format_block_type "rule" (rule_block_type 1) false 1 false
    = Ok ["  # # nesting: list, min: 1";
          "  # Repeat this block as needed (min: 1)";
          "  rule {"; "    port = 0  # required, type: number"; "  }"] /\
  Forall (indented 1)
    ["  # # nesting: list, min: 1";
     "  # Repeat this block as needed (min: 1)";
     "  rule {"; "    port = 0  # required, type: number"; "  }"].
Proof.
  split; [reflexivity|].
  apply (rendered_lines_are_indented "rule" (rule_block_type 1) false 1 false).
  left. reflexivity.
Defined.

(** ** The layout of a template *)

Lemma template_lines_layout (block_type name : string) (block : json)
    (wd ro : bool) (lvl : Z) (lines : list string) :
  template_lines block_type name block wd ro lvl = Ok lines ->
  exists members,
    lines = header_line block_type name "example" :: members ++ [py_repeat "}" (lvl + 1)] /\
    Forall (indented (lvl + 1)) members.
Proof.
  unfold template_lines. intros H.
  apply bind_ok in H as (? & _ & H). apply bind_ok in H as (? & _ & H).
  apply bind_ok in H as (la & Ha & H). apply bind_ok in H as (? & _ & H).
  apply bind_ok in H as (? & _ & H). apply bind_ok in H as (lb & Hb & H).
  injection H as <-. exists (la ++ lb). split.
  - cbn [app]. now rewrite app_assoc.
  - apply Forall_app. split.
    + eapply extend_each_forall; [|exact Ha].
      intros [k v] l _ Hl. now apply format_attribute_indented in Hl.
    + eapply extend_each_forall; [|exact Hb].
      intros [k v] l _ Hl. unfold _format_block_type in Hl.
      now apply format_block_type_fuel_indented in Hl.
Qed.

(** X14.  A template is the header line of the category that resolves the
    name, the lines of the members, each indented one level deeper than the
    given level, and a last line of [indent_level + 1] closing braces, all
    joined by newlines. *)
Theorem template_layout (p : parser) (name : string) (wd ro : bool) (lvl : Z)
    (out : string) :
  generate_hcl_template p name wd ro lvl = Ok out ->
  exists members,
    out = join NL (header_line (category_keyword p name) name "example"
                   :: members ++ [py_repeat "}" (lvl + 1)]) /\
    Forall (indented (lvl + 1)) members.
Proof.
  unfold generate_hcl_template. intros H.
  apply bind_ok in H as (block & _ & H).
  destruct (negb (truthy block)); [discriminate H|].
  apply bind_ok in H as (lines & Hl & H). injection H as <-.
  apply template_lines_layout in Hl as (members & -> & Hm).
  now exists members.
Qed.

Lemma template_layout_witness :
  generate_hcl_template catalogue "azurerm_subnet" false false 0
    = Ok (join NL ["resource " +++ quoted "azurerm_subnet" +++ " " +++ quoted "example" +++ " {";
                   "  name = " +++ DQ +++ DQ +++ "  # required, type: string";
                   "}"]) /\
  exists members,
    join NL ["resource " +++ quoted "azurerm_subnet" +++ " " +++ quoted "example" +++ " {";
             "  name = " +++ DQ +++ DQ +++ "  # required, type: string";
             "}"]
    = join NL (header_line (category_keyword catalogue "azurerm_subnet")
                 "azurerm_subnet" "example"
               :: members ++ [py_repeat "}" (0 + 1)]) /\
    Forall (indented (0 + 1)) members.
Proof.
  split; [reflexivity|].
  exact (template_layout catalogue "azurerm_subnet" false false 0 _ eq_refl).
Defined.

(** ** The block renderer: the single and map modes *)

(** X15.  A block-type whose nesting mode is [single], or that has no
    [nesting_mode] at all, renders to its leading comment lines and exactly
    one instance, the header, the members one level deeper and the closing
    brace, whatever its [min_items]; in the required-only mode it renders to
    nothing when [min_items == 0]. *)
Theorem single_block_one_instance
    (name : string) (schema : dict) (wd : bool) (lvl : Z) (ro : bool)
    (max_items : json) (description : option string)
    (sub_attributes sub_block_types : dict) (body : list string) :
  lookup "nesting_mode" schema = None \/ lookup "nesting_mode" schema = Some (JStr "single") ->
  py_get (JObj schema) "max_items" JNull = Ok max_items ->
  get_description (JObj schema) wd = Ok description ->
  block_members (JObj schema) = Ok (sub_attributes, sub_block_types) ->
  render_members _format_block_type sub_attributes sub_block_types wd (lvl + 1) ro
    = Ok body ->
  let min_items := match lookup "min_items" schema with Some v => v | None => JInt 0 end in
  let indent := py_repeat "  " lvl in
  let info := nesting_info_lines indent (JStr "single") min_items max_items description in
  _format_block_type name (JObj schema) wd lvl ro
    = Ok (if ro && eq_zero min_items then [] else info ++ block_instance indent name body).
Proof.
  intros Hn Hmax Hdesc Hmem Hbody min_items indent info.
  rewrite format_block_type_unfold. unfold format_block_type_body.
  cbn [py_get bind]. fold min_items.
  destruct (ro && eq_zero min_items); [reflexivity|].
  cbn [py_get] in Hmax. injection Hmax as Hmax.
  rewrite Hmax, Hdesc, Hmem. cbn [bind].
  destruct Hn as [-> | ->]; cbn [eq_str String.eqb Ascii.eqb Bool.eqb];
    rewrite Hbody; reflexivity.
Qed.

Lemma single_block_one_instance_witness :
  _format_block_type "tags" (tags_block_type []) false 0 false
    = Ok ["# # nesting: single, min: 3"; "tags {";
          "  size = 0  # computed, type: number"; "}"].
Proof.
  exact (single_block_one_instance "tags"
           [("min_items", JInt 3);
            ("block", JObj [("attributes", JObj [("size", JObj [("type", JStr "number")])])])]
           false 0 false JNull None [("size", JObj [("type", JStr "number")])] []
           ["  size = 0  # computed, type: number"]
           (or_introl eq_refl) eq_refl eq_refl eq_refl eq_refl).
Defined.

(** X16.  A block-type whose nesting mode is [map] renders to its leading
    comment lines, the line that opens the map, one [example_key] entry
    around the members, which are rendered two levels deeper, and the two
    closing braces; [min_items] only decides whether the required-only mode
    shows it. *)
Theorem map_block_example_key
    (name : string) (schema : dict) (wd : bool) (lvl : Z) (ro : bool)
    (max_items : json) (description : option string)
    (sub_attributes sub_block_types : dict) (body : list string) :
  lookup "nesting_mode" schema = Some (JStr "map") ->
  py_get (JObj schema) "max_items" JNull = Ok max_items ->
  get_description (JObj schema) wd = Ok description ->
  block_members (JObj schema) = Ok (sub_attributes, sub_block_types) ->
  render_members _format_block_type sub_attributes sub_block_types wd (lvl + 2) ro
    = Ok body ->
  let min_items := match lookup "min_items" schema with Some v => v | None => JInt 0 end in
  let indent := py_repeat "  " lvl in
  let info := nesting_info_lines indent (JStr "map") min_items max_items description in
  _format_block_type name (JObj schema) wd lvl ro
    = Ok (if ro && eq_zero min_items then [] else info ++ map_instance indent name body) /\
  Forall (indented (lvl + 2)) body.
Proof.
  intros Hn Hmax Hdesc Hmem Hbody min_items indent info. split.
  - rewrite format_block_type_unfold. unfold format_block_type_body.
    cbn [py_get bind]. fold min_items.
    destruct (ro && eq_zero min_items); [reflexivity|].
    cbn [py_get] in Hmax. injection Hmax as Hmax.
    rewrite Hmax, Hdesc, Hmem, Hn. cbn [bind eq_str String.eqb Ascii.eqb Bool.eqb orb].
    rewrite Hbody. reflexivity.
  - eapply render_members_indented; [|exact Hbody].
    intros k v l _ Hl. unfold _format_block_type in Hl.
    now apply format_block_type_fuel_indented in Hl.
Qed.

Lemma map_block_example_key_witness :
  _format_block_type "tags" (tags_block_type [("nesting_mode", JStr "map")]) false 0 false
    = Ok ["# # nesting: map, min: 3";
          "tags = {  # key = value syntax, repeat as needed";
          "  example_key {";
          "    size = 0  # computed, type: number";
          "  }"; "}"].
Proof.
  exact (proj1 (map_block_example_key "tags"
           [("nesting_mode", JStr "map"); ("min_items", JInt 3);
            ("block", JObj [("attributes", JObj [("size", JObj [("type", JStr "number")])])])]
           false 0 false JNull None [("size", JObj [("type", JStr "number")])] []
           ["    size = 0  # computed, type: number"]
           eq_refl eq_refl eq_refl eq_refl eq_refl)).
Defined.

(** ** Templates without members *)

Lemma extend_each_nothing {A} (f : A -> outcome (list string)) (xs : list A) :
  (forall x, In x xs -> f x = Ok []) -> extend_each f xs = Ok [].
Proof.
  induction xs as [|x xs IH]; intros H; cbn [extend_each]; [reflexivity|].
  rewrite (H x (or_introl eq_refl)), IH by (intros y Hy; apply H; now right).
  reflexivity.
Qed.

Lemma template_lines_nothing (block_type name : string) (d attrs bts : dict)
    (wd ro : bool) (lvl : Z) :
  members_of d "attributes" = Some attrs ->
  members_of d "block_types" = Some bts ->
  (forall k v, In (k, v) attrs -> _format_attribute k v wd (lvl + 1) ro = Ok []) ->
  (forall k v, In (k, v) bts -> _format_block_type k v wd (lvl + 1) ro = Ok []) ->
  template_lines block_type name (JObj d) wd ro lvl
    = Ok [header_line block_type name "example"; py_repeat "}" (lvl + 1)].
Proof.
  intros Ha Ht Hattrs Hbts. unfold template_lines.
  destruct (members_of_items _ _ _ Ha) as (va & -> & Hva). cbn [bind].
  rewrite Hva. cbn [bind].
  rewrite extend_each_nothing.
  2:{ intros [k v] Hin. apply (proj1 (sorted_items_in _ _)) in Hin. now apply Hattrs. }
  cbn [bind].
  destruct (members_of_items _ _ _ Ht) as (vt & -> & Hvt). cbn [bind].
  rewrite Hvt. cbn [bind].
  rewrite extend_each_nothing.
  2:{ intros [k v] Hin. apply (proj1 (sorted_items_in _ _)) in Hin. now apply Hbts. }
  reflexivity.
Qed.

(** X17.  A block that has no member at all renders, under every flag, to
    the header line and the closing line only; so does, in the required-only
    mode, a block none of whose attributes is required and none of whose
    block-types has a [min_items] other than zero. *)
Theorem template_without_members (p : parser) (name : string) (d attrs bts : dict)
    (lvl : Z) :
  get_schema_block p name = Ok (JObj d) -> d <> [] ->
  members_of d "attributes" = Some attrs ->
  members_of d "block_types" = Some bts ->
  (attrs = [] -> bts = [] ->
   forall wd ro, generate_hcl_template p name wd ro lvl
                 = Ok (skeleton (category_keyword p name) name lvl)) /\
  ((forall k v, In (k, v) attrs ->
      exists a, v = JObj a /\
                truthy (match lookup "required" a with Some r => r | None => JBool false end)
                = false) ->
   (forall k v, In (k, v) bts ->
      exists b, v = JObj b /\
                eq_zero (match lookup "min_items" b with Some m => m | None => JInt 0 end)
                = true) ->
   forall wd, generate_hcl_template p name wd true lvl
              = Ok (skeleton (category_keyword p name) name lvl)).
Proof.
  intros Hb Hne Ha Ht.
  assert (G : forall wd ro,
            (forall k v, In (k, v) attrs -> _format_attribute k v wd (lvl + 1) ro = Ok []) ->
            (forall k v, In (k, v) bts -> _format_block_type k v wd (lvl + 1) ro = Ok []) ->
            generate_hcl_template p name wd ro lvl
            = Ok (skeleton (category_keyword p name) name lvl)).
  { intros wd ro Hattrs Hbts. unfold generate_hcl_template. rewrite Hb. cbn [bind].
    replace (truthy (JObj d)) with true by (destruct d; [now elim Hne | reflexivity]).
    cbn [negb]. fold (category_keyword p name).
    rewrite (template_lines_nothing _ _ d attrs bts wd ro lvl Ha Ht Hattrs Hbts).
    reflexivity. }
  split.
  - intros -> -> wd ro. apply G; intros k v [].
  - intros Hattrs Hbts wd. apply G.
    + intros k v Hin. destruct (Hattrs k v Hin) as (a & -> & Hr).
      unfold _format_attribute. cbn [py_get bind]. rewrite Hr. reflexivity.
    + intros k v Hin. destruct (Hbts k v Hin) as (b & -> & Hz).
      rewrite format_block_type_unfold. unfold format_block_type_body.
      cbn [py_get bind]. rewrite Hz. reflexivity.
Qed.

Lemma template_without_members_witness :
  generate_hcl_template optional_parser "azurerm_note" true true 0
    = Ok ("resource " +++ quoted "azurerm_note" +++ " " +++ quoted "example" +++ " {"
          +++ NL +++ "}").
Proof.
  refine (proj2 (template_without_members optional_parser "azurerm_note"
            [("attributes",
              JObj [("text", JObj [("type", JStr "string"); ("optional", JBool true)])]);
             ("block_types", JObj [("rule", rule_block_type 0)])]
            [("text", JObj [("type", JStr "string"); ("optional", JBool true)])]
            [("rule", rule_block_type 0)] 0 eq_refl _ eq_refl eq_refl) _ _ true).
  - discriminate.
  - intros k v [[= <- <-]|[]]. eexists. split; reflexivity.
  - intros k v [[= <- <-]|[]]. eexists. split; reflexivity.
Defined.

(** ** The placeholder of a reference and of a collection *)

Lemma endswith_append (stem p : string) : endswith (stem +++ p) p = true.
Proof.
  unfold endswith. rewrite length_append.
  replace (String.length stem + String.length p - String.length p)%nat
    with (String.length stem) by lia.
  rewrite substring_skip.
  replace (substring 0 (String.length p) p) with p.
  - rewrite String.eqb_refl, andb_true_r. apply Nat.leb_le. lia.
  - symmetry. rewrite <- (append_empty_r p) at 2. now apply substring_here.
Qed.

Lemma drop_last_append (stem p : string) :
  drop_last (String.length p) (stem +++ p) = stem.
Proof.
  unfold drop_last. rewrite length_append.
  replace (String.length stem + String.length p - String.length p)%nat
    with (String.length stem) by lia.
  now apply substring_here.
Qed.

Lemma substring_split_at (s : string) (m n : nat) :
  (m + n <= String.length s)%nat ->
  exists a b, s = a +++ substring m n s +++ b /\ String.length a = m.
Proof.
  revert s. induction m as [|m IH]; intros s L.
  - destruct (substring_head_split s n _ eq_refl) as (b & E).
    + revert s L. induction n as [|n IHn]; intros s L; [now destruct s|].
      destruct s as [|c s]; cbn in L; [lia|]. cbn. f_equal. apply IHn. lia.
    + exists EmptyString, b. split; [exact E | reflexivity].
  - destruct s as [|c s]; cbn in L; [lia|].
    destruct (IH s) as (a & b & E & La); [lia|].
    exists (String c a), b. cbn. split; [now rewrite <- E | now rewrite La].
Qed.

(** [s.endswith(p)] holds exactly when [s] is some stem followed by [p] *)
Lemma endswith_iff (s p : string) :
  endswith s p = true <-> exists stem, s = stem +++ p.
Proof.
  split.
  - unfold endswith. intros H. apply andb_true_iff in H as [L E].
    apply Nat.leb_le in L. apply String.eqb_eq in E.
    destruct (substring_split_at s (String.length s - String.length p) (String.length p))
      as (a & b & Es & La); [lia|].
    rewrite E in Es. exists a.
    assert (Lb : String.length b = 0%nat).
    { apply (f_equal String.length) in Es. rewrite !length_append in Es. lia. }
    destruct b; [|discriminate Lb]. now rewrite append_empty_r in Es.
  - intros (stem & ->). apply endswith_append.
Qed.

Lemma id_suffix_is_not_name_suffix (stem : string) :
  endswith (stem +++ "_id") "_name" = false.
Proof.
  destruct (endswith (stem +++ "_id") "_name") eqn:E; [|reflexivity].
  exfalso. apply endswith_iff in E as (a & E). revert a E.
  induction stem as [|c stem IH]; intros a E.
  - apply (f_equal String.length) in E. rewrite !length_append in E. cbn in E. lia.
  - destruct a as [|c' a].
    + assert (L : String.length stem = 1%nat).
      { apply (f_equal String.length) in E. cbn in E.
        rewrite length_append in E. cbn in E. lia. }
      destruct stem as [|c1 [|c2 stem]]; try discriminate L. cbn in E. discriminate E.
    + cbn in E. injection E as _ E. now apply (IH a).
Qed.

(** X18.  Without a default, an attribute named after a stem with the
    suffix [_name], resp. [_id], gets the reference
    [azurerm_<stem>.example.name], resp. [azurerm_<stem>.example.id],
    whatever its type: the stem is the name without its suffix, and it may be
    empty. *)
Theorem reference_placeholder_of_stem (type_ stem : string) :
  _get_placeholder type_ (stem +++ "_name") JNull
    = "azurerm_" +++ stem +++ ".example.name" /\
  _get_placeholder type_ (stem +++ "_id") JNull
    = "azurerm_" +++ stem +++ ".example.id".
Proof.
  assert (N : forall p, nonempty p = true -> nonempty (stem +++ p) = true).
  { intros p Hp. destruct stem; [exact Hp | reflexivity]. }
  unfold _get_placeholder. cbn [is_none negb]. split.
  - rewrite (N "_name" eq_refl), (endswith_append stem "_name"). cbn [andb].
    now rewrite (drop_last_append stem "_name" : drop_last 5 (stem +++ "_name") = stem).
  - rewrite (N "_id" eq_refl), id_suffix_is_not_name_suffix,
      (endswith_append stem "_id"). cbn [andb].
    now rewrite (drop_last_append stem "_id" : drop_last 3 (stem +++ "_id") = stem).
Qed.

Lemma type_fallback (type_ name : string) :
  endswith name "_name" = false -> endswith name "_id" = false ->
  _get_placeholder type_ name JNull = spec_type_fallback type_.
Proof.
  intros H1 H2. unfold _get_placeholder, spec_type_fallback. cbn [is_none negb].
  now rewrite H1, H2, !andb_false_r.
Qed.

(** X19.  For an attribute without a default whose name ends in neither
    [_name] nor [_id], the type descriptor decides the placeholder through
    its outermost constructor alone: a [list], [set] or [tuple] gives the
    empty list, a [map] or [object] the empty object, whatever the element
    type, and a descriptor that is neither a str nor a list, or whose tag is
    not known, gives [null]. *)
Theorem collection_placeholder (name : string) (e : json) (rest : list json) :
  endswith name "_name" = false -> endswith name "_id" = false ->
  let placeholder_of t := sig <- _parse_type t ;; Ok (_get_placeholder sig name JNull) in
  (forall inner, _parse_type e = Ok inner ->
     placeholder_of (JArr (JStr "list" :: e :: rest)) = Ok "[]" /\
     placeholder_of (JArr (JStr "set" :: e :: rest)) = Ok "[]" /\
     placeholder_of (JArr (JStr "map" :: e :: rest)) = Ok "{}") /\
  placeholder_of (JArr (JStr "object" :: rest)) = Ok "{}" /\
  placeholder_of (JArr (JStr "tuple" :: rest)) = Ok "[]" /\
  (forall t, _parse_type t = Ok "unknown" -> placeholder_of t = Ok "null").
Proof.
  intros H1 H2 placeholder_of. unfold placeholder_of.
  split; [|split; [|split]].
  - intros inner Hi. cbn [_parse_type eq_str String.eqb Ascii.eqb Bool.eqb orb].
    rewrite Hi. cbn [bind py_str]. rewrite !type_fallback by assumption.
    repeat split; reflexivity.
  - cbn [_parse_type eq_str String.eqb Ascii.eqb Bool.eqb orb bind].
    now rewrite type_fallback.
  - cbn [_parse_type eq_str String.eqb Ascii.eqb Bool.eqb orb bind].
    now rewrite type_fallback.
  - intros t ->. cbn [bind]. now rewrite type_fallback.
Qed.

Lemma collection_placeholder_witness :
  (sig <- _parse_type (JArr [JStr "map"; JArr [JStr "list"; JStr "string"]]) ;;
   Ok (_get_placeholder sig "tags" JNull)) = Ok "{}" /\
  (sig <- _parse_type (JInt 3) ;; Ok (_get_placeholder sig "tags" JNull)) = Ok "null".
Proof.
  destruct (collection_placeholder "tags" (JArr [JStr "list"; JStr "string"]) []
              eq_refl eq_refl) as (C & _ & _ & U).
  split.
  - exact (proj2 (proj2 (C "list(string)" eq_refl))).
  - exact (U (JInt 3) eq_refl).
Defined.

(** ** Without descriptions no description is read *)

Lemma format_attribute_redescribed (name : string) (a a' : json) (lvl : Z) (ro : bool) :
  redescribed_attribute a a' ->
  _format_attribute name a false lvl ro = _format_attribute name a' false lvl ro.
Proof.
  intros (d & d' & -> & -> & H).
  unfold _format_attribute, get_description. cbn [py_get bind].
  now rewrite (H "type"), (H "required"), (H "optional"), (H "deprecated"),
    (H "sensitive"), (H "default") by discriminate.
Qed.

Lemma redescribed_field_items (R : json -> json -> Prop) (b b' : dict) (k : string) :
  redescribed_field R (lookup k b) (lookup k b') ->
  exists m m',
    (v <- py_get (JObj b) k (JObj []) ;; py_items v) = Ok m /\
    (v <- py_get (JObj b') k (JObj []) ;; py_items v) = Ok m' /\
    Forall2 (same_key R) (sorted_items m) (sorted_items m').
Proof.
  cbn [py_get bind].
  intros [[-> ->]|(d & d' & -> & -> & H)].
  - exists [], []. repeat split. constructor.
  - exists d, d'. repeat split. now apply sorted_items_same_key.
Qed.

Lemma redescribed_block_members (s s' : dict) :
  redescribed (JObj s) (JObj s') ->
  exists sa sa' sb sb',
    block_members (JObj s) = Ok (sa, sb) /\
    block_members (JObj s') = Ok (sa', sb') /\
    Forall2 (same_key redescribed_attribute) sa sa' /\
    Forall2 (same_key redescribed) sb sb'.
Proof.
  intros H. inversion H as [? ? _ Hblock]; subst.
  rewrite !block_members_reads. cbn [py_get bind].
  destruct Hblock as [[-> ->]|(b & b' & -> & -> & Ha & Ht)].
  - exists [], [], [], []. repeat split; constructor.
  - destruct (redescribed_field_items _ b b' "attributes" Ha)
      as (ma & ma' & -> & -> & Fa).
    destruct (redescribed_field_items _ b b' "block_types" Ht)
      as (mt & mt' & -> & -> & Ft).
    cbn [bind].
    exists (sorted_items ma), (sorted_items ma'), (sorted_items mt), (sorted_items mt').
    repeat split; assumption.
Qed.

Lemma extend_each_attributes_redescribed (sa sa' : dict) (lvl : Z) (ro : bool) :
  Forall2 (same_key redescribed_attribute) sa sa' ->
  extend_each (fun '(attr_name, attr_schema) =>
                 _format_attribute attr_name attr_schema false lvl ro) sa
  = extend_each (fun '(attr_name, attr_schema) =>
                   _format_attribute attr_name attr_schema false lvl ro) sa'.
Proof.
  apply extend_each_same_key.
  intros [k v] [k' v'] [Hk Hv]. cbn in Hk, Hv. subst k'.
  now apply format_attribute_redescribed.
Qed.

Lemma format_block_type_fuel_redescribed (fuel : nat) :
  forall name schema schema' lvl ro,
    redescribed schema schema' ->
    format_block_type_fuel fuel name schema false lvl ro =
    format_block_type_fuel fuel name schema' false lvl ro.
Proof.
  induction fuel as [|fuel IH]; intros name schema schema' lvl ro H; [reflexivity|].
  cbn [format_block_type_fuel]. unfold format_block_type_body.
  pose proof H as H0. inversion H0 as [s s' Hsame _]; subst.
  destruct (redescribed_block_members s s' H) as (sa & sa' & sb & sb' & -> & -> & Fa & Fb).
  assert (G : forall k, k <> "description" -> k <> "block" -> forall dflt,
            py_get (JObj s) k dflt = py_get (JObj s') k dflt).
  { intros k Hk Hk' dflt. cbn [py_get]. now rewrite (Hsame k Hk Hk'). }
  rewrite (G "min_items"), (G "nesting_mode"), (G "max_items") by discriminate.
  change (get_description (JObj s) false) with (get_description (JObj s') false).
  assert (RM : forall lvl',
             render_members (format_block_type_fuel fuel) sa sb false lvl' ro =
             render_members (format_block_type_fuel fuel) sa' sb' false lvl' ro).
  { intros lvl'. unfold render_members.
    rewrite (extend_each_attributes_redescribed sa sa' lvl' ro Fa).
    rewrite (extend_each_same_key redescribed
               (fun '(bt_name, bt_schema) =>
                  format_block_type_fuel fuel bt_name bt_schema false lvl' ro)
               (fun '(bt_name, bt_schema) =>
                  format_block_type_fuel fuel bt_name bt_schema false lvl' ro) sb sb');
      [reflexivity | | exact Fb].
    intros [k v] [k' v'] [Hk Hv]. cbn in Hk, Hv. subst k'. now apply IH. }
  cbn [py_get bind].
  destruct (ro && eq_zero _); [reflexivity|].
  cbn [get_description bind].
  now rewrite !RM.
Qed.

Lemma format_block_type_redescribed (name : string) (schema schema' : json)
    (lvl : Z) (ro : bool) :
  redescribed schema schema' ->
  _format_block_type name schema false lvl ro = _format_block_type name schema' false lvl ro.
Proof.
  intros H. unfold _format_block_type.
  set (F := S (Nat.max (json_depth schema) (json_depth schema'))).
  rewrite (fuel_irrelevant (S (json_depth schema)) F) by (unfold F; lia).
  rewrite (fuel_irrelevant (S (json_depth schema')) F) by (unfold F; lia).
  now apply format_block_type_fuel_redescribed.
Qed.

Lemma template_lines_redescribed (block_type name : string) (b b' : dict)
    (ro : bool) (lvl : Z) :
  redescribed_block redescribed b b' ->
  template_lines block_type name (JObj b) false ro lvl =
  template_lines block_type name (JObj b') false ro lvl.
Proof.
  intros [Ha Ht]. rewrite !template_lines_reads.
  destruct (redescribed_field_items _ b b' "attributes" Ha)
    as (ma & ma' & -> & -> & Fa).
  destruct (redescribed_field_items _ b b' "block_types" Ht)
    as (mt & mt' & -> & -> & Ft).
  cbn [bind].
  rewrite (extend_each_attributes_redescribed _ _ (lvl + 1) ro Fa).
  destruct (extend_each _ (sorted_items ma')); cbn [bind]; [|reflexivity].
  rewrite (extend_each_same_key redescribed
             (fun '(bt_name, bt_schema) =>
                _format_block_type bt_name bt_schema false (lvl + 1) ro)
             (fun '(bt_name, bt_schema) =>
                _format_block_type bt_name bt_schema false (lvl + 1) ro)
             (sorted_items mt) (sorted_items mt'));
    [reflexivity | | exact Ft].
  intros [k v] [k' v'] [Hk Hv]. cbn in Hk, Hv. subst k'.
  now apply format_block_type_redescribed.
Qed.

(** X20.  With the descriptions switched off no description reaches the
    output, nor is one read: two attributes, two block-types or two root
    blocks that differ only in the descriptions they and their members
    carry, at any depth, whatever the values under the [description] keys,
    render to the same result. *)
Theorem descriptions_off_ignores_descriptions (name : string) (lvl : Z) (ro : bool) :
  (forall a a', redescribed_attribute a a' ->
     _format_attribute name a false lvl ro = _format_attribute name a' false lvl ro) /\
  (forall s s', redescribed s s' ->
     _format_block_type name s false lvl ro = _format_block_type name s' false lvl ro) /\
  (forall block_type b b', redescribed_block redescribed b b' ->
     template_lines block_type name (JObj b) false ro lvl
     = template_lines block_type name (JObj b') false ro lvl).
Proof.
  split; [|split].
  - intros a a'. apply format_attribute_redescribed.
  - intros s s'. apply format_block_type_redescribed.
  - intros block_type b b'. apply template_lines_redescribed.
Qed.

Lemma disk_redescribed :
  redescribed
    (disk_block_type [("description", JStr "The disk")] [("description", JStr "In GB")])
    (disk_block_type [("description", JInt 7)] []).
Proof.
  apply redescribed_intro.
  - intros k Hd Hb. cbn [app lookup].
    destruct (String.eqb_spec k "description") as [->|_]; [now elim Hd|].
    destruct (String.eqb k "nesting_mode"); [reflexivity|].
    destruct (String.eqb_spec k "block") as [->|_]; [now elim Hb | reflexivity].
  - right. eexists _, _. split; [reflexivity|]. split; [reflexivity|]. split.
    + right. eexists _, _. split; [reflexivity|]. split; [reflexivity|].
      constructor; [|constructor]. split; [reflexivity|].
      eexists _, _. split; [reflexivity|]. split; [reflexivity|].
      intros k Hd. cbn [app lookup].
      destruct (String.eqb_spec k "description") as [->|_]; [now elim Hd | reflexivity].
    + left. split; reflexivity.
Defined.

Lemma descriptions_off_ignores_descriptions_witness :
  _format_block_type "disk"
    (disk_block_type [("description", JStr "The disk")] [("description", JStr "In GB")])
    false 1 false
  = _format_block_type "disk" (disk_block_type [("description", JInt 7)] []) false 1 false.
Proof.
  exact (proj1 (proj2 (descriptions_off_ignores_descriptions "disk" 1 false))
           _ _ disk_redescribed).
Defined.

(** ** The lines of a description *)

Lemma split_on_one_line (a b : string) :
  one_line a = true ->
  split_on nl (a +++ b) = (a +++ hd EmptyString (split_on nl b)) :: tl (split_on nl b).
Proof.
  induction a as [|c a IH]; cbn [one_line String.append]; intros H.
  - destruct (split_on nl b) eqn:E; [now elim (split_on_not_nil nl b) | reflexivity].
  - apply andb_true_iff in H as [Hc Ha]. apply negb_true_iff in Hc.
    cbn [split_on]. rewrite Hc, (IH Ha). reflexivity.
Qed.

Lemma split_on_line (a : string) : one_line a = true -> split_on nl a = [a].
Proof.
  intros H. rewrite <- (append_empty_r a) at 1.
  rewrite (split_on_one_line a EmptyString H). cbn. now rewrite append_empty_r.
Qed.

Lemma one_line_split (s x : string) : In x (split_on nl s) -> one_line x = true.
Proof.
  revert x. induction s as [|c s IH]; intros x; cbn [split_on].
  - now intros [<-|[]].
  - destruct (Ascii.eqb c nl) eqn:Ec.
    + intros [<-|H]; [reflexivity | now apply IH].
    + destruct (split_on nl s) as [|h t] eqn:E; [now elim (split_on_not_nil nl s)|].
      intros [<-|H].
      * cbn [one_line]. rewrite Ec. cbn [negb andb]. apply IH. now left.
      * apply IH. now right.
Qed.

Lemma one_line_append (a b : string) :
  one_line (a +++ b) = one_line a && one_line b.
Proof.
  induction a as [|c a IH]; cbn [one_line String.append]; [reflexivity|].
  now rewrite IH, andb_assoc.
Qed.

Lemma one_line_indent (lvl : Z) : one_line (py_repeat "  " lvl) = true.
Proof.
  unfold py_repeat. induction (Z.to_nat lvl) as [|n IH]; cbn [repeat_nat]; [reflexivity|].
  now rewrite one_line_append, IH.
Qed.

(** the comment lines of a description are lines *)
Lemma desc_lines_one_line (lvl : Z) (description : option string) :
  Forall (fun line => one_line line = true)
         (desc_lines (py_repeat "  " lvl) description).
Proof.
  unfold desc_lines. destruct description as [s|]; [|constructor].
  rewrite Forall_map, Forall_forall. intros line Hin.
  apply filter_In in Hin as [Hin _]. apply one_line_split in Hin.
  now rewrite !one_line_append, one_line_indent, Hin.
Qed.

Lemma flat_map_split_lines (ls : list string) :
  Forall (fun line => one_line line = true) ls -> flat_map (split_on nl) ls = ls.
Proof.
  induction 1 as [|x ls Hx _ IH]; cbn [flat_map]; [reflexivity|].
  now rewrite (split_on_line x Hx), IH.
Qed.

(** X21.  The comment chunk that precedes the assignment of a described
    attribute reads, line by line, as the lines of the stripped description
    that are not blank, in their order, each after the indentation and
    [# ], followed by the annotation, which opens with the indentation and
    [# ] as well: blank lines are dropped, no other line is lost or
    merged. *)
Theorem attribute_description_lines (name : string) (schema : json) (lvl : Z) (ro : bool)
    (s chunk assignment : string) :
  py_get schema "description" (JStr EmptyString) = Ok (JStr s) ->
  _format_attribute name schema true lvl ro = Ok [chunk; assignment] ->
  let indent := py_repeat "  " lvl in
  exists annotation,
    split_on nl chunk
    = map (fun line => indent +++ "# " +++ line)
          (filter (fun line => nonempty (strip line)) (split_on nl (strip s)))
      ++ split_on nl (indent +++ "# " +++ annotation).
Proof.
  intros Hs H indent.
  apply format_attribute_cases in H
    as [H|(type_ & default & description & annotation & Hd & [[_ H]|[_ H]])];
    try discriminate H.
  injection H as -> _. exists annotation.
  unfold get_description in Hd. rewrite Hs in Hd. cbn [bind py_strip] in Hd.
  injection Hd as <-. fold indent.
  rewrite split_on_join by (now destruct (desc_lines indent (Some (strip s)))).
  rewrite flat_map_app, flat_map_split_lines by apply desc_lines_one_line.
  cbn [flat_map]. now rewrite app_nil_r.
Qed.

Lemma attribute_description_lines_witness :
  _format_attribute "size"
    (JObj [("type", JStr "number");
           ("description",
            JStr (" The size." +++ NL +++ NL +++ "  In GB." +++ NL))]) true 1 false
    = Ok ["  # The size." +++ NL +++ "  #   In GB." +++ NL +++ "  # computed, type: number";
          "  size = 0"] /\
  exists annotation,
    split_on nl ("  # The size." +++ NL +++ "  #   In GB." +++ NL
                 +++ "  # computed, type: number")
    = map (fun line => py_repeat "  " 1 +++ "# " +++ line)
          (filter (fun line => nonempty (strip line))
                  (split_on nl (strip (" The size." +++ NL +++ NL +++ "  In GB." +++ NL))))
      ++ split_on nl (py_repeat "  " 1 +++ "# " +++ annotation).
Proof.
  split; [reflexivity|].
  exact (attribute_description_lines "size"
           (JObj [("type", JStr "number");
                  ("description",
                   JStr (" The size." +++ NL +++ NL +++ "  In GB." +++ NL))])
           1 false _ _ "  size = 0" eq_refl eq_refl).
Defined.

(** ** When a template is returned *)

Lemma extend_each_ok_each {A} (f : A -> outcome (list string)) (xs : list A)
    (r : list string) :
  extend_each f xs = Ok r -> forall x, In x xs -> exists l, f x = Ok l.
Proof.
  revert r. induction xs as [|x xs IH]; intros r H y Hy; [destruct Hy|].
  cbn [extend_each] in H.
  apply bind_ok in H as (l & Hl & H). apply bind_ok in H as (r' & Hr & _).
  destruct Hy as [<-|Hy]; [now exists l | now apply (IH r')].
Qed.

(** X22.  [generate_hcl_template] returns a template exactly when the name
    resolves to a block that is a non-empty mapping, whose [attributes] and
    [block_types] are mappings or absent, and every one of these members
    renders: no member is left out of a template because it failed, and no
    partial template is returned. *)
Theorem template_iff_every_member_renders (p : parser) (name : string)
    (wd ro : bool) (lvl : Z) :
  (exists out, generate_hcl_template p name wd ro lvl = Ok out) <->
  exists d attrs bts,
    get_schema_block p name = Ok (JObj d) /\ d <> [] /\
    members_of d "attributes" = Some attrs /\
    members_of d "block_types" = Some bts /\
    (forall k v, In (k, v) attrs ->
       exists l, _format_attribute k v wd (lvl + 1) ro = Ok l) /\
    (forall k v, In (k, v) bts ->
       exists l, _format_block_type k v wd (lvl + 1) ro = Ok l).
Proof.
  split.
  - intros (out & H). unfold generate_hcl_template in H.
    apply bind_ok in H as (block & Hb & H).
    destruct (truthy block) eqn:Ht; cbn [negb] in H; [|discriminate H].
    apply bind_ok in H as (lines & Hl & _).
    unfold template_lines in Hl.
    apply bind_ok in Hl as (va & Hva & Hl).
    destruct block as [| | | | |d]; try discriminate Hva.
    apply bind_ok in Hl as (attrs & Hattrs & Hl).
    apply bind_ok in Hl as (la & Hla & Hl).
    apply bind_ok in Hl as (vt & Hvt & Hl).
    apply bind_ok in Hl as (bts & Hbts & Hl).
    apply bind_ok in Hl as (lb & Hlb & _).
    exists d, attrs, bts.
    split; [exact Hb|]. split; [now destruct d|].
    split; [exact (members_of_get _ _ _ _ Hva Hattrs)|].
    split; [exact (members_of_get _ _ _ _ Hvt Hbts)|].
    split.
    + intros k v Hin. apply (proj2 (sorted_items_in _ _)) in Hin.
      exact (extend_each_ok_each _ _ _ Hla (k, v) Hin).
    + intros k v Hin. apply (proj2 (sorted_items_in _ _)) in Hin.
      exact (extend_each_ok_each _ _ _ Hlb (k, v) Hin).
  - intros (d & attrs & bts & Hb & Hne & Ha & Ht & Hattrs & Hbts).
    unfold generate_hcl_template. rewrite Hb. cbn [bind].
    replace (truthy (JObj d)) with true by (destruct d; [now elim Hne | reflexivity]).
    cbn [negb]. unfold template_lines.
    destruct (members_of_items _ _ _ Ha) as (va & -> & Hva). cbn [bind].
    rewrite Hva. cbn [bind].
    destruct (extend_each_total
                (fun '(attr_name, attr_schema) =>
                   _format_attribute attr_name attr_schema wd (lvl + 1) ro)
                (sorted_items attrs)) as (la & ->).
    { intros [k v] Hin. apply (proj1 (sorted_items_in _ _)) in Hin. now apply Hattrs. }
    cbn [bind].
    destruct (members_of_items _ _ _ Ht) as (vt & -> & Hvt). cbn [bind].
    rewrite Hvt. cbn [bind].
    destruct (extend_each_total
                (fun '(bt_name, bt_schema) =>
                   _format_block_type bt_name bt_schema wd (lvl + 1) ro)
                (sorted_items bts)) as (lb & ->).
    { intros [k v] Hin. apply (proj1 (sorted_items_in _ _)) in Hin. now apply Hbts. }
    eexists. reflexivity.
Qed.

Lemma template_iff_every_member_renders_witness :
  (exists out, generate_hcl_template catalogue "azurerm_subnet" true false 0 = Ok out) /\
  exists l, _format_attribute "name"
              (JObj [("type", JStr "string"); ("required", JBool true)]) true (0 + 1) false
            = Ok l.
Proof.
  assert (H : exists out,
            generate_hcl_template catalogue "azurerm_subnet" true false 0 = Ok out)
    by (eexists; reflexivity).
  split; [exact H|].
  destruct (proj1 (template_iff_every_member_renders catalogue "azurerm_subnet"
                     true false 0) H)
    as (d & attrs & bts & Hb & _ & Ha & _ & Hattrs & _).
  injection Hb as <-. injection Ha as <-.
  apply (Hattrs "name"). now left.
Defined.

(** ** The numbered matches *)

Lemma enumerate_nth {A} (l : list A) (start : Z) (n : nat) :
  nth_error (enumerate l start) n
  = option_map (fun x => (start + Z.of_nat n, x)) (nth_error l n).
Proof.
  revert start n. induction l as [|x l IH]; intros start [|n]; cbn [enumerate nth_error option_map];
    try reflexivity.
  - now rewrite Z.add_0_r.
  - rewrite IH. destruct (nth_error l n); cbn [option_map]; [|reflexivity].
    do 2 f_equal. lia.
Qed.

(** X23.  The number shown before a match is the number that selects it:
    the line of rank [n] reads [n + 1], a dot and the name that the
    selection [n + 1] returns; a selection from 1 to the number of matches
    always returns a name, and every other selection returns none. *)
Theorem shown_number_selects_match (matches : list string) :
  (forall n name,
     nth_error matches n = Some name ->
     nth_error (match_lines matches) n
       = Some (str_of_Z (Z.of_nat n + 1) +++ ". " +++ name) /\
     selected_match matches (Z.of_nat n + 1) = Some name) /\
  (forall selection,
     1 <= selection <= Z.of_nat (List.length matches) <->
     exists name, selected_match matches selection = Some name) /\
  List.length (match_lines matches) = List.length matches.
Proof.
  split; [|split].
  - intros n name Hn. split.
    + unfold match_lines. rewrite nth_error_map, enumerate_nth, Hn.
      cbn [option_map]. now rewrite Z.add_comm.
    + unfold selected_match.
      assert (n < List.length matches)%nat by (apply nth_error_Some; congruence).
      replace (1 <=? Z.of_nat n + 1) with true by (symmetry; apply Z.leb_le; lia).
      replace (Z.of_nat n + 1 <=? Z.of_nat (List.length matches)) with true
        by (symmetry; apply Z.leb_le; lia).
      cbn [andb]. replace (Z.to_nat (Z.of_nat n + 1 - 1)) with n by lia. exact Hn.
  - intros selection. unfold selected_match. split.
    + intros [H1 H2].
      replace (1 <=? selection) with true by (symmetry; apply Z.leb_le; lia).
      replace (selection <=? Z.of_nat (List.length matches)) with true
        by (symmetry; apply Z.leb_le; lia).
      cbn [andb].
      destruct (nth_error matches (Z.to_nat (selection - 1))) as [name|] eqn:E;
        [now exists name|].
      apply nth_error_None in E. lia.
    + intros (name & H).
      destruct (1 <=? selection) eqn:E1; [|discriminate H].
      destruct (selection <=? Z.of_nat (List.length matches)) eqn:E2; [|discriminate H].
      apply Z.leb_le in E1, E2. lia.
  - unfold match_lines. rewrite length_map.
    generalize 1. induction matches as [|x l IH]; intros start; cbn [enumerate List.length];
      [reflexivity | now rewrite IH].
Qed.

Lemma shown_number_selects_match_witness :
  nth_error (match_lines ["azurerm_subnet"; "azurerm_virtual_network"]) 1
    = Some "2. azurerm_virtual_network" /\
  selected_match ["azurerm_subnet"; "azurerm_virtual_network"] 2
    = Some "azurerm_virtual_network".
Proof.
  exact (proj1 (shown_number_selects_match ["azurerm_subnet"; "azurerm_virtual_network"])
           1%nat "azurerm_virtual_network" eq_refl).
Defined.

(** ** The errors of the resolver and of the attribute renderer *)

Lemma parse_type_outcome (t : json) :
  (exists sig, _parse_type t = Ok sig /\ ~ short_descriptor t) \/
  (_parse_type t = Raise IndexError /\ short_descriptor t).
Proof.
  revert t. fix parse_type_outcome 1. intros t.
  destruct t as [| | | |l|];
    try (left; eexists; split; [reflexivity | intros H; inversion H]).
  destruct l as [|h tl]; [right; split; [reflexivity | constructor]|].
  cbn [_parse_type]. fold (collection_tag h).
  destruct (collection_tag h) eqn:Eh.
  - destruct tl as [|e rest]; [right; split; [reflexivity | now constructor]|].
    destruct (parse_type_outcome e) as [(sig & Hs & Hn)|[Hr Hs]].
    + left. rewrite Hs. eexists. split; [reflexivity|].
      intros H. inversion H; subst. contradiction.
    + right. rewrite Hr. split; [reflexivity | now constructor].
  - left.
    assert (N : ~ short_descriptor (JArr (h :: tl))).
    { intros H. inversion H; subst; congruence. }
    destruct (eq_str h "object"); [eexists; split; [reflexivity | exact N]|].
    destruct (eq_str h "tuple"); eexists; split; try reflexivity; exact N.
Qed.

(** X24.  [_parse_type] raises nothing but IndexError, and raises it
    exactly on the empty list, on a [list], [set] or [map] tag that is not
    followed by an element type, and on a collection whose element type is
    such a descriptor in its turn; on every other value it returns a
    signature. *)
Theorem parse_type_fails_on_short_descriptors (t : json) :
  (forall e, _parse_type t = Raise e -> e = IndexError) /\
  (_parse_type t = Raise IndexError <-> short_descriptor t) /\
  ((exists sig, _parse_type t = Ok sig) <-> ~ short_descriptor t).
Proof.
  destruct (parse_type_outcome t) as [(sig & Hs & Hn)|[Hr Hs]].
  - rewrite Hs. split; [discriminate|]. split.
    + split; [discriminate | contradiction].
    + split; [now intros _ | intros _; now exists sig].
  - rewrite Hr. split; [now intros e [= <-]|]. split.
    + split; [now intros _ | reflexivity].
    + split; [intros (sig & H); discriminate H | contradiction].
Qed.

Lemma parse_type_fails_on_short_descriptors_witness :
  short_descriptor (JArr [JStr "list"; JArr [JStr "map"]]) /\
  _parse_type (JArr [JStr "list"; JArr [JStr "map"]]) = Raise IndexError /\
  exists sig, _parse_type (JArr [JStr "list"; JArr [JStr "shape"]]) = Ok sig.
Proof.
  assert (S : short_descriptor (JArr [JStr "list"; JArr [JStr "map"]]))
    by (repeat constructor).
  split; [exact S|]. split.
  - exact (proj2 (proj1 (proj2
             (parse_type_fails_on_short_descriptors (JArr [JStr "list"; JArr [JStr "map"]])))) S).
  - apply (proj2 (proj2 (parse_type_fails_on_short_descriptors
                          (JArr [JStr "list"; JArr [JStr "shape"]])))).
    intros H. inversion H as [| |h e rest Hh He]; subst.
    inversion He as [|h' Hh'|]; subst. discriminate Hh'.
Defined.

(** X25.  [_format_attribute] fails in three cases only: with
    AttributeError when the descriptor is not a mapping; with IndexError
    when the descriptor is a mapping whose type is a short descriptor; with
    AttributeError when the type resolves, descriptions are shown and the
    description is present without being a str.  In the required-only mode
    a mapping that is not required is skipped before any of this is
    looked at. *)
Theorem format_attribute_errors (name : string) (schema : json) (wd : bool)
    (lvl : Z) (ro : bool) :
  (forall e, _format_attribute name schema wd lvl ro = Raise e ->
     (e = AttributeError /\ forall d, schema <> JObj d) \/
     exists d, schema = JObj d /\
       let type_ := match lookup "type" d with Some t => t | None => JNull end in
       (e = IndexError /\ short_descriptor type_) \/
       (e = AttributeError /\ ~ short_descriptor type_ /\ wd = true /\
        exists v, lookup "description" d = Some v /\ forall s, v <> JStr s)) /\
  (forall d, schema = JObj d -> ro = true ->
     truthy (match lookup "required" d with Some r => r | None => JBool false end) = false ->
     _format_attribute name schema wd lvl ro = Ok []).
Proof.
  split.
  - intros e H.
    destruct schema as [| | | | |d];
      try (left; split; [destruct ro; cbn in H; congruence | intros d; discriminate]).
    right. exists d. split; [reflexivity|]. cbv zeta.
    unfold _format_attribute in H. cbn [py_get bind] in H.
    assert (H' :
      (type_ <- _parse_type (match lookup "type" d with Some v => v | None => JNull end) ;;
       description <- get_description (JObj d) wd ;;
       @Ok (list string) []) = Raise e).
    { destruct ro; cbn [bind] in H.
      - destruct (negb (truthy _)) in H; [discriminate H|].
        destruct (_parse_type _) as [type_|]; cbn [bind] in *; [|exact H].
        destruct (get_description (JObj d) wd); cbn [bind] in *; [|exact H].
        repeat match type of H with context [if ?c then _ else _] => destruct c end;
          discriminate H.
      - destruct (_parse_type _) as [type_|]; cbn [bind] in *; [|exact H].
        destruct (get_description (JObj d) wd); cbn [bind] in *; [|exact H].
        repeat match type of H with context [if ?c then _ else _] => destruct c end;
          discriminate H. }
    clear H.
    destruct (parse_type_outcome (match lookup "type" d with Some v => v | None => JNull end))
      as [(sig & Hs & Hn)|[Hr Hs]].
    + rewrite Hs in H'. cbn [bind] in H'. right.
      unfold get_description in H'. destruct wd; [|discriminate H'].
      cbn [py_get bind] in H'.
      destruct (lookup "description" d) as [v|] eqn:Ev; [|discriminate H'].
      destruct v; cbn [py_strip bind] in H'; try discriminate H';
        injection H' as <-; (split; [reflexivity|]); (split; [exact Hn|]);
        (split; [reflexivity|]); eexists; (split; [reflexivity|]); intros s; discriminate.
    + rewrite Hr in H'. cbn [bind] in H'. injection H' as <-. left. now split.
  - intros d -> -> Hr. unfold _format_attribute. cbn [py_get bind]. now rewrite Hr.
Qed.

Lemma format_attribute_errors_witness :
  _format_attribute "ports" (JObj [("type", JArr [JStr "set"])]) true 1 false
    = Raise IndexError /\
  short_descriptor (JArr [JStr "set"]) /\
  _format_attribute "ports" (JObj [("type", JArr [JStr "set"])]) true 1 true = Ok [].
Proof.
  pose proof (format_attribute_errors "ports" (JObj [("type", JArr [JStr "set"])])
                true 1 false) as [E _].
  pose proof (format_attribute_errors "ports" (JObj [("type", JArr [JStr "set"])])
                true 1 true) as [_ S].
  split; [reflexivity|]. split.
  - destruct (E IndexError eq_refl) as [[A _]|(d & Ed & [[_ H]|[A _]])];
      try discriminate A.
    injection Ed as <-. exact H.
  - exact (S _ eq_refl eq_refl eq_refl).
Defined.
